(** * GNU/Shark: the installation orchestration core of [gnushark.py]

    A shallow embedding of the decision logic of [src/gnushark.py]: the
    compressed-swap sizing heuristic, the package-state resolver, the source
    selector of [App.handle_action], the hardware compatibility gate, the
    completion-sentinel naming and watcher, and the idempotent install of the
    polkit policy.  Every probe of the host (a subprocess, a file read, the
    clock) is an explicit input of the model; every effect on the host (a
    query, a launched pipeline, a UI callback) is an explicit output. *)

From Stdlib Require Import ZArith QArith Qround Floats Ascii DecimalString DecimalZ Lia.
From stdpp Require Import gmap strings list.

Local Open Scope Z_scope.

(* ===================================================================== *)
(** * Python values                                                       *)
(* ===================================================================== *)

(** [str(n)] for an [int]: decimal digits, a leading [-] for negatives,
    no leading zeros, ["0"] for zero. *)
Definition str_of_int (n : Z) : string :=
  NilZero.string_of_int (Z.to_int n).

(** [float(n)] as Python converts an [int] operand of a mixed arithmetic
    expression: the nearest binary64 value, ties to even. *)
Definition float_of_int (n : Z) : float :=
  SF2Prim (binary_normalize prec emax n 0 false).

(** [int(x)] for a [float]: truncation toward zero; [None] stands for the
    [ValueError]/[OverflowError] Python raises on NaN and the infinities. *)
Definition int_of_float (x : float) : option Z :=
  match Prim2SF x with
  | S754_zero _ => Some 0
  | S754_finite sign m e =>
      let magnitude :=
        if 0 <=? e then Z.pos m * 2 ^ e else Z.pos m / 2 ^ (- e) in
      Some (if sign then - magnitude else magnitude)
  | S754_infinity _ | S754_nan => None
  end.

(** Truthiness of a list ([if xs:]) and of a string ([if s:]). *)
Definition nonempty {A} (xs : list A) : bool :=
  match xs with [] => false | _ :: _ => true end.

Definition truthy (s : string) : bool :=
  match s with EmptyString => false | String _ _ => true end.

(** [needle in hay] for two [str] values. *)
Fixpoint contains (needle hay : string) : bool :=
  String.prefix needle hay
  || match hay with
     | EmptyString => false
     | String _ rest => contains needle rest
     end.

(** [list(dict.fromkeys(xs))]: duplicates dropped, first occurrences kept in
    their order. *)
Fixpoint dedup_keep_first (seen xs : list string) : list string :=
  match xs with
  | [] => []
  | x :: rest =>
      if bool_decide (x ∈ seen) then dedup_keep_first seen rest
      else x :: dedup_keep_first (x :: seen) rest
  end.

Definition fromkeys (xs : list string) : list string := dedup_keep_first [] xs.

(* ===================================================================== *)
(** * ZRAM parameters ([App._choose_zram_params])                         *)
(* ===================================================================== *)

(** What [_detect_total_ram_mib] and [_detect_cpu_count] read from the host. *)
Record MemProbe := {
  meminfo_memtotal_kb : option Z; (* [MemTotal:] of /proc/meminfo; [None]: unreadable, absent or unparsable *)
  free_m_total : option Z;        (* [free -m | awk ...] parsed by [int]; [None]: the call or [int] raised *)
  nproc_out : option Z;           (* [nproc] parsed by [int]; [None]: the call or [int] raised *)
  os_cpu_count : option Z         (* [os.cpu_count()] *)
}.


Definition _detect_cpu_count (h : MemProbe) : Z :=
  match nproc_out h with
  | Some c => if 0 <? c then c else 1
  | None =>
      match os_cpu_count h with
      | Some c => if c =? 0 then 1 else c
      | None => 1
      end
  end.

(** [size_str = f"{size_mib // 1024}G" if size_mib % 1024 == 0 else f"{size_mib}M"] *)
Definition size_label (size_mib : Z) : string :=
  if size_mib mod 1024 =? 0 then str_of_int (size_mib / 1024) +:+ "G"
  else str_of_int size_mib +:+ "M".

(** The size before rounding; the second branch is [int(ram_mib * 0.75)],
    computed in binary64 as Python does. *)
Definition zram_raw_size (ram_mib : Z) : option Z :=
  if ram_mib <=? 4096 then Some ram_mib
  else if ram_mib <=? 8192 then int_of_float (float_of_int ram_mib * 0.75)%float
  else if ram_mib <=? 16384 then Some (ram_mib / 2)
  else if ram_mib <=? 65536 then Some 8192
  else Some 16384.

(** The body of [_choose_zram_params] after its two probes. *)
Definition choose_zram (ram_mib cores : Z) : option (string * string * Z) :=
  match zram_raw_size ram_mib with
  | None => None
  | Some raw =>
      let size_mib := Z.max 256 ((raw / 256) * 256) in
      let size_str := size_label size_mib in
      let comp := if cores <=? 2 then "lzo-rle"
                  else if cores <=? 8 then "lz4" else "zstd" in
      let swap := if ram_mib <=? 8192 then 100
                  else if ram_mib <=? 16384 then 80 else 60 in
      Some (size_str, comp, swap)
  end.


(** ** The claim's own words, for comparison with the code *)

(** "size = ramMiB if ramMiB <= 4096, else the integer part of 0.75*ramMiB if
    ramMiB <= 8192, else ramMiB/2 (integer division) if ramMiB <= 16384, else
    8192 if ramMiB <= 65536, else 16384", in exact rational arithmetic. *)
Definition spec_raw_size (ram_mib : Z) : Z :=
  if ram_mib <=? 4096 then ram_mib
  else if ram_mib <=? 8192 then Qfloor ((75 # 100) * inject_Z ram_mib)
  else if ram_mib <=? 16384 then ram_mib / 2
  else if ram_mib <=? 65536 then 8192
  else 16384.

(** "rounded down to the nearest multiple of 256 MiB with a floor of 256":
    [r] is the greatest multiple of 256 that is at most [x], or 256 when there
    is no positive one. *)
Definition rounded_down_256 (x r : Z) : Prop :=
  (256 | r) /\ 256 <= r /\
  (256 <= x -> r <= x < r + 256) /\
  (x < 256 -> r = 256).

Definition spec_compression (cores : Z) : string :=
  if cores <=? 2 then "lzo-rle" else if cores <=? 8 then "lz4" else "zstd".

Definition spec_swappiness (ram_mib : Z) : Z :=
  if ram_mib <=? 8192 then 100 else if ram_mib <=? 16384 then 80 else 60.

(** How a consumer of the label ([zram-size = 6G]) reads it back: a decimal
    count followed by the unit [G] (GiB) or [M] (MiB), as a byte count. *)
Definition MiB : Z := 1048576.

Fixpoint split_unit (s : string) : option (string * ascii) :=
  match s with
  | EmptyString => None
  | String c EmptyString => Some (EmptyString, c)
  | String c rest =>
      match split_unit rest with
      | Some (digits, u) => Some (String c digits, u)
      | None => None
      end
  end.

Definition parse_size_label (s : string) : option Z :=
  match split_unit s with
  | Some (digits, u) =>
      match NilZero.int_of_string digits with
      | Some d =>
          if Ascii.eqb u "G"%char then Some (Z.of_int d * 1024 * MiB)
          else if Ascii.eqb u "M"%char then Some (Z.of_int d * MiB)
          else None
      | None => None
      end
  | None => None
  end.

(** The check run over the whole binary64 branch: [int(ram_mib * 0.75)] is
    the integer quotient of [3 * ram_mib] by 4. *)
Definition float_branch_ok (ram : Z) : bool :=
  match int_of_float (float_of_int ram * 0.75)%float with
  | Some v => v =? 3 * ram / 4
  | None => false
  end.

(* ===================================================================== *)
(** * Package state ([pacman] queries and their cache)                    *)
(* ===================================================================== *)

(** How a [subprocess.check_output] call ended.  The lines are those of the
    captured output after [ln.strip()], in order. *)
Inductive Completed :=
  | Exited0 (lines : list string)            (* returned normally *)
  | CalledProcessError (lines : list string) (* non-zero exit; [e.output] *)
  | OtherException.                          (* any other exception *)

(** The package database as the program can observe it during one call.
    [bash] is taken to be present, so that [subprocess.run] returns a code;
    [check_output] may still raise (a non-zero exit, or an output it cannot
    decode). *)
Record PackageDb := {
  pacman_T : list string -> Completed;  (* [pacman -T p1 .. pn] *)
  pacman_Q : string -> Z;               (* return code of [pacman -Q p] *)
  pacman_Si : string -> Z;              (* return code of [pacman -Si p] *)
  pacman_Si_names : list string -> option (list string)
    (* [pacman -Si p1 .. pn | awk '/^Name/{print $2}'], stripped lines;
       [None] when [check_output] raised *)
}.

(** The queries a call sends to the package database. *)
Inductive Query :=
  | QueryT (pkgs : list string)
  | QueryQ (pkg : string)
  | QuerySi (pkg : string)
  | QuerySiBatch (pkgs : list string).

(** The memo table of [@lru_cache(maxsize=1024)], most recently used first. *)
Abbreviation Cache := (list (string * bool)).

Definition lru_maxsize : nat := 1024.

Fixpoint lru_get (k : string) (c : Cache) : option bool :=
  match c with
  | [] => None
  | (k', v) :: rest => if bool_decide (k' = k) then Some v else lru_get k rest
  end.

Definition lru_drop (k : string) (c : Cache) : Cache :=
  filter (fun e => e.1 <> k) c.

(** A hit moves the entry to the front. *)
Definition lru_touch (k : string) (v : bool) (c : Cache) : Cache :=
  (k, v) :: lru_drop k c.

(** A miss stores the new entry and evicts the least recently used one
    when the table is full. *)
Definition lru_store (k : string) (v : bool) (c : Cache) : Cache :=
  take lru_maxsize ((k, v) :: c).

(** What a resolver call threads through: the memo table and the queries
    sent so far. *)
Record World := {
  cache : Cache;
  queries : list Query
}.

Definition M (A : Type) : Type := World -> A * World.

Definition ret {A} (a : A) : M A := fun w => (a, w).

Definition bind {A B} (m : M A) (k : A -> M B) : M B :=
  fun w => let '(a, w') := m w in k a w'.

#[global] Instance M_ret : MRet M := @ret.
#[global] Instance M_bind : MBind M := fun A B k m => bind m k.

Definition ask (q : Query) : M unit :=
  fun w => (tt, {| cache := cache w; queries := queries w ++ [q] |}).

Section Resolver.

Variable db : PackageDb.

(** [_pkg_in_official_repos_cached]: [pacman -Si pkg] returned 0, memoized. *)
Definition _pkg_in_official_repos_cached (pkg : string) : M bool :=
  fun w =>
    match lru_get pkg (cache w) with
    | Some v => (v, {| cache := lru_touch pkg v (cache w); queries := queries w |})
    | None =>
        let v := pacman_Si db pkg =? 0 in
        (v, {| cache := lru_store pkg v (cache w);
               queries := queries w ++ [QuerySi pkg] |})
    end.

(** [{p for p in pkgs if _pkg_in_official_repos_cached(p)}] *)
Fixpoint official_one_by_one (pkgs : list string) : M (gset string) :=
  match pkgs with
  | [] => ret ∅
  | p :: rest =>
      b ← _pkg_in_official_repos_cached p;
      s ← official_one_by_one rest;
      ret (if b : bool then {[ p ]} ∪ s else s)
  end.

Definition _which_in_official_repos (pkgs : list string) : M (gset string) :=
  let plist := filter (fun p => truthy p = true) pkgs in
  if nonempty plist then
    ask (QuerySiBatch plist);;
    match pacman_Si_names db plist with
    | Some lines => ret (list_to_set (filter (fun ln => truthy ln = true) lines))
    | None => official_one_by_one pkgs
    end
  else ret ∅.

(** The loop of [_split_official_aur]:
    [(official if p in official_set else aur).append(p)]. *)
Fixpoint split_loop (official_set : gset string) (pkgs official aur : list string)
  : list string * list string :=
  match pkgs with
  | [] => (official, aur)
  | p :: rest =>
      if bool_decide (p ∈ official_set)
      then split_loop official_set rest (official ++ [p]) aur
      else split_loop official_set rest official (aur ++ [p])
  end.

Definition _split_official_aur (pkgs : list string) : M (list string * list string) :=
  official_set ← _which_in_official_repos pkgs;
  ret (split_loop official_set pkgs [] []).

(** The loop of [_resolve_virtual_pkgs]. *)
Fixpoint resolve_loop (pkgs resolved : list string) : M (list string) :=
  match pkgs with
  | [] => ret resolved
  | p :: rest =>
      if bool_decide (p = "vkd3d-proton") then
        primary ← _pkg_in_official_repos_cached "vkd3d-proton";
        if primary : bool then resolve_loop rest (resolved ++ ["vkd3d-proton"])
        else
          fallback ← _pkg_in_official_repos_cached "vkd3d-proton-bin";
          if fallback : bool then resolve_loop rest (resolved ++ ["vkd3d-proton-bin"])
          else resolve_loop rest (resolved ++ ["vkd3d-proton-bin"])
      else resolve_loop rest (resolved ++ [p])
  end.

Definition _resolve_virtual_pkgs (pkgs : list string) : M (list string) :=
  resolve_loop pkgs [].

(** The last resort of [_missing_packages]: one [pacman -Q] per package. *)
Fixpoint missing_one_by_one (pkgs missing : list string) : M (list string) :=
  match pkgs with
  | [] => ret missing
  | p :: rest =>
      ask (QueryQ p);;
      if pacman_Q db p =? 0 then missing_one_by_one rest missing
      else missing_one_by_one rest (missing ++ [p])
  end.

Definition _missing_packages (pkgs : list string) : M (list string) :=
  let pkgs := filter (fun p => truthy p = true) pkgs in
  if nonempty pkgs then
    ask (QueryT pkgs);;
    match pacman_T db pkgs with
    | Exited0 lines => ret (filter (fun ln => truthy ln = true) lines)
    | CalledProcessError lines => ret (filter (fun ln => truthy ln = true) lines)
    | OtherException => missing_one_by_one pkgs []
    end
  else ret [].

(** [len(set(xs))] *)
Definition distinct_count (xs : list string) : nat :=
  size (list_to_set xs : gset string).

Definition _any_installed (pkgs : list string) : M bool :=
  let pkgs := filter (fun p => truthy p = true) pkgs in
  if nonempty pkgs then
    missing ← _missing_packages pkgs;
    ret (distinct_count missing <? distinct_count pkgs)%nat
  else ret false.

End Resolver.

(** What the resolution does to one name when the primary is not in the
    official repositories. *)
Definition to_fallback (p : string) : string :=
  if bool_decide (p = "vkd3d-proton") then "vkd3d-proton-bin" else p.

(** A fresh process: nothing memoized, nothing asked. *)
Definition fresh_world : World := {| cache := []; queries := [] |}.

(** The memo table only holds answers of the database [db]. *)
Definition cache_coherent (db : PackageDb) (c : Cache) : Prop :=
  forall k v, (k, v) ∈ c -> v = (pacman_Si db k =? 0).

(* ===================================================================== *)
(** * Source selection ([App.handle_action], "Repo > Flatpak > AUR")      *)
(* ===================================================================== *)

(** [flatpak_id and self._flatpak_available()]: the configured identifier
    when it is a non-empty string and [flatpak] is on [PATH]. *)
Definition usable_flatpak (flatpak_id : option string) (flatpak_available : bool)
  : option string :=
  match flatpak_id with
  | Some fid => if truthy fid && flatpak_available then Some fid else None
  | None => None
  end.

(* ===================================================================== *)
(** * Hardware detection and the compatibility gate                       *)
(* ===================================================================== *)

(** What the hardware probes read.  Texts are given as the program matches
    them: after [.lower()], and empty when the command or the read failed. *)
Record HwProbe := {
  cpuinfo_lower : string;          (* /proc/cpuinfo *)
  lscpu_lower : string;            (* [lscpu || true] *)
  lspci_lower : string;            (* [lspci -nnk | grep -iE 'vga|3d|display' -A2 || true] *)
  sysfs_vendor_ids : list string;  (* each readable card*/device/vendor, after [.strip().lower()] *)
  lsmod_names : string             (* [lsmod | awk '{print $1}' | tr ...] *)
}.

Definition detect_cpu_vendor (hw : HwProbe) : string :=
  let low := if truthy (cpuinfo_lower hw) then cpuinfo_lower hw else lscpu_lower hw in
  if contains "genuineintel" low || contains "intel" low then "intel"
  else if contains "authenticamd" low || contains "amd" low then "amd"
  else "".

Definition _gpu_vendors_from_lspci (hw : HwProbe) : list string :=
  let out := lspci_lower hw in
  let found := [] in
  let found := if contains "nvidia" out then found ++ ["nvidia"] else found in
  let found := if contains "amd" out || contains "ati" out then found ++ ["amd"] else found in
  let found := if contains "intel" out then found ++ ["intel"] else found in
  fromkeys found.

(** [vid[2:]] when [vid.startswith("0x")]. *)
Definition strip_0x (vid : string) : string :=
  match vid with
  | String "0" (String "x" rest) => rest
  | _ => vid
  end.

Fixpoint sysfs_loop (vids vendors : list string) : list string :=
  match vids with
  | [] => vendors
  | vid :: rest =>
      let vid := strip_0x vid in
      if bool_decide (vid = "10de") then sysfs_loop rest (vendors ++ ["nvidia"])
      else if bool_decide (vid = "1002") then sysfs_loop rest (vendors ++ ["amd"])
      else if bool_decide (vid = "8086") then sysfs_loop rest (vendors ++ ["intel"])
      else sysfs_loop rest vendors
  end.

Definition _gpu_vendors_from_sysfs (hw : HwProbe) : list string :=
  fromkeys (sysfs_loop (sysfs_vendor_ids hw) []).

Definition _gpu_modules_present (hw : HwProbe) : list string :=
  let out := lsmod_names hw in
  let vendors := [] in
  let vendors := if contains "nvidia" out then vendors ++ ["nvidia"] else vendors in
  let vendors := if contains "amdgpu" out || contains "radeon" out
                 then vendors ++ ["amd"] else vendors in
  let vendors := if contains "i915" out then vendors ++ ["intel"] else vendors in
  fromkeys vendors.

(** "lspci -> sysfs" *)
Definition detect_gpu_vendors (hw : HwProbe) : list string :=
  let vendors := _gpu_vendors_from_lspci hw in
  if nonempty vendors then vendors else _gpu_vendors_from_sysfs hw.

(** The fields of [App] the gate reads, set by [__init__]. *)
Record App := {
  cpu_vendor : string;
  gpu_vendors : list string
}.

Definition App_init (hw : HwProbe) : App :=
  {| cpu_vendor := detect_cpu_vendor hw; gpu_vendors := detect_gpu_vendors hw |}.

(** The error dialogs of [_block_incompatible], all titled
    "Hardware incompatível". *)
Inductive Incompatibility :=
  | NoNvidiaGpu
  | AmdCpuNoIntelGpu
  | NoIntelGpu
  | NoAmdGpu.

(** [vendors = set(self.gpu_vendors or detect_gpu_vendors())
     vendors |= set(self._kernel_module_vendors())] *)
Definition gate_vendors (app : App) (hw : HwProbe) : gset string :=
  list_to_set (if nonempty (gpu_vendors app) then gpu_vendors app
               else detect_gpu_vendors hw)
  ∪ list_to_set (_gpu_modules_present hw).

(** Returns whether the action is blocked and the error shown, if any. *)
Definition _block_incompatible (app : App) (hw : HwProbe) (item_id : string)
  : bool * option Incompatibility :=
  let vendors := gate_vendors app hw in
  let cpu :=
    let c := if truthy (cpu_vendor app) then cpu_vendor app else detect_cpu_vendor hw in
    if truthy c then c else "desconhecido" in
  if bool_decide (item_id = "nvidia-driver") && bool_decide ("nvidia" ∉ vendors)
  then (true, Some NoNvidiaGpu)
  else if bool_decide (item_id = "intel-mesa") && bool_decide ("intel" ∉ vendors)
  then (true, Some (if bool_decide (cpu = "amd") then AmdCpuNoIntelGpu else NoIntelGpu))
  else if bool_decide (item_id = "amd-mesa") && bool_decide ("amd" ∉ vendors)
  then (true, Some NoAmdGpu)
  else (false, None).

(** How [handle_action] starts: the Flathub card has its own flow; every
    other item passes the gate before its packages are even looked up. *)
Inductive Entry :=
  | FlathubCardFlow
  | Blocked (shown : option Incompatibility)
  | Proceed.

Definition handle_action_entry (app : App) (hw : HwProbe) (item_id : string) : Entry :=
  if bool_decide (item_id = "flathub") then FlathubCardFlow
  else
    let gate := _block_incompatible app hw item_id in
    if gate.1 then Blocked gate.2 else Proceed.

(** A host whose PCI listing and sysfs show no GPU at all while the NVIDIA
    kernel modules are loaded. *)
Definition hw_nvidia_module_only : HwProbe := {|
  cpuinfo_lower := "vendor_id : genuineintel";
  lscpu_lower := "";
  lspci_lower := "";
  sysfs_vendor_ids := [];
  lsmod_names := "nvidia_drm nvidia_modeset nvidia"
|}.

(** A host with an Intel GPU only. *)
Definition hw_intel_only : HwProbe := {|
  cpuinfo_lower := "vendor_id : genuineintel";
  lscpu_lower := "";
  lspci_lower := "00:02.0 vga compatible controller [0300]: intel corporation uhd graphics [8086:9a49]";
  sysfs_vendor_ids := ["0x8086"];
  lsmod_names := "i915 snd_hda_intel"
|}.

(* ===================================================================== *)
(** * The completion sentinel                                             *)
(* ===================================================================== *)

(** [f"/tmp/gnusk_done_{os.getpid()}_{int(time.time()*1000)}"], from the
    process id and the reading of [time.time()]. *)
Definition sentinel_path (pid : Z) (now : float) : option string :=
  match int_of_float (now * 1000)%float with
  | Some ms => Some ("/tmp/gnusk_done_" +:+ str_of_int pid +:+ "_" +:+ str_of_int ms)
  | None => None
  end.

(** The calls handed to the UI thread with [GLib.idle_add]. *)
Inductive UiCall :=
  | Deiconify
  | Present
  | Info (title message : string).

(** What a watcher thread observes: the successive readings of
    [time.monotonic()] and, poll after poll, whether the sentinel exists. *)
Record WatchEnv := {
  monotonic : Z -> float;
  sentinel_exists : Z -> bool
}.

Inductive LoopEnd :=
  | SentinelSeen (polls : Z)  (* the file was found and removed; [break] *)
  | DeadlinePassed (polls : Z).

(** The [while time.monotonic() < deadline] loop after [polls] polls; the
    loop test of round [polls] takes clock reading [polls + 1] (reading 0 set
    the deadline).  [None]: more rounds than [fuel]. *)
Fixpoint watch_loop (fuel : nat) (env : WatchEnv) (deadline : float) (polls : Z)
  : option LoopEnd :=
  match fuel with
  | O => None
  | S fuel' =>
      if (monotonic env (polls + 1) <? deadline)%float then
        if sentinel_exists env polls then Some (SentinelSeen polls)
        else (* [time.sleep(1.0)] *) watch_loop fuel' env deadline (polls + 1)
      else Some (DeadlinePassed polls)
  end.

(** [_wait_sentinel_then_notify]: the loop, then the [finally] block. *)
Definition _wait_sentinel_then_notify (fuel : nat) (env : WatchEnv) (restore_window : bool)
  : option (LoopEnd * list UiCall) :=
  let deadline := (monotonic env 0 + float_of_int (4 * 60 * 60))%float in
  match watch_loop fuel env deadline 0 with
  | None => None
  | Some how =>
      Some (how,
            (if restore_window then [Deiconify; Present] else [])
            ++ [Info "Instalação" "Processo finalizado."])
  end.

(** A clock that advances by one second per reading (each round sleeps
    [time.sleep(1.0)]) and a sentinel that never shows up. *)
Definition env_never_done : WatchEnv := {|
  monotonic := fun n => float_of_int n;
  sentinel_exists := fun _ => false
|}.

(* ===================================================================== *)
(** * The polkit policy ([App._ensure_polkit_policy])                     *)
(* ===================================================================== *)

Definition RUNROOT_WRAPPER_PATH : string := "/usr/libexec/gnushark-runroot".
Definition RUNROOT_POLICY_PATH : string :=
  "/usr/share/polkit-1/actions/org.gnushark.runroot.policy".

(** The two texts the method builds, [wrapper_content] and [policy_content]
    (the latter depends on the UI language through [T]). *)
Record Intended := {
  wrapper_content : string;
  policy_content : string
}.

(** A regular file: its bytes and whether [[ -x path ]] holds for the user. *)
Record File := {
  file_bytes : string;
  file_executable : bool
}.

(** The regular files of the host by path, and the number of writes made. *)
Record Disk := {
  files : gmap string File;
  writes : nat
}.

(** What [<<'EOF' ... EOF] feeds to its command: the text and a final
    newline (no line of either text is the delimiter). *)
Definition heredoc (text : string) : string := text +:+ String "010" "".

(** [cmp -s path <(cat <<'EOF' ... EOF)] exits 0. *)
Definition cmp_s (d : Disk) (path text : string) : bool :=
  match files d !! path with
  | Some f => bool_decide (file_bytes f = heredoc text)
  | None => false
  end.

(** [check_cmd] exits 0. *)
Definition policy_check (d : Disk) (i : Intended) : bool :=
  bool_decide (is_Some (files d !! RUNROOT_POLICY_PATH))
  && match files d !! RUNROOT_WRAPPER_PATH with
     | Some f => file_executable f
     | None => false
     end
  && cmp_s d RUNROOT_WRAPPER_PATH (wrapper_content i)
  && cmp_s d RUNROOT_POLICY_PATH (policy_content i).

(** [cat > path <<'EOF' ... EOF]: the bytes are replaced, the mode of an
    existing file is kept, a new file is not executable. *)
Definition cat_to (path text : string) (d : Disk) : Disk :=
  let x := match files d !! path with
           | Some f => file_executable f
           | None => false
           end in
  {| files := <[path := {| file_bytes := heredoc text; file_executable := x |}]> (files d);
     writes := S (writes d) |}.

(** [chmod 0755 path] and [chmod 0644 path]. *)
Definition chmod (executable : bool) (path : string) (d : Disk) : Disk :=
  match files d !! path with
  | Some f =>
      {| files := <[path := {| file_bytes := file_bytes f;
                               file_executable := executable |}]> (files d);
         writes := S (writes d) |}
  | None => d
  end.

(** [chown root:root path]: a change of metadata the model does not read. *)
Definition chown_root (path : string) (d : Disk) : Disk :=
  match files d !! path with
  | Some _ => {| files := files d; writes := S (writes d) |}
  | None => d
  end.

(** The root script of [_ensure_polkit_policy] run to its end (its two
    [mkdir -p] create directories, which the model does not hold). *)
Definition run_policy_script (i : Intended) (d : Disk) : Disk :=
  let d := cat_to RUNROOT_WRAPPER_PATH (wrapper_content i) d in
  let d := chmod true RUNROOT_WRAPPER_PATH d in
  let d := chown_root RUNROOT_WRAPPER_PATH d in
  let d := cat_to RUNROOT_POLICY_PATH (policy_content i) d in
  chmod false RUNROOT_POLICY_PATH d.

(** A call of [_open_terminal_and_run_pipeline] made by the method. *)
Inductive Launch :=
  | LaunchPolicyScript (i : Intended).
      (* [(script, need_root=True, ensure_policy=False)] *)

(** [_ensure_polkit_policy] on the flag [self._policy_installing] and the
    disk: the flag left behind and the pipelines launched. *)
Definition _ensure_polkit_policy (i : Intended) (policy_installing : bool) (d : Disk)
  : bool * list Launch :=
  if policy_installing then (policy_installing, [])
  else
    (* [self._policy_installing = True] ... [finally: ... = False] *)
    if policy_check d i then (false, [])
    else (false, [LaunchPolicyScript i]).

(** The launched pipelines run to their end. *)
Definition settle (launched : list Launch) (d : Disk) : Disk :=
  foldl (fun d l => match l with LaunchPolicyScript i => run_policy_script i d end)
        d launched.

Definition sample_intended : Intended := {|
  wrapper_content := "#!/bin/sh";
  policy_content := "<policyconfig/>"
|}.

Definition empty_disk : Disk := {| files := ∅; writes := 0 |}.

(** Two sample databases: one where nothing is installed and only [steam]
    is in the official repositories, and one whose subprocesses all fail. *)
Definition db_only_steam : PackageDb := {|
  pacman_T := fun pkgs => CalledProcessError pkgs;
  pacman_Q := fun _ => 1;
  pacman_Si := fun p => if bool_decide (p = "steam") then 0 else 1;
  pacman_Si_names := fun pkgs => Some (filter (fun p => p = "steam") pkgs)
|}.

(** A database whose official repositories hold [vkd3d-proton]. *)
Definition db_with_vkd3d : PackageDb := {|
  pacman_T := fun pkgs => CalledProcessError pkgs;
  pacman_Q := fun _ => 1;
  pacman_Si := fun p => if bool_decide (p = "vkd3d-proton") then 0 else 1;
  pacman_Si_names := fun _ => None
|}.

Definition db_unreachable : PackageDb := {|
  pacman_T := fun _ => OtherException;
  pacman_Q := fun _ => 127;
  pacman_Si := fun _ => 127;
  pacman_Si_names := fun _ => None
|}.

(* ===================================================================== *)
(** * The session: programs on [PATH], user, environment                  *)
(* ===================================================================== *)

Record Session := {
  which : string -> bool;        (* [shutil.which(name)] finds the program *)
  geteuid : Z;                   (* [os.geteuid()] *)
  env_TERMINAL : string;         (* [os.environ.get("TERMINAL")], [""] when unset *)
  session_type_lower : string;   (* [os.environ.get("XDG_SESSION_TYPE","").lower()] *)
  env_SUDO_ASKPASS : string      (* [os.environ.get("SUDO_ASKPASS", "")] *)
}.

(** [for cand in cands: if shutil.which(cand): return cand] ... [return None] *)
Fixpoint first_on_path (s : Session) (cands : list string) : option string :=
  match cands with
  | [] => None
  | cand :: rest => if which s cand then Some cand else first_on_path s rest
  end.

Definition pick_pkg_manager (s : Session) : option string :=
  first_on_path s ["pamac"; "pacman"; "paru"; "yay"].

(** ** Shell text *)

Definition dq : string := String "034" "".  (* the double quote *)
Definition bs : string := String "092" "".  (* the backslash *)
Definition sq : string := String "039" "".  (* the single quote *)

(** The characters [shlex.quote] leaves alone: [[A-Za-z0-9_@%+=:,./-]]. *)
Definition shell_safe (c : ascii) : bool :=
  let n := nat_of_ascii c in
  ((48 <=? n) && (n <=? 57) || (65 <=? n) && (n <=? 90) || (97 <=? n) && (n <=? 122))%nat
  || bool_decide (c ∈ ["_"; "@"; "%"; "+"; "="; ":"; ","; "."; "/"; "-"]%char).

Fixpoint all_shell_safe (s : string) : bool :=
  match s with
  | EmptyString => true
  | String c rest => shell_safe c && all_shell_safe rest
  end.

(** [s.replace] of every single quote by: single quote, double quote,
    single quote, double quote, single quote. *)
Fixpoint escape_single_quotes (s : string) : string :=
  match s with
  | EmptyString => EmptyString
  | String c rest =>
      if Ascii.eqb c "039" then sq +:+ dq +:+ sq +:+ dq +:+ sq +:+ escape_single_quotes rest
      else String c (escape_single_quotes rest)
  end.

(** [shlex.quote] *)
Definition shlex_quote (s : string) : string :=
  if negb (truthy s) then sq +:+ sq
  else if all_shell_safe s then s
  else sq +:+ escape_single_quotes s +:+ sq.

(** [sep.join(parts)] *)
Fixpoint join (sep : string) (parts : list string) : string :=
  match parts with
  | [] => ""
  | [x] => x
  | x :: rest => x +:+ sep +:+ join sep rest
  end.

(** ** [App._build_install_script] *)

(** [self.pkg_manager or pick_pkg_manager()] *)
Definition manager_or_pick (s : Session) (pkg_manager : option string) : option string :=
  match pkg_manager with
  | Some m => if truthy m then Some m else pick_pkg_manager s
  | None => pick_pkg_manager s
  end.

(** [mgr if mgr in ("paru","yay") else ("paru" if which("paru") else "yay"
    if which("yay") else None)] *)
Definition aur_helper_for (s : Session) (mgr : string) : option string :=
  if bool_decide (mgr ∈ ["paru"; "yay"]) then Some mgr
  else if which s "paru" then Some "paru"
  else if which s "yay" then Some "yay"
  else None.

Definition quoted_names (pkgs : list string) : string :=
  join " " (shlex_quote <$> pkgs).

Definition _build_install_script (s : Session) (pkg_manager : option string)
    (official aur : list string) : option string :=
  match manager_or_pick s pkg_manager with
  | None => None
  | Some mgr =>
      let lines := ["set -euo pipefail"] in
      let lines :=
        if nonempty official then
          let pkgs := quoted_names official in
          if bool_decide (mgr = "pamac")
          then lines ++ ["expect_yes_pac " +:+ dq +:+ "run_root " +:+ bs +:+ dq
                         +:+ "pamac install " +:+ pkgs +:+ bs +:+ dq +:+ dq]
          else lines ++ ["expect_yes_pac " +:+ dq +:+ "run_root " +:+ bs +:+ dq
                         +:+ "pacman -S --needed " +:+ pkgs +:+ bs +:+ dq +:+ dq]
        else lines in
      if nonempty aur then
        let aur_pkgs := quoted_names aur in
        match aur_helper_for s mgr with
        | Some helper =>
            if truthy helper then
              if bool_decide (helper = "paru")
              then Some (join " ; " (lines ++ [helper +:+ " -S --needed --skipreview --noconfirm "
                                               +:+ aur_pkgs]))
              else Some (join " ; " (lines ++ [helper
                                               +:+ " -S --needed --noconfirm --answerdiff None --answeredit None "
                                               +:+ aur_pkgs]))
            else if bool_decide (mgr = "pamac")
            then Some (join " ; " (lines ++ ["expect_yes_pac " +:+ dq
                                             +:+ "pamac build --no-confirm " +:+ aur_pkgs +:+ dq]))
            else None
        | None =>
            if bool_decide (mgr = "pamac")
            then Some (join " ; " (lines ++ ["expect_yes_pac " +:+ dq
                                             +:+ "pamac build --no-confirm " +:+ aur_pkgs +:+ dq]))
            else None
        end
      else Some (join " ; " lines)
  end.

(** ** Choosing the terminal ([App._open_terminal_and_run_pipeline]) *)

Record TerminalSpec := {
  term_name : string;
  term_args : list string;
  needs_string : bool;
  wayland_pref : bool
}.

Definition TERMINALS : list TerminalSpec := [
  {| term_name := "kgx"; term_args := ["kgx"; "--"; "bash"; "-lc"];
     needs_string := false; wayland_pref := true |};
  {| term_name := "ghostty"; term_args := ["ghostty"; "--"; "bash"; "-lc"];
     needs_string := false; wayland_pref := true |};
  {| term_name := "foot"; term_args := ["foot"; "-e"; "bash"; "-lc"];
     needs_string := false; wayland_pref := true |};
  {| term_name := "footclient"; term_args := ["footclient"; "-e"; "bash"; "-lc"];
     needs_string := false; wayland_pref := true |};
  {| term_name := "rio"; term_args := ["rio"; "-e"; "bash"; "-lc"];
     needs_string := false; wayland_pref := true |};
  {| term_name := "wezterm"; term_args := ["wezterm"; "start"; "bash"; "-lc"];
     needs_string := false; wayland_pref := true |};
  {| term_name := "gnome-terminal";
     term_args := ["gnome-terminal"; "--wait"; "--"; "bash"; "-lc"];
     needs_string := false; wayland_pref := false |};
  {| term_name := "konsole"; term_args := ["konsole"; "-e"; "bash"; "-lc"];
     needs_string := false; wayland_pref := false |};
  {| term_name := "xterm"; term_args := ["xterm"; "-e"; "bash"; "-lc"];
     needs_string := false; wayland_pref := false |};
  {| term_name := "terminator"; term_args := ["terminator"; "-x"; "bash"; "-lc"];
     needs_string := false; wayland_pref := false |};
  {| term_name := "urxvt"; term_args := ["urxvt"; "-e"; "bash"; "-lc"];
     needs_string := false; wayland_pref := false |};
  {| term_name := "rxvt"; term_args := ["rxvt"; "-e"; "bash"; "-lc"];
     needs_string := false; wayland_pref := false |};
  {| term_name := "st"; term_args := ["st"; "-e"; "bash"; "-lc"];
     needs_string := false; wayland_pref := false |};
  {| term_name := "eterm"; term_args := ["eterm"; "-e"; "bash"; "-lc"];
     needs_string := false; wayland_pref := false |};
  {| term_name := "terminology"; term_args := ["terminology"; "-e"; "bash"; "-lc"];
     needs_string := false; wayland_pref := false |};
  {| term_name := "alacritty"; term_args := ["alacritty"; "-e"; "bash"; "-lc"];
     needs_string := false; wayland_pref := false |};
  {| term_name := "kitty"; term_args := ["kitty"; "-e"; "bash"; "-lc"];
     needs_string := false; wayland_pref := false |};
  {| term_name := "tilix"; term_args := ["tilix"; "--"; "bash"; "-lc"];
     needs_string := false; wayland_pref := false |};
  {| term_name := "xfce4-terminal"; term_args := ["xfce4-terminal"; "--command"];
     needs_string := true; wayland_pref := false |};
  {| term_name := "mate-terminal"; term_args := ["mate-terminal"; "--"; "bash"; "-lc"];
     needs_string := false; wayland_pref := false |};
  {| term_name := "qterminal"; term_args := ["qterminal"; "-e"; "bash"; "-lc"];
     needs_string := false; wayland_pref := false |};
  {| term_name := "lxterminal"; term_args := ["lxterminal"; "-e"; "bash"; "-lc"];
     needs_string := false; wayland_pref := false |}
].

(** [sorted(xs, key=lambda t: not t.wayland_pref)]: a stable sort on a
    boolean key ([False] before [True]), as an insertion sort. *)
Fixpoint insert_by_key {A} (key : A -> bool) (x : A) (sorted : list A) : list A :=
  match sorted with
  | [] => [x]
  | y :: rest =>
      if implb (key x) (key y) then x :: y :: rest
      else y :: insert_by_key key x rest
  end.

Fixpoint sorted_by_key {A} (key : A -> bool) (xs : list A) : list A :=
  match xs with
  | [] => []
  | x :: rest => insert_by_key key x (sorted_by_key key rest)
  end.

(** [for t in terms: if shutil.which(t.name): ... break] *)
Fixpoint first_terminal_on_path (s : Session) (terms : list TerminalSpec)
  : option TerminalSpec :=
  match terms with
  | [] => None
  | t :: rest => if which s (term_name t) then Some t else first_terminal_on_path s rest
  end.

(** [_terminal_cmd_for(name)] *)
Fixpoint _terminal_cmd_for (s : Session) (terms : list TerminalSpec) (name : string)
  : option TerminalSpec :=
  match terms with
  | [] => None
  | t :: rest =>
      if bool_decide (term_name t = name) && which s (term_name t) then Some t
      else _terminal_cmd_for s rest name
  end.

(** The terminal the pipeline is handed to; [None]: headless mode. *)
Definition choose_terminal (s : Session) (terms : list TerminalSpec)
  : option TerminalSpec :=
  let from_env :=
    if truthy (env_TERMINAL s) then _terminal_cmd_for s terms (env_TERMINAL s)
    else None in
  match from_env with
  | Some t => Some t
  | None =>
      let wayland := bool_decide (session_type_lower s = "wayland") in
      let terms := if wayland then sorted_by_key (fun t => negb (wayland_pref t)) terms
                   else terms in
      first_terminal_on_path s terms
  end.

(** [base + ([f"bash -lc {shlex.quote(full_script)}"] if needs_string else
    [full_script])] *)
Definition terminal_argv (t : TerminalSpec) (full_script : string) : list string :=
  term_args t ++ [if needs_string t then "bash -lc " +:+ shlex_quote full_script
                  else full_script].

Definition pipeline_argv (s : Session) (full_script : string) : option (list string) :=
  match choose_terminal s TERMINALS with
  | Some t => Some (terminal_argv t full_script)
  | None => None
  end.

(** A Wayland session with [foot] and [xterm] installed, and a bare host. *)
Definition session_wayland_foot : Session := {|
  which := fun n => bool_decide (n ∈ ["xterm"; "foot"; "pacman"]);
  geteuid := 1000;
  env_TERMINAL := "";
  session_type_lower := "wayland";
  env_SUDO_ASKPASS := ""
|}.

Definition session_bare : Session := {|
  which := fun _ => false;
  geteuid := 1000;
  env_TERMINAL := "";
  session_type_lower := "x11";
  env_SUDO_ASKPASS := ""
|}.

(* ===================================================================== *)
(** * The install flow of [App.handle_action]                             *)
(* ===================================================================== *)

(** What the handler does that the user or the host can observe.  Dialogs
    are named by their untranslated title. *)
Inductive Event :=
  | Launched (script : string) (need_root ensure_policy : bool)
      (* [_open_terminal_and_run_pipeline(script, need_root, ensure_policy)] *)
  | Spawned (argv : list string)            (* [subprocess.Popen(argv)] started *)
  | Asked (title : string) (answer : bool)  (* [self._confirm(title, ...)] *)
  | InfoShown (title : string)              (* [self._info(title, ...)] *)
  | ErrorShown (title : string).            (* [self._error(title, ...)] *)

(** The desktop the handler runs on. *)
Record Desktop := {
  session : Session;
  pkg_manager : option string;         (* [self.pkg_manager] *)
  confirms : string -> bool;           (* the user's answer to the dialog so titled *)
  popen_ok : list string -> bool;      (* [subprocess.Popen(argv)] did not raise *)
  multilib_enabled : bool;             (* [pacman -Sl multilib] returned 0 *)
  flatpak_is_installed : string -> bool;
  flathub_remote_present : bool;
  translate : string -> string         (* [T(text)] without placeholders *)
}.

(** The resolver state and the events so far. *)
Record Run := {
  world : World;
  trace : list Event
}.

Definition H (A : Type) : Type := Run -> A * Run.

#[global] Instance H_ret : MRet H := fun A a r => (a, r).
#[global] Instance H_bind : MBind H :=
  fun A B k m r => let '(a, r') := m r in k a r'.

Definition emit (e : Event) : H unit :=
  fun r => (tt, {| world := world r; trace := trace r ++ [e] |}).

Definition lift {A} (m : M A) : H A :=
  fun r => let '(a, w) := m (world r) in (a, {| world := w; trace := trace r |}).

Definition nl : string := String "010" "".

Definition GSTREAMER_WINE_PKGS : list string := [
  "gst-plugins-base"; "gst-plugins-good"; "gst-plugins-bad";
  "lib32-gst-plugins-base"; "lib32-gst-plugins-good"; "lib32-gst-plugins-bad"
].

(** The script of the two [multilib] blocks (a raw string). *)
Definition MULTILIB_SCRIPT : string :=
  nl +:+ join nl [
    "run_root_sh <<'EOS'";
    "set -euo pipefail";
    "cp /etc/pacman.conf{,.bak.$(date +%F-%H%M%S)}";
    "sed -ri 's/^\s*#\s*\[multilib\]/[multilib]/' /etc/pacman.conf";
    "sed -ri '/^\s*\[multilib\]/,/\s*(\[|\Z)/ { s/^\s*#\s*(Include)/\1/ }' /etc/pacman.conf";
    "grep -q '^\[multilib\]' /etc/pacman.conf";
    "pacman -Syy";
    "EOS"
  ] +:+ nl.

Definition FLATHUB_REMOTE_ADD : string :=
  "set -euo pipefail; flatpak remote-add --if-not-exists flathub https://flathub.org/repo/flathub.flatpakrepo".

Section Handler.

Variable db : PackageDb.
Variable d : Desktop.

Definition _flatpak_available : bool := which (session d) "flatpak".

(** The line [expect_yes_pac] of a [run_root] of [command] on one
    [shlex]-quoted name. *)
Definition run_root_line (command name : string) : string :=
  "expect_yes_pac " +:+ dq +:+ "run_root " +:+ bs +:+ dq
  +:+ command +:+ " " +:+ shlex_quote name +:+ bs +:+ dq +:+ dq.

(** The second loop of [_ensure_aur_helper_auto]: the first helper that
    [pacman -Si] knows is installed from the repositories. *)
Fixpoint helper_from_repo (helpers : list string) : H bool :=
  match helpers with
  | [] => mret false
  | helper :: rest =>
      lift (ask (QuerySi helper));;
      if pacman_Si db helper =? 0 then
        emit (Launched (run_root_line "pacman -S --needed" helper) true true);;
        emit (InfoShown "AUR");;
        mret true
      else helper_from_repo rest
  end.

Definition _ensure_aur_helper_auto : H (option string) :=
  match first_on_path (session d) ["paru"; "yay"] with
  | Some helper => mret (Some helper)
  | None =>
      started ← helper_from_repo ["paru"; "yay"];
      if started : bool then mret None
      else if which (session d) "pamac" then
        emit (Launched (run_root_line "pamac build --no-confirm" "paru") true true);;
        emit (InfoShown "AUR");;
        mret None
      else mret None
  end.

Definition _ensure_flathub : H bool :=
  if negb _flatpak_available then mret false
  else if negb (flathub_remote_present d) then
    emit (Launched FLATHUB_REMOTE_ADD false true);;
    mret true
  else mret true.

(** [_script_with_optional_gstreamer], the closure of [handle_action]. *)
Definition gstreamer_ask_block (gst_missing : list string) (gst_script : string) : string :=
  let prompt_title := translate d "Confirmar" in
  let prompt_text := translate d "Instalar suporte multimídia (GStreamer) para o Wine?" in
  let pkgs_str := join " " gst_missing in
  join nl [
    "# --- Perguntar sobre GStreamer ao final do Wine ---";
    "_do_gst=0";
    "if command -v zenity >/dev/null 2>&1; then";
    "  zenity --question --title=" +:+ dq +:+ prompt_title +:+ dq
      +:+ " --no-wrap --text=" +:+ dq +:+ prompt_text +:+ bs +:+ "n" +:+ bs +:+ "n"
      +:+ "Pacotes: " +:+ pkgs_str +:+ dq +:+ " && _do_gst=1 || true";
    "else";
    "  printf " +:+ dq +:+ bs +:+ "n" +:+ prompt_text +:+ bs +:+ "n"
      +:+ "Pacotes: " +:+ pkgs_str +:+ bs +:+ "n" +:+ "[y/N]: " +:+ dq;
    "  read -r _ans; case " +:+ dq +:+ "$_ans" +:+ dq
      +:+ " in [yY]|[yY][eE][sS]|[sS]) _do_gst=1;; esac";
    "fi";
    "if [ " +:+ dq +:+ "$_do_gst" +:+ dq +:+ " -eq 1 ]; then";
    "  " +:+ gst_script;
    "fi"
  ].

Definition _script_with_optional_gstreamer (item_id base_script : string) : H string :=
  if negb (bool_decide (item_id = "wine")) then mret base_script
  else
    gst_missing ← lift (_missing_packages db GSTREAMER_WINE_PKGS);
    if negb (nonempty gst_missing) then mret base_script
    else
      split ← lift (_split_official_aur db gst_missing);
      match _build_install_script (session d) (pkg_manager d) split.1 split.2 with
      | None => mret base_script
      | Some gst_script =>
          if negb (truthy gst_script) then mret base_script
          else mret (base_script +:+ " ; " +:+ gstreamer_ask_block gst_missing gst_script)
      end.

(** [self.pkg_manager not in ("paru","yay","pamac")] *)
Definition manager_is_no_helper : bool :=
  match pkg_manager d with
  | Some m => negb (bool_decide (m ∈ ["paru"; "yay"; "pamac"]))
  | None => true
  end.

(** [not (shutil.which("paru") or shutil.which("yay"))] *)
Definition no_helper_on_path : bool :=
  negb (which (session d) "paru" || which (session d) "yay").

(** The steps the repository branch and the third-party branch share: the
    helper check, the script, the confirmation, the launch.  Returns whether
    the handler goes on to its post-install steps. *)
Definition install_with_helper (item_id : string) (need_helper : bool)
    (official aur to_install : list string) : H bool :=
  aborted ←
    (if need_helper then
       helper ← _ensure_aur_helper_auto;
       if negb (bool_decide (is_Some helper))
          && negb (bool_decide (pkg_manager d = Some "pamac"))
       then emit (ErrorShown "AUR helper ausente");; mret true
       else mret false
     else mret false);
  if aborted : bool then mret false
  else
    match _build_install_script (session d) (pkg_manager d) official aur with
    | None => emit (ErrorShown "Instalação");; mret false
    | Some script =>
        if negb (truthy script) then emit (ErrorShown "Instalação");; mret false
        else
          script ← _script_with_optional_gstreamer item_id script;
          let answer := confirms d "Confirmar" in
          emit (Asked "Confirmar" answer);;
          if negb answer then mret false
          else emit (Launched script true true);; mret true
    end.

(** "Seleção automática da fonte (Repo > Flatpak > AUR)": from the split to
    the launch. *)
Definition install_missing (item_id : string) (flatpak_id : option string)
    (to_install : list string) : H bool :=
  split ← lift (_split_official_aur db to_install);
  let official := split.1 in
  let aur := split.2 in
  if nonempty official then
    let need_helper := nonempty aur && manager_is_no_helper && no_helper_on_path in
    install_with_helper item_id need_helper official aur to_install
  else
    match usable_flatpak flatpak_id _flatpak_available with
    | Some fid =>
        let script := "set -euo pipefail; flatpak install -y --or-update flathub "
                      +:+ shlex_quote fid in
        _ensure_flathub;;
        let answer := confirms d "Confirmar" in
        emit (Asked "Confirmar" answer);;
        if negb answer then mret false
        else emit (Launched script false true);; mret true
    | None =>
        let need_helper := manager_is_no_helper && no_helper_on_path in
        install_with_helper item_id need_helper [] to_install to_install
    end.

(** The second multilib block (the fallback on [lib32-] names); returns
    whether the handler goes on. *)
Definition multilib_fallback (to_install : list string) : H bool :=
  if existsb (String.prefix "lib32-") to_install && negb (multilib_enabled d) then
    let answer := confirms d "Multilib" in
    emit (Asked "Multilib" answer);;
    if answer then emit (Launched MULTILIB_SCRIPT true true);; mret true
    else emit (InfoShown "Multilib");; mret false
  else mret true.

(** [subprocess.Popen([exe])] inside [try ... except Exception]. *)
Definition popen_or_error (argv : list string) : H unit :=
  if popen_ok d argv then emit (Spawned argv)
  else emit (ErrorShown "Falha ao abrir").

(** From the resolution of virtual packages to the list of what is left
    to install; [None] when the handler returned on the way (an offer to
    open, or nothing to install). *)
Definition offer_or_missing (label : string) (exe flatpak_id : option string)
    (pkgs alt_pkgs : list string) : H (option (list string)) :=
  pkgs ← lift (_resolve_virtual_pkgs db pkgs);
  let exe_name := match exe with Some e => e | None => "" end in
  if truthy exe_name && which (session d) exe_name then
    let answer := confirms d "Abrir" in
    emit (Asked "Abrir" answer);;
    (if answer then
       if bool_decide (exe_name ∈ ["steam-acolyte"; "paru"; "yay"])
       then emit (Launched exe_name false false)
       else popen_or_error [exe_name]
     else mret tt);;
    mret None
  else
    let installed_flatpak :=
      match usable_flatpak flatpak_id _flatpak_available with
      | Some fid => if flatpak_is_installed d fid then Some fid else None
      | None => None
      end in
    match installed_flatpak with
    | Some fid =>
        let answer := confirms d "Abrir" in
        emit (Asked "Abrir" answer);;
        (if answer then popen_or_error ["flatpak"; "run"; fid] else mret tt);;
        mret None
    | None =>
        to_install ← lift (_missing_packages db pkgs);
        to_install ←
          (if nonempty to_install && nonempty alt_pkgs then
             alt ← lift (_any_installed db alt_pkgs);
             mret (if alt : bool then [] else to_install)
           else mret to_install);
        if negb (nonempty to_install) then
          if truthy exe_name then
            let answer := confirms d "Abrir" in
            emit (Asked "Abrir" answer);;
            (if answer then popen_or_error [exe_name] else mret tt);;
            mret None
          else emit (InfoShown "Nada a instalar");; mret None
        else mret (Some to_install)
    end.

(** [handle_action] from the resolution of virtual packages to the launch
    of the install; returns whether the post-install steps are reached. *)
Definition handle_action_install (item_id label : string) (exe flatpak_id : option string)
    (pkgs alt_pkgs : list string) : H bool :=
  left_to_install ← offer_or_missing label exe flatpak_id pkgs alt_pkgs;
  match left_to_install with
  | None => mret false
  | Some to_install =>
      go_on ← multilib_fallback to_install;
      if go_on : bool then install_missing item_id flatpak_id to_install
      else mret false
  end.

End Handler.

(** A desktop on a session, with the manager found at start-up and a user
    who gives the same answer to every dialog. *)
Definition desktop_of (s : Session) (answer : bool) : Desktop := {|
  session := s;
  pkg_manager := pick_pkg_manager s;
  confirms := fun _ => answer;
  popen_ok := fun _ => true;
  multilib_enabled := true;
  flatpak_is_installed := fun _ => false;
  flathub_remote_present := true;
  translate := fun t => t
|}.

Definition fresh_run : Run := {| world := fresh_world; trace := [] |}.


(* ===================================================================== *)
(** * Kernel headers and the NVIDIA package choice                        *)
(* ===================================================================== *)

(** What the kernel probes read. *)
Record KernelProbe := {
  uname_r : string;
    (* [_kernel_variant()]: [uname -r] stripped and lowercased, [""] on failure *)
  installed_kernels : option (list string);
    (* stripped lines of [pacman -Qq | grep -E '^(linux...)$' | grep -v -- '-headers$'];
       [None] when [check_output] raised *)
  installed_headers : option (list string);
    (* stripped lines of [pacman -Qq | grep -E '^linux.*-headers$'] *)
  prefer_nvidia_open_lower : string
    (* [os.environ.get("GNUSK_PREFER_NVIDIA_OPEN", "").lower()] *)
}.

(** [if base and base.startswith("linux"): cands.append(f"{base}-headers")] *)
Fixpoint kernels_loop (lines cands : list string) : list string :=
  match lines with
  | [] => cands
  | base :: rest =>
      if truthy base && String.prefix "linux" base
      then kernels_loop rest (cands ++ [base +:+ "-headers"])
      else kernels_loop rest cands
  end.

(** [if pkg: cands.append(pkg)] *)
Fixpoint headers_loop (lines cands : list string) : list string :=
  match lines with
  | [] => cands
  | pkg :: rest =>
      if truthy pkg then headers_loop rest (cands ++ [pkg])
      else headers_loop rest cands
  end.

(** [if p not in seen: seen.add(p); ordered.append(p)] *)
Fixpoint ordered_unique (cands : list string) (seen : gset string) (ordered : list string)
  : list string :=
  match cands with
  | [] => ordered
  | p :: rest =>
      if bool_decide (p ∈ seen) then ordered_unique rest seen ordered
      else ordered_unique rest ({[ p ]} ∪ seen) (ordered ++ [p])
  end.

Definition _header_pkg_candidates (k : KernelProbe) : list string :=
  let ver := uname_r k in
  let cands := [] in
  let cands := if contains "-zen" ver then cands ++ ["linux-zen-headers"] else cands in
  let cands := if contains "-lts" ver then cands ++ ["linux-lts-headers"] else cands in
  let cands := if contains "-hardened" ver then cands ++ ["linux-hardened-headers"]
               else cands in
  let cands := if contains "-cachyos" ver then cands ++ ["linux-cachyos-headers"]
               else cands in
  let cands := match installed_kernels k with
               | Some lines => kernels_loop lines cands
               | None => cands
               end in
  let cands := cands ++ ["linux-headers"] in
  let cands := match installed_headers k with
               | Some lines => headers_loop lines cands
               | None => cands
               end in
  ordered_unique cands ∅ [].

(** The first loop of [_matching_header_pkg]: the flavor of the running
    kernel. *)
Fixpoint flavor_match (ver : string) (cands : list string) : option string :=
  match cands with
  | [] => None
  | p :: rest =>
      if contains "-zen" ver && String.prefix "linux-zen-headers" p then Some p
      else if contains "-lts" ver && String.prefix "linux-lts-headers" p then Some p
      else if contains "-hardened" ver && String.prefix "linux-hardened-headers" p
      then Some p
      else if contains "-cachyos" ver && String.prefix "linux-cachyos-headers" p
      then Some p
      else flavor_match ver rest
  end.

(** Its second loop: the first candidate [pacman -Si] knows. *)
Fixpoint first_in_repo (db : PackageDb) (cands : list string) : option string :=
  match cands with
  | [] => None
  | p :: rest => if pacman_Si db p =? 0 then Some p else first_in_repo db rest
  end.

Definition _matching_header_pkg (db : PackageDb) (k : KernelProbe) : option string :=
  let ver := uname_r k in
  let cands := _header_pkg_candidates k in
  match flavor_match ver cands with
  | Some p => Some p
  | None => first_in_repo db cands
  end.

Definition _headers_installed (db : PackageDb) (k : KernelProbe) : bool :=
  let exact := _matching_header_pkg db k in
  let exact_installed :=
    match exact with
    | Some e => truthy e && (pacman_Q db e =? 0)
    | None => false
    end in
  if exact_installed then true
  else existsb (fun p => pacman_Q db p =? 0) (_header_pkg_candidates k).

Definition nvidia_base : list string :=
  ["nvidia-utils"; "lib32-nvidia-utils"; "vulkan-icd-loader"; "lib32-vulkan-icd-loader"].

(** The driver picked from the kernel flavor alone. *)
Definition nvidia_by_kernel (ver : string) : string :=
  if contains "-lts" ver then "nvidia-lts"
  else if contains "-zen" ver || contains "-cachyos" ver || contains "-hardened" ver
  then "nvidia-dkms"
  else "nvidia".

(** [for cand in open_candidates: if _pkg_in_official_repos_cached(cand):
    pkgs.insert(0, cand); return pkgs] *)
Fixpoint open_loop (db : PackageDb) (cands : list string) : M (option string) :=
  match cands with
  | [] => mret None
  | cand :: rest =>
      b ← _pkg_in_official_repos_cached db cand;
      if b : bool then mret (Some cand) else open_loop db rest
  end.

Definition _nvidia_packages (db : PackageDb) (k : KernelProbe) : M (list string) :=
  let ver := uname_r k in
  let prefer_open :=
    bool_decide (prefer_nvidia_open_lower k ∈ ["1"; "true"; "yes"; "on"]) in
  chosen ←
    (if prefer_open then
       let open_first :=
         if contains "-lts" ver || contains "-zen" ver || contains "-cachyos" ver
            || contains "-hardened" ver
         then "nvidia-open-dkms" else "nvidia-open" in
       let open_candidates := [open_first] in
       let open_candidates :=
         if bool_decide (open_first <> "nvidia-open-dkms")
         then open_candidates ++ ["nvidia-open-dkms"] else open_candidates in
       let open_candidates :=
         if bool_decide (open_first <> "nvidia-open")
         then open_candidates ++ ["nvidia-open"] else open_candidates in
       open_loop db open_candidates
     else mret None);
  match chosen with
  | Some cand => mret (cand :: nvidia_base)
  | None => mret (nvidia_by_kernel ver :: nvidia_base)
  end.

Section Nvidia.

Variable db : PackageDb.
Variable d : Desktop.
Variable k : KernelProbe.

Definition _ensure_kernel_headers : H bool :=
  if _headers_installed db k then mret true
  else
    match _matching_header_pkg db k with
    | None => mret false
    | Some cand =>
        if negb (truthy cand) then mret false
        else
          let answer := confirms d "Headers do kernel" in
          emit (Asked "Headers do kernel" answer);;
          if answer then
            emit (Launched (run_root_line "pacman -S --needed" cand) true true);;
            emit (InfoShown "Headers do kernel");;
            mret false
          else mret false
    end.

(** The NVIDIA block at the head of [handle_action]: the package list, or
    [None] when the handler returned for want of kernel headers. *)
Definition nvidia_prepare : H (option (list string)) :=
  pkgs ← lift (_nvidia_packages db k);
  if bool_decide ("nvidia-dkms" ∈ pkgs) then
    ok ← _ensure_kernel_headers;
    if negb ok then emit (InfoShown "Atenção");; mret None
    else mret (Some pkgs)
  else mret (Some pkgs).

End Nvidia.

(** A zen kernel with its own package installed and no headers. *)
Definition kernel_zen : KernelProbe := {|
  uname_r := "6.9.3-zen1-1-zen";
  installed_kernels := Some ["linux-zen"];
  installed_headers := Some [];
  prefer_nvidia_open_lower := ""
|}.

(** A session with [flatpak] on [PATH]. *)
Definition session_flatpak : Session := {|
  which := fun n => bool_decide (n ∈ ["flatpak"; "pacman"; "xterm"]);
  geteuid := 1000;
  env_TERMINAL := "";
  session_type_lower := "x11";
  env_SUDO_ASKPASS := ""
|}.

(** A launch that asks for root, or an event that is no launch. *)
Definition no_rootless_launch (e : Event) : Prop :=
  match e with
  | Launched _ need_root _ => need_root = true
  | _ => True
  end.

(** A session with [flatpak] and the helper [yay] on [PATH]. *)
Definition session_helper : Session := {|
  which := fun n => bool_decide (n ∈ ["flatpak"; "pacman"; "yay"; "xterm"]);
  geteuid := 1000;
  env_TERMINAL := "";
  session_type_lower := "x11";
  env_SUDO_ASKPASS := ""
|}.

(** The same clock, and a sentinel that shows up at the poll number [k]. *)
Definition env_done_at (k : Z) : WatchEnv := {|
  monotonic := fun n => float_of_int n;
  sentinel_exists := fun n => bool_decide (n = k)
|}.

(* ===================================================================== *)
(** * Properties                                                          *)
(* ===================================================================== *)

(** ** ZRAM parameters *)

Example choose_zram_8192_4 : choose_zram 8192 4 = Some ("6G", "lz4", 100).
Proof. vm_compute. reflexivity. Qed.

Example choose_zram_16384_10 : choose_zram 16384 10 = Some ("8G", "zstd", 80).
Proof. vm_compute. reflexivity. Qed.

Example choose_zram_100000_16 : choose_zram 100000 16 = Some ("16G", "zstd", 60).
Proof. vm_compute. reflexivity. Qed.

Example choose_zram_2048_1 : choose_zram 2048 1 = Some ("2G", "lzo-rle", 100).
Proof. vm_compute. reflexivity. Qed.

Example choose_zram_6000_3 : choose_zram 6000 3 = Some ("4352M", "lz4", 100).
Proof. vm_compute. reflexivity. Qed.

Example parse_size_label_6G : parse_size_label "6G" = Some (6 * 1024 * MiB).
Proof. vm_compute. reflexivity. Qed.

(** ** Decimal rendering *)

Lemma to_int_not_nil (n : Z) :
  Z.to_int n <> Decimal.Pos Decimal.Nil /\ Z.to_int n <> Decimal.Neg Decimal.Nil.
Proof.
  destruct n as [|p|p]; simpl; split; try discriminate;
    intros [= H]; exact (DecimalPos.Unsigned.to_uint_nonnil p H).
Qed.

Lemma int_of_str_of_int (n : Z) :
  NilZero.int_of_string (str_of_int n) = Some (Z.to_int n).
Proof.
  unfold str_of_int. destruct (to_int_not_nil n) as [Hp Hn].
  now apply NilZero.isi.
Qed.

Lemma str_of_int_inj (a b : Z) : str_of_int a = str_of_int b -> a = b.
Proof.
  intros H. apply DecimalZ.to_int_inj.
  pose proof (int_of_str_of_int a) as Ha.
  rewrite H, int_of_str_of_int in Ha. now injection Ha.
Qed.

Lemma split_unit_snoc (s : string) (u : ascii) :
  split_unit (s +:+ String u EmptyString) = Some (s, u).
Proof.
  induction s as [|c s IH]; simpl; [reflexivity|].
  rewrite IH. destruct s; reflexivity.
Qed.

Lemma parse_render_G (n : Z) :
  parse_size_label (str_of_int n +:+ "G") = Some (n * 1024 * MiB).
Proof.
  unfold parse_size_label.
  rewrite (split_unit_snoc (str_of_int n) "G"), int_of_str_of_int.
  simpl. now rewrite DecimalZ.of_to.
Qed.

Lemma parse_render_M (n : Z) :
  parse_size_label (str_of_int n +:+ "M") = Some (n * MiB).
Proof.
  unfold parse_size_label.
  rewrite (split_unit_snoc (str_of_int n) "M"), int_of_str_of_int.
  simpl. now rewrite DecimalZ.of_to.
Qed.

(** The label always reads back as the size it was rendered from. *)
Lemma parse_size_label_of_size (size_mib : Z) :
  parse_size_label (size_label size_mib) = Some (size_mib * MiB).
Proof.
  unfold size_label. destruct (Z.eqb_spec (size_mib mod 1024) 0) as [H0|_].
  - rewrite parse_render_G. f_equal.
    pose proof (Z.div_mod size_mib 1024 ltac:(lia)). lia.
  - apply parse_render_M.
Qed.

(** ** The binary64 product agrees with exact arithmetic on its branch *)

Lemma float_branch_table :
  forallb (fun n => float_branch_ok (4097 + Z.of_nat n)) (seq 0 4096) = true.
Proof. vm_compute. reflexivity. Qed.

Lemma float_branch_exact (ram : Z) :
  4096 < ram <= 8192 ->
  int_of_float (float_of_int ram * 0.75)%float = Some (3 * ram / 4).
Proof.
  intros Hr.
  pose proof float_branch_table as Htab.
  rewrite forallb_forall in Htab.
  specialize (Htab (Z.to_nat (ram - 4097))).
  replace (4097 + Z.of_nat (Z.to_nat (ram - 4097))) with ram in Htab by lia.
  unfold float_branch_ok in Htab.
  destruct (int_of_float _) as [v|].
  - f_equal. apply Z.eqb_eq, Htab. apply in_seq. lia.
  - discriminate Htab. apply in_seq. lia.
Qed.

Lemma Qfloor_three_quarters (ram : Z) :
  Qfloor ((75 # 100) * inject_Z ram) = 3 * ram / 4.
Proof.
  unfold Qfloor, Qmult, inject_Z. simpl Qnum. simpl Qden.
  change (Z.pos (100 * 1)) with (25 * 4).
  replace (75 * ram) with (25 * (3 * ram)) by lia.
  apply Z.div_mul_cancel_l; lia.
Qed.

Lemma zram_raw_size_spec (ram : Z) : zram_raw_size ram = Some (spec_raw_size ram).
Proof.
  unfold zram_raw_size, spec_raw_size.
  destruct (Z.leb_spec ram 4096); [reflexivity|].
  destruct (Z.leb_spec ram 8192).
  - rewrite float_branch_exact by lia. now rewrite Qfloor_three_quarters.
  - destruct (Z.leb_spec ram 16384); [reflexivity|].
    destruct (Z.leb_spec ram 65536); reflexivity.
Qed.

Lemma round_256 (x : Z) : rounded_down_256 x (Z.max 256 (x / 256 * 256)).
Proof.
  unfold rounded_down_256.
  pose proof (Z.div_mod x 256 ltac:(lia)) as Hdm.
  pose proof (Z.mod_pos_bound x 256 ltac:(lia)) as Hb.
  repeat split.
  - destruct (Z.max_spec 256 (x / 256 * 256)) as [[_ ->]|[_ ->]].
    + now exists (x / 256).
    + now exists 1.
  - lia.
  - lia.
  - lia.
  - lia.
Qed.

(** C1. For every RAM size and core count (the positive ones in particular)
    [choose_zram] returns a size label that reads back, as a byte count, to
    the size the table gives (ramMiB up to 4096, the integer part of
    0.75*ramMiB up to 8192, ramMiB/2 up to 16384, 8192 up to 65536, else
    16384) rounded down to a multiple of 256 MiB with a floor of 256 MiB,
    together with the compression lzo-rle / lz4 / zstd by core count and the
    swappiness 100 / 80 / 60 by RAM size. *)
Theorem choose_zram_table (ram_mib cores : Z) :
  exists label size_mib,
    choose_zram ram_mib cores
    = Some (label, spec_compression cores, spec_swappiness ram_mib)
    /\ parse_size_label label = Some (size_mib * MiB)
    /\ rounded_down_256 (spec_raw_size ram_mib) size_mib.
Proof.
  exists (size_label (Z.max 256 (spec_raw_size ram_mib / 256 * 256))),
    (Z.max 256 (spec_raw_size ram_mib / 256 * 256)).
  split; [|split].
  - unfold choose_zram. now rewrite zram_raw_size_spec.
  - apply parse_size_label_of_size.
  - apply round_256.
Qed.





(** ** The official / third-party split *)

Lemma split_loop_filter (S : gset string) (pkgs official aur : list string) :
  split_loop S pkgs official aur
  = (official ++ filter (fun p => p ∈ S) pkgs, aur ++ filter (fun p => p ∉ S) pkgs).
Proof.
  revert official aur. induction pkgs as [|p rest IH]; intros official aur; simpl.
  - now rewrite !app_nil_r.
  - case_bool_decide as Hp.
    + rewrite IH, filter_cons_True, filter_cons_False by auto.
      now rewrite <- app_assoc.
    + rewrite IH, filter_cons_False, filter_cons_True by auto.
      now rewrite <- app_assoc.
Qed.

Lemma _split_official_aur_filter (db : PackageDb) (pkgs : list string) (w : World) :
  exists S : gset string,
    (_split_official_aur db pkgs w).1
    = (filter (fun p => p ∈ S) pkgs, filter (fun p => p ∉ S) pkgs).
Proof.
  unfold _split_official_aur, mbind, M_bind, bind, mret, M_ret, ret.
  destruct (_which_in_official_repos db pkgs w) as [S w'].
  exists S. simpl. apply split_loop_filter.
Qed.

(** C4. Whatever the database answers and whatever is memoized, the split
    puts every input name in exactly one of the two lists: the two lists
    together are the input (as a multiset, each list keeping the input
    order), every input name is in one list and not in the other, and no
    name is in both lists (with or without duplicates in the input). *)
Theorem split_official_aur_partition (db : PackageDb) (pkgs : list string) (w : World) :
  let official := (_split_official_aur db pkgs w).1.1 in
  let aur := (_split_official_aur db pkgs w).1.2 in
  official ++ aur ≡ₚ pkgs
  /\ sublist official pkgs /\ sublist aur pkgs
  /\ (forall p, p ∈ pkgs <-> p ∈ official \/ p ∈ aur)
  /\ (forall p, ~ (p ∈ official /\ p ∈ aur)).
Proof.
  destruct (_split_official_aur_filter db pkgs w) as [S ->]. simpl.
  split; [apply filter_app_complement|].
  split; [apply sublist_filter|].
  split; [apply sublist_filter|].
  split.
  - intros p. rewrite !list_elem_of_filter.
    destruct (decide (p ∈ S)); tauto.
  - intros p. rewrite !list_elem_of_filter. tauto.
Qed.

(** ** The memo table *)

Lemma lru_get_elem (k : string) (v : bool) (c : Cache) :
  lru_get k c = Some v -> (k, v) ∈ c.
Proof.
  induction c as [|[k' v'] c IH]; simpl; [discriminate|].
  case_bool_decide as Hk.
  - intros [= ->]. subst. apply list_elem_of_here.
  - intros H. apply list_elem_of_further, IH, H.
Qed.

Lemma cached_value (db : PackageDb) (k : string) (w : World) :
  cache_coherent db (cache w) ->
  (_pkg_in_official_repos_cached db k w).1 = (pacman_Si db k =? 0).
Proof.
  intros Hc. unfold _pkg_in_official_repos_cached.
  destruct (lru_get k (cache w)) as [v|] eqn:Hget; simpl; [|reflexivity].
  apply Hc, lru_get_elem, Hget.
Qed.

Lemma cached_coherent (db : PackageDb) (k : string) (w : World) :
  cache_coherent db (cache w) ->
  cache_coherent db (cache (_pkg_in_official_repos_cached db k w).2).
Proof.
  intros Hc. unfold _pkg_in_official_repos_cached.
  destruct (lru_get k (cache w)) as [v|] eqn:Hget; simpl; intros k' v' Hin.
  - unfold lru_touch in Hin. apply elem_of_cons in Hin as [[= -> ->]|Hin].
    + apply Hc, lru_get_elem, Hget.
    + unfold lru_drop in Hin. apply list_elem_of_filter in Hin as [_ Hin]. now apply Hc.
  - unfold lru_store in Hin.
    assert (Hin' : (k', v') ∈ (k, pacman_Si db k =? 0) :: cache w).
    { eapply subseteq_take, Hin. }
    apply elem_of_cons in Hin' as [[= -> ->]|Hin']; [reflexivity|now apply Hc].
Qed.

Lemma fresh_world_coherent (db : PackageDb) : cache_coherent db (cache fresh_world).
Proof. intros k v Hin. simpl in Hin. inversion Hin. Qed.

(** ** Virtual packages *)

Lemma resolve_loop_unavailable (db : PackageDb) (pkgs resolved : list string) (w : World) :
  cache_coherent db (cache w) ->
  pacman_Si db "vkd3d-proton" <> 0 ->
  (resolve_loop db pkgs resolved w).1 = resolved ++ (to_fallback <$> pkgs)
  /\ cache_coherent db (cache (resolve_loop db pkgs resolved w).2).
Proof.
  intros Hc Hno. revert resolved w Hc.
  induction pkgs as [|p rest IH]; intros resolved w Hc; simpl.
  - now rewrite app_nil_r.
  - unfold to_fallback at 1. case_bool_decide as Hp.
    + unfold mbind, M_bind, bind.
      pose proof (cached_value db "vkd3d-proton" w Hc) as Hv.
      pose proof (cached_coherent db "vkd3d-proton" w Hc) as Hc1.
      destruct (_pkg_in_official_repos_cached db "vkd3d-proton" w) as [b w1].
      simpl in Hv, Hc1. subst b.
      destruct (Z.eqb_spec (pacman_Si db "vkd3d-proton") 0) as [?|_]; [contradiction|].
      pose proof (cached_coherent db "vkd3d-proton-bin" w1 Hc1) as Hc2.
      destruct (_pkg_in_official_repos_cached db "vkd3d-proton-bin" w1) as [b2 w2].
      simpl in Hc2.
      destruct b2; destruct (IH (resolved ++ ["vkd3d-proton-bin"]) w2 Hc2) as [-> ?];
        (split; [now rewrite <- app_assoc | assumption]).
    + destruct (IH (resolved ++ [p]) w Hc) as [-> ?].
      split; [now rewrite <- app_assoc | assumption].
Qed.

(** C9 (as amended). When [vkd3d-proton] is not in the official
    repositories and the memo table of the availability check holds only
    answers of that repository state (as it does from a fresh process on),
    the resolution replaces every occurrence of the virtual name by
    [vkd3d-proton-bin] and leaves every other name alone, so the virtual
    name is in no resolved list. *)
Theorem resolve_virtual_unavailable (db : PackageDb) (pkgs : list string) (w : World) :
  cache_coherent db (cache w) ->
  pacman_Si db "vkd3d-proton" <> 0 ->
  (_resolve_virtual_pkgs db pkgs w).1 = (to_fallback <$> pkgs)
  /\ ("vkd3d-proton" ∉ (_resolve_virtual_pkgs db pkgs w).1)
  /\ ("vkd3d-proton" ∈ pkgs -> "vkd3d-proton-bin" ∈ (_resolve_virtual_pkgs db pkgs w).1).
Proof.
  intros Hc Hno. unfold _resolve_virtual_pkgs.
  destruct (resolve_loop_unavailable db pkgs [] w Hc Hno) as [-> _]. simpl.
  split; [reflexivity|]. split.
  - intros Hin. apply list_elem_of_fmap in Hin as (p & Hp & _).
    unfold to_fallback in Hp. case_bool_decide; [discriminate Hp | congruence].
  - intros Hin. apply list_elem_of_fmap. exists "vkd3d-proton". split; [reflexivity|exact Hin].
Qed.

Lemma resolve_virtual_unavailable_witness :
  cache_coherent db_only_steam (cache fresh_world)
  /\ pacman_Si db_only_steam "vkd3d-proton" <> 0
  /\ (_resolve_virtual_pkgs db_only_steam ["steam"; "vkd3d-proton"] fresh_world).1
     = (to_fallback <$> ["steam"; "vkd3d-proton"])
  /\ ("vkd3d-proton" ∉ (_resolve_virtual_pkgs db_only_steam ["steam"; "vkd3d-proton"] fresh_world).1)
  /\ ("vkd3d-proton" ∈ ["steam"; "vkd3d-proton"] ->
      "vkd3d-proton-bin" ∈ (_resolve_virtual_pkgs db_only_steam ["steam"; "vkd3d-proton"] fresh_world).1).
Proof.
  assert (Hc : cache_coherent db_only_steam (cache fresh_world)).
  { intros k v Hin. simpl in Hin. inversion Hin. }
  assert (Hno : pacman_Si db_only_steam "vkd3d-proton" <> 0).
  { vm_compute. discriminate. }
  split; [exact Hc|]. split; [exact Hno|].
  exact (resolve_virtual_unavailable db_only_steam ["steam"; "vkd3d-proton"] fresh_world Hc Hno).
Defined.

(** C9 as stated fails: the availability check is memoized for the life
    of the process, so after a resolution made while [vkd3d-proton] was in
    the official repositories, a resolution made once it has left them
    still reads the old answer and keeps the virtual name in the list. *)
Lemma resolve_virtual_stale_memo :
  ~ (forall (db_before db : PackageDb) (pkgs_before pkgs : list string),
       let w := (_resolve_virtual_pkgs db_before pkgs_before fresh_world).2 in
       "vkd3d-proton" ∈ pkgs ->
       pacman_Si db "vkd3d-proton" <> 0 ->
       "vkd3d-proton" ∉ (_resolve_virtual_pkgs db pkgs w).1).
Proof.
  intros H.
  apply (H db_with_vkd3d db_only_steam ["vkd3d-proton"] ["wine"; "vkd3d-proton"]).
  - apply list_elem_of_further, list_elem_of_here.
  - vm_compute. discriminate.
  - vm_compute. apply list_elem_of_further, list_elem_of_here.
Qed.

Example resolve_virtual_example :
  (_resolve_virtual_pkgs db_only_steam ["steam"; "vkd3d-proton"; "dxvk"] fresh_world).1
  = ["steam"; "vkd3d-proton-bin"; "dxvk"].
Proof. vm_compute. reflexivity. Qed.

(** ** Installed-state queries *)

Lemma filter_truthy_all_empty (pkgs : list string) :
  Forall (fun p => p = "") pkgs -> filter (fun p => truthy p = true) pkgs = [].
Proof.
  induction 1 as [|p rest Hp _ IH]; [reflexivity|].
  subst p. rewrite filter_cons_False by (simpl; discriminate). exact IH.
Qed.

(** C10. On a list that is empty or holds only empty names,
    [_missing_packages] returns the empty list and [_any_installed] returns
    [False], and neither sends a query: the record of queries (and the memo
    table) is returned as it was. *)
Theorem no_names_no_query (db : PackageDb) (pkgs : list string) (w : World) :
  Forall (fun p => p = "") pkgs ->
  _missing_packages db pkgs w = ([], w) /\ _any_installed db pkgs w = (false, w).
Proof.
  intros Hall. unfold _missing_packages, _any_installed.
  rewrite (filter_truthy_all_empty pkgs Hall). split; reflexivity.
Qed.

Lemma no_names_no_query_witness :
  Forall (fun p => p = "") [""; ""]
  /\ _missing_packages db_only_steam [""; ""] fresh_world = ([], fresh_world)
  /\ _any_installed db_only_steam [""; ""] fresh_world = (false, fresh_world).
Proof.
  assert (H : Forall (fun p : string => p = "") [""; ""]).
  { repeat constructor. }
  split; [exact H|].
  exact (no_names_no_query db_only_steam [""; ""] fresh_world H).
Defined.

Example missing_packages_asks_once :
  _missing_packages db_only_steam [""; "steam"] fresh_world
  = (["steam"], {| cache := []; queries := [QueryT ["steam"]] |}).
Proof. vm_compute. reflexivity. Qed.

(** ** The compatibility gate *)

Example gpu_vendors_from_sysfs_dedup :
  _gpu_vendors_from_sysfs
    {| cpuinfo_lower := ""; lscpu_lower := ""; lspci_lower := "";
       sysfs_vendor_ids := ["0x10de"; "0x8086"; "10de"; "0x1af4"]; lsmod_names := "" |}
  = ["nvidia"; "intel"].
Proof. vm_compute. reflexivity. Qed.

(** The PCI listing of an Intel GPU: "amd" is reported too, because the
    class name "vga compatible controller" contains "ati". *)
Example detect_gpu_vendors_intel : detect_gpu_vendors hw_intel_only = ["amd"; "intel"].
Proof. vm_compute. reflexivity. Qed.

Example gate_blocks_nvidia_on_intel :
  handle_action_entry (App_init hw_intel_only) hw_intel_only "nvidia-driver"
  = Blocked (Some NoNvidiaGpu).
Proof. vm_compute. reflexivity. Qed.

Example gate_lets_intel_through :
  handle_action_entry (App_init hw_intel_only) hw_intel_only "intel-mesa" = Proceed.
Proof. vm_compute. reflexivity. Qed.

(** C6 (as amended). When the NVIDIA driver is requested and neither the
    GPU vendor list the gate uses (the list cached at start-up, or a fresh
    PCI/sysfs detection when that list is empty) nor the loaded kernel
    modules name "nvidia", [_block_incompatible] shows the NVIDIA
    incompatibility error and returns [True], and [handle_action] returns at
    its gate, before any package list, plan or script exists. *)
Theorem nvidia_gate_blocks (app : App) (hw : HwProbe) :
  ("nvidia" ∉ (if nonempty (gpu_vendors app) then gpu_vendors app
               else detect_gpu_vendors hw)) ->
  ("nvidia" ∉ _gpu_modules_present hw) ->
  _block_incompatible app hw "nvidia-driver" = (true, Some NoNvidiaGpu)
  /\ handle_action_entry app hw "nvidia-driver" = Blocked (Some NoNvidiaGpu).
Proof.
  intros Hgpu Hmod.
  assert (Hv : "nvidia" ∉ gate_vendors app hw).
  { unfold gate_vendors. rewrite elem_of_union, !elem_of_list_to_set. tauto. }
  assert (Hb : _block_incompatible app hw "nvidia-driver" = (true, Some NoNvidiaGpu)).
  { unfold _block_incompatible.
    rewrite (bool_decide_eq_true_2 ("nvidia" ∉ gate_vendors app hw) Hv).
    reflexivity. }
  split; [exact Hb|].
  unfold handle_action_entry. rewrite Hb. reflexivity.
Qed.

Lemma nvidia_gate_blocks_witness :
  ("nvidia" ∉ (if nonempty (gpu_vendors (App_init hw_intel_only))
               then gpu_vendors (App_init hw_intel_only)
               else detect_gpu_vendors hw_intel_only))
  /\ ("nvidia" ∉ _gpu_modules_present hw_intel_only)
  /\ _block_incompatible (App_init hw_intel_only) hw_intel_only "nvidia-driver"
     = (true, Some NoNvidiaGpu)
  /\ handle_action_entry (App_init hw_intel_only) hw_intel_only "nvidia-driver"
     = Blocked (Some NoNvidiaGpu).
Proof.
  assert (Hgpu : "nvidia" ∉ (if nonempty (gpu_vendors (App_init hw_intel_only))
                             then gpu_vendors (App_init hw_intel_only)
                             else detect_gpu_vendors hw_intel_only)).
  { vm_compute. intros H. apply elem_of_cons in H as [H|H]; [discriminate H|].
    apply list_elem_of_singleton in H. discriminate H. }
  assert (Hmod : "nvidia" ∉ _gpu_modules_present hw_intel_only).
  { vm_compute. intros H. apply list_elem_of_singleton in H. discriminate H. }
  split; [exact Hgpu|]. split; [exact Hmod|].
  exact (nvidia_gate_blocks (App_init hw_intel_only) hw_intel_only Hgpu Hmod).
Defined.

(** C6 as stated fails: on a host whose PCI listing and sysfs show no
    NVIDIA GPU but whose NVIDIA kernel module is loaded, [detect_gpu_vendors]
    has no "nvidia" entry and the request is not blocked. *)
Lemma nvidia_gate_open_when_module_loaded :
  ~ (forall hw : HwProbe,
       "nvidia" ∉ detect_gpu_vendors hw ->
       (_block_incompatible (App_init hw) hw "nvidia-driver").1 = true).
Proof.
  intros H.
  assert (Hno : "nvidia" ∉ detect_gpu_vendors hw_nvidia_module_only).
  { vm_compute. intros Hin. inversion Hin. }
  specialize (H hw_nvidia_module_only Hno).
  vm_compute in H. discriminate H.
Qed.

(** ** Sentinel names *)

Example sentinel_path_example :
  sentinel_path 4242 1700000000.25 = Some "/tmp/gnusk_done_4242_1700000000250".
Proof. vm_compute. reflexivity. Qed.

(** Within one process the path depends on the clock through the
    millisecond count alone. *)
Lemma sentinel_path_same_ms (pid : Z) (t1 t2 : float) :
  int_of_float (t1 * 1000)%float = int_of_float (t2 * 1000)%float ->
  sentinel_path pid t1 = sentinel_path pid t2.
Proof. unfold sentinel_path. now intros ->. Qed.

(** C5 (as amended). Two invocations in the same process get different
    sentinel paths exactly when the counts that the code computes from their
    clock readings differ: the count is [int(time.time()*1000)], the
    binary64 product truncated to an integer, and it is the only part of the
    path that varies within a process.  (Because the product is rounded, the
    count is not always the millisecond in which the reading lies.) *)
Theorem sentinel_paths_differ_iff_counts_differ (pid : Z) (t1 t2 : float) (n1 n2 : Z) :
  int_of_float (t1 * 1000)%float = Some n1 ->
  int_of_float (t2 * 1000)%float = Some n2 ->
  exists p1 p2,
    sentinel_path pid t1 = Some p1 /\ sentinel_path pid t2 = Some p2
    /\ (p1 <> p2 <-> n1 <> n2).
Proof.
  intros H1 H2. unfold sentinel_path. rewrite H1, H2.
  eexists. eexists. split; [reflexivity|]. split; [reflexivity|].
  split.
  - intros Hp Hn. apply Hp. now rewrite Hn.
  - intros Hne Heq. apply Hne.
    apply (inj (String.app "/tmp/gnusk_done_")) in Heq.
    apply (inj (String.app (str_of_int pid))) in Heq.
    apply (inj (String.app "_")) in Heq.
    now apply str_of_int_inj.
Qed.

Lemma sentinel_paths_differ_iff_counts_differ_witness :
  int_of_float (1700000000.25 * 1000)%float = Some 1700000000250
  /\ int_of_float (1700000000.5 * 1000)%float = Some 1700000000500
  /\ exists p1 p2,
       sentinel_path 4242 1700000000.25 = Some p1
       /\ sentinel_path 4242 1700000000.5 = Some p2
       /\ (p1 <> p2 <-> 1700000000250 <> 1700000000500).
Proof.
  assert (H1 : int_of_float (1700000000.25 * 1000)%float = Some 1700000000250).
  { vm_compute. reflexivity. }
  assert (H2 : int_of_float (1700000000.5 * 1000)%float = Some 1700000000500).
  { vm_compute. reflexivity. }
  split; [exact H1|]. split; [exact H2|].
  exact (sentinel_paths_differ_iff_counts_differ 4242 1700000000.25%float
           1700000000.5%float 1700000000250 1700000000500 H1 H2).
Defined.

(** C5 as stated fails: two invocations of the same process at two
    different clock readings for which the code computes the same count
    (here 1700000000250) get the same sentinel path. *)
Lemma sentinel_paths_collide_within_ms :
  ~ (forall (pid : Z) (t1 t2 : float) (p1 p2 : string),
       t1 <> t2 ->
       sentinel_path pid t1 = Some p1 -> sentinel_path pid t2 = Some p2 ->
       p1 <> p2).
Proof.
  intros H.
  apply (H 4242 1700000000.25%float 1700000000.250244140625%float
           "/tmp/gnusk_done_4242_1700000000250" "/tmp/gnusk_done_4242_1700000000250").
  - intros Heq.
    apply (f_equal (fun x => PrimFloat.eqb x 1700000000.25)) in Heq.
    vm_compute in Heq. discriminate Heq.
  - vm_compute. reflexivity.
  - vm_compute. reflexivity.
  - reflexivity.
Qed.

(** ** The watcher *)

(** Whatever the clock does, a watcher that returns has queued the
    "Processo finalizado." dialog: the [finally] block runs after a timeout
    as it does after a sighting. *)
Lemma watcher_always_notifies (fuel : nat) (env : WatchEnv) (restore_window : bool)
    (how : LoopEnd) (calls : list UiCall) :
  _wait_sentinel_then_notify fuel env restore_window = Some (how, calls) ->
  Info "Instalação" "Processo finalizado." ∈ calls.
Proof.
  unfold _wait_sentinel_then_notify.
  destruct (watch_loop fuel env _ 0) as [how'|]; [|discriminate].
  intros [= _ <-]. apply elem_of_app. right. apply list_elem_of_here.
Qed.

Lemma watch_loop_never_seen (fuel : nat) (env : WatchEnv) (deadline : float)
    (polls : Z) (how : LoopEnd) :
  (forall n, sentinel_exists env n = false) ->
  watch_loop fuel env deadline polls = Some how ->
  exists n, how = DeadlinePassed n.
Proof.
  intros Hnever. revert polls.
  induction fuel as [|fuel IH]; intros polls; simpl; [discriminate|].
  destruct (monotonic env (polls + 1) <? deadline)%float.
  - rewrite Hnever. apply IH.
  - intros [= <-]. now exists polls.
Qed.

(** More fuel does not change what a finished loop returned. *)
Lemma watch_loop_more_fuel (fuel extra : nat) (env : WatchEnv) (deadline : float)
    (polls : Z) (how : LoopEnd) :
  watch_loop fuel env deadline polls = Some how ->
  watch_loop (fuel + extra) env deadline polls = Some how.
Proof.
  revert polls. induction fuel as [|fuel IH]; intros polls; simpl; [discriminate|].
  destruct (monotonic env (polls + 1) <? deadline)%float; [|trivial].
  destruct (sentinel_exists env polls); [trivial|]. apply IH.
Qed.

(** C8, on the code. With a sentinel that never appears and a clock that
    advances one second per round, the watcher leaves its loop when the
    four hours are over, after 14399 polls, and then queues the
    "Processo finalizado." information dialog. *)
Theorem watcher_timeout_notifies :
  _wait_sentinel_then_notify (Z.to_nat 14400) env_never_done false
  = Some (DeadlinePassed 14399, [Info "Instalação" "Processo finalizado."]).
Proof. vm_compute. reflexivity. Qed.

Example watcher_sees_sentinel :
  _wait_sentinel_then_notify 10
    {| monotonic := monotonic env_never_done;
       sentinel_exists := fun n => bool_decide (n = 3) |} true
  = Some (SentinelSeen 3, [Deiconify; Present; Info "Instalação" "Processo finalizado."]).
Proof. vm_compute. reflexivity. Qed.

(** ** The polkit policy *)

Lemma policy_paths_differ : RUNROOT_POLICY_PATH <> RUNROOT_WRAPPER_PATH.
Proof. discriminate. Qed.

Lemma cat_to_same (path text : string) (d : Disk) :
  file_bytes <$> files (cat_to path text d) !! path = Some (heredoc text).
Proof. unfold cat_to. cbn [files]. now rewrite lookup_insert_eq. Qed.

Lemma cat_to_other (path other text : string) (d : Disk) :
  path <> other -> files (cat_to path text d) !! other = files d !! other.
Proof. intros Hne. unfold cat_to. cbn [files]. now rewrite lookup_insert_ne. Qed.

Lemma chmod_bytes (x : bool) (path other : string) (d : Disk) :
  file_bytes <$> files (chmod x path d) !! other = file_bytes <$> files d !! other.
Proof.
  unfold chmod. destruct (files d !! path) as [f|] eqn:Hf; [|reflexivity].
  cbn [files]. destruct (decide (path = other)) as [<-|Hne].
  - now rewrite lookup_insert_eq, Hf.
  - now rewrite lookup_insert_ne.
Qed.

Lemma chmod_same (x : bool) (path : string) (d : Disk) :
  is_Some (files d !! path) ->
  file_executable <$> files (chmod x path d) !! path = Some x.
Proof.
  intros [f Hf]. unfold chmod. rewrite Hf. cbn [files].
  now rewrite lookup_insert_eq.
Qed.

Lemma chmod_other (x : bool) (path other : string) (d : Disk) :
  path <> other -> files (chmod x path d) !! other = files d !! other.
Proof.
  intros Hne. unfold chmod. destruct (files d !! path); [|reflexivity].
  cbn [files]. now rewrite lookup_insert_ne.
Qed.

Lemma chown_root_files (path : string) (d : Disk) :
  files (chown_root path d) = files d.
Proof. unfold chown_root. now destruct (files d !! path). Qed.

(** The check in terms of what is on disk. *)
Lemma policy_check_true (d : Disk) (i : Intended) :
  file_bytes <$> files d !! RUNROOT_WRAPPER_PATH = Some (heredoc (wrapper_content i)) ->
  file_executable <$> files d !! RUNROOT_WRAPPER_PATH = Some true ->
  file_bytes <$> files d !! RUNROOT_POLICY_PATH = Some (heredoc (policy_content i)) ->
  policy_check d i = true.
Proof.
  unfold policy_check, cmp_s.
  destruct (files d !! RUNROOT_WRAPPER_PATH) as [w|]; [|discriminate].
  destruct (files d !! RUNROOT_POLICY_PATH) as [p|]; [|discriminate].
  cbn [fmap option_fmap option_map]. intros [= Hw] [= Hx] [= Hp].
  rewrite Hw, Hx, Hp.
  rewrite !bool_decide_eq_true_2; eauto.
Qed.

Lemma policy_check_after_script (i : Intended) (d : Disk) :
  policy_check (run_policy_script i d) i = true.
Proof.
  pose proof policy_paths_differ as Hne.
  unfold run_policy_script.
  set (d1 := cat_to RUNROOT_WRAPPER_PATH (wrapper_content i) d).
  set (d2 := chmod true RUNROOT_WRAPPER_PATH d1).
  set (d3 := chown_root RUNROOT_WRAPPER_PATH d2).
  set (d4 := cat_to RUNROOT_POLICY_PATH (policy_content i) d3).
  assert (Hw1 : file_bytes <$> files d1 !! RUNROOT_WRAPPER_PATH
                = Some (heredoc (wrapper_content i))) by apply cat_to_same.
  assert (Hs1 : is_Some (files d1 !! RUNROOT_WRAPPER_PATH)).
  { destruct (files d1 !! RUNROOT_WRAPPER_PATH); [eauto|discriminate Hw1]. }
  apply policy_check_true.
  - rewrite chmod_bytes. unfold d4. rewrite cat_to_other by exact Hne.
    unfold d3. rewrite chown_root_files. unfold d2. now rewrite chmod_bytes.
  - rewrite chmod_other by exact Hne. unfold d4. rewrite cat_to_other by exact Hne.
    unfold d3. rewrite chown_root_files. unfold d2. now apply chmod_same.
  - rewrite chmod_bytes. unfold d4. apply cat_to_same.
Qed.

Example policy_first_install :
  _ensure_polkit_policy sample_intended false empty_disk
  = (false, [LaunchPolicyScript sample_intended]).
Proof. vm_compute. reflexivity. Qed.

(** C7. Invoke the policy install, let whatever it launched run to its
    end, and invoke it again with the same intended texts: the second
    invocation finds the check satisfied and launches nothing, so the disk
    and its write count stay as the first install left them. *)
Theorem ensure_polkit_policy_idempotent (i : Intended) (d : Disk) :
  let first := _ensure_polkit_policy i false d in
  let d1 := settle first.2 d in
  let second := _ensure_polkit_policy i first.1 d1 in
  policy_check d1 i = true
  /\ second = (false, [])
  /\ settle second.2 d1 = d1
  /\ writes (settle second.2 d1) = writes d1.
Proof.
  unfold _ensure_polkit_policy.
  destruct (policy_check d i) eqn:Hcheck; cbn [fst snd settle foldl].
  - rewrite Hcheck. auto.
  - rewrite policy_check_after_script. auto.
Qed.

(** The check is not vacuous: a changed policy text is rewritten. *)
Example policy_changed_text_rewritten :
  let d1 := run_policy_script sample_intended empty_disk in
  (_ensure_polkit_policy
     {| wrapper_content := "#!/bin/sh"; policy_content := "<policyconfig></policyconfig>" |}
     false d1).2 <> [].
Proof. vm_compute. discriminate. Qed.

(* ===================================================================== *)
(** * Further properties of the resolver                                  *)
(* ===================================================================== *)

Lemma world_eta (w : World) : {| cache := cache w; queries := queries w |} = w.
Proof. now destruct w. Qed.

Lemma missing_one_by_one_spec (db : PackageDb) (pkgs missing : list string) (w : World) :
  missing_one_by_one db pkgs missing w
  = (missing ++ filter (fun p => pacman_Q db p <> 0) pkgs,
     {| cache := cache w; queries := queries w ++ (QueryQ <$> pkgs) |}).
Proof.
  revert missing w. induction pkgs as [|p rest IH]; intros missing w.
  - simpl. unfold ret. now rewrite !app_nil_r, world_eta.
  - cbn [missing_one_by_one]. unfold mbind, M_bind, bind, ask. cbn [cache queries].
    rewrite fmap_cons.
    destruct (Z.eqb_spec (pacman_Q db p) 0) as [H0|Hn0].
    + rewrite IH. cbn [cache queries].
      rewrite filter_cons_False by (intros H; now apply H).
      now rewrite <- app_assoc.
    + rewrite IH. cbn [cache queries].
      rewrite filter_cons_True by exact Hn0.
      now rewrite <- !app_assoc.
Qed.

(** X1. When the batch query [pacman -T] raises something other than a
    non-zero exit, [_missing_packages] falls back to one [pacman -Q] per
    non-empty name: it returns, in input order, exactly the names whose
    query failed, after sending the batch query and one query per name, and
    it leaves the memo table alone. *)
Theorem missing_packages_fallback (db : PackageDb) (pkgs : list string) (w : World) :
  let names := filter (fun p => truthy p = true) pkgs in
  names <> [] ->
  pacman_T db names = OtherException ->
  _missing_packages db pkgs w
  = (filter (fun p => pacman_Q db p <> 0) names,
     {| cache := cache w;
        queries := queries w ++ QueryT names :: (QueryQ <$> names) |}).
Proof.
  intros names Hne HT. unfold _missing_packages. fold names.
  destruct names as [|n rest] eqn:Hnames; [contradiction|].
  cbn [nonempty]. unfold mbind, M_bind, bind, ask. rewrite HT.
  rewrite missing_one_by_one_spec. cbn [cache queries app].
  now rewrite <- app_assoc.
Qed.

Lemma missing_packages_fallback_witness :
  filter (fun p => truthy p = true) ["steam"; ""; "lutris"] <> []
  /\ pacman_T db_unreachable (filter (fun p => truthy p = true) ["steam"; ""; "lutris"])
     = OtherException
  /\ _missing_packages db_unreachable ["steam"; ""; "lutris"] fresh_world
     = (filter (fun p => pacman_Q db_unreachable p <> 0)
          (filter (fun p => truthy p = true) ["steam"; ""; "lutris"]),
        {| cache := cache fresh_world;
           queries := queries fresh_world
                      ++ QueryT (filter (fun p => truthy p = true) ["steam"; ""; "lutris"])
                         :: (QueryQ <$> filter (fun p => truthy p = true)
                                          ["steam"; ""; "lutris"]) |}).
Proof.
  assert (Hne : filter (fun p => truthy p = true) ["steam"; ""; "lutris"] <> []).
  { vm_compute. discriminate. }
  assert (HT : pacman_T db_unreachable
                 (filter (fun p => truthy p = true) ["steam"; ""; "lutris"])
               = OtherException) by reflexivity.
  split; [exact Hne|]. split; [exact HT|].
  exact (missing_packages_fallback db_unreachable ["steam"; ""; "lutris"] fresh_world Hne HT).
Defined.

Lemma distinct_count_lt (missing names : list string) :
  missing ⊆ names ->
  (distinct_count missing < distinct_count names)%nat
  <-> exists p, p ∈ names /\ p ∉ missing.
Proof.
  intros Hsub. unfold distinct_count.
  set (A := list_to_set missing : gset string).
  set (B := list_to_set names : gset string).
  assert (HAB : A ⊆ B).
  { intros x. unfold A, B. rewrite !elem_of_list_to_set. apply Hsub. }
  split.
  - intros Hlt.
    assert (Hpos : (0 < size (B ∖ A))%nat).
    { rewrite size_difference by exact HAB. lia. }
    apply size_pos_elem_of in Hpos as [x Hx].
    apply elem_of_difference in Hx as [HxB HxA].
    exists x. unfold A, B in *. rewrite elem_of_list_to_set in HxB, HxA. auto.
  - intros (p & Hp & Hnp). apply subset_size. split; [exact HAB|].
    intros HBA. apply Hnp.
    assert (HpA : p ∈ A) by (apply HBA; unfold B; now rewrite elem_of_list_to_set).
    unfold A in HpA. now rewrite elem_of_list_to_set in HpA.
Qed.

(** X2. As long as the names reported missing are among the names asked
    (as [pacman -T] and the one-by-one fallback report them),
    [_any_installed] answers [True] exactly when some non-empty name of the
    list is not reported missing, however often names repeat in the list or
    in the report. *)
Theorem any_installed_iff (db : PackageDb) (pkgs : list string) (w : World) :
  let names := filter (fun p => truthy p = true) pkgs in
  let missing := (_missing_packages db names w).1 in
  missing ⊆ names ->
  (_any_installed db pkgs w).1 = true <-> exists p, p ∈ names /\ p ∉ missing.
Proof.
  intros names missing Hsub. unfold _any_installed. fold names.
  unfold missing in *. clear missing.
  destruct (nonempty names) eqn:Hne.
  - unfold mbind, M_bind, bind, ret.
    destruct (_missing_packages db names w) as [m w'].
    cbn [fst] in *. rewrite Nat.ltb_lt. now apply distinct_count_lt.
  - destruct names as [|n rest]; [|discriminate Hne].
    cbn [ret fst]. split; [discriminate|].
    intros (p & Hp & _). inversion Hp.
Qed.

Lemma any_installed_iff_witness :
  (_missing_packages db_only_steam
     (filter (fun p => truthy p = true) ["steam"; ""]) fresh_world).1
  ⊆ filter (fun p => truthy p = true) ["steam"; ""]
  /\ ((_any_installed db_only_steam ["steam"; ""] fresh_world).1 = true
      <-> exists p, p ∈ filter (fun p => truthy p = true) ["steam"; ""]
                    /\ p ∉ (_missing_packages db_only_steam
                              (filter (fun p => truthy p = true) ["steam"; ""])
                              fresh_world).1).
Proof.
  assert (Hsub : (_missing_packages db_only_steam
                    (filter (fun p => truthy p = true) ["steam"; ""]) fresh_world).1
                 ⊆ filter (fun p => truthy p = true) ["steam"; ""]).
  { vm_compute. intros x Hx. exact Hx. }
  split; [exact Hsub|].
  exact (any_installed_iff db_only_steam ["steam"; ""] fresh_world Hsub).
Defined.

Lemma lru_get_touch (k : string) (v : bool) (c : Cache) :
  lru_get k (lru_touch k v c) = Some v.
Proof. unfold lru_touch. simpl. now rewrite bool_decide_eq_true_2. Qed.

Lemma lru_get_store (k : string) (v : bool) (c : Cache) :
  lru_get k (lru_store k v c) = Some v.
Proof. unfold lru_store, lru_maxsize. simpl. now rewrite bool_decide_eq_true_2. Qed.

Lemma lru_drop_shorter (k : string) (v : bool) (c : Cache) :
  lru_get k c = Some v -> (S (length (lru_drop k c)) <= length c)%nat.
Proof.
  unfold lru_drop. induction c as [|[k' v'] c IH]; simpl; [discriminate|].
  case_bool_decide as Hk.
  - intros _. rewrite filter_cons_False by (simpl; intros H; now apply H).
    pose proof (length_filter (fun e : string * bool => e.1 <> k) c). lia.
  - intros Hget. rewrite filter_cons_True by exact Hk. simpl.
    specialize (IH Hget). lia.
Qed.

(** X3. The availability check is memoized: right after a lookup of a
    package, a second lookup of the same package returns the same answer
    and sends no query; and the memo table never grows beyond its 1024
    entries. *)
Theorem cached_lookup_memoized (db : PackageDb) (pkg : string) (w : World) :
  let first := _pkg_in_official_repos_cached db pkg w in
  let second := _pkg_in_official_repos_cached db pkg first.2 in
  second.1 = first.1
  /\ queries second.2 = queries first.2
  /\ ((length (cache w) <= lru_maxsize)%nat ->
      (length (cache first.2) <= lru_maxsize)%nat).
Proof.
  unfold _pkg_in_official_repos_cached.
  destruct (lru_get pkg (cache w)) as [v|] eqn:Hget; cbn [fst snd cache queries].
  - rewrite lru_get_touch. cbn [fst snd queries].
    split; [reflexivity|]. split; [reflexivity|].
    intros Hlen. unfold lru_touch. simpl.
    pose proof (lru_drop_shorter pkg v (cache w) Hget). lia.
  - rewrite lru_get_store. cbn [fst snd queries].
    split; [reflexivity|]. split; [reflexivity|].
    intros _. unfold lru_store. rewrite length_take. lia.
Qed.

(** ** Virtual packages, whatever the repositories hold *)

Lemma resolve_loop_shape (db : PackageDb) (pkgs resolved : list string) (w : World) :
  exists out,
    (resolve_loop db pkgs resolved w).1 = resolved ++ out
    /\ Forall2 (fun p r => r = p \/ (p = "vkd3d-proton" /\ r = "vkd3d-proton-bin"))
         pkgs out.
Proof.
  revert resolved w. induction pkgs as [|p rest IH]; intros resolved w.
  - exists []. simpl. split; [now rewrite app_nil_r | constructor].
  - cbn [resolve_loop]. case_bool_decide as Hp.
    + unfold mbind, M_bind, bind.
      destruct (_pkg_in_official_repos_cached db "vkd3d-proton" w) as [[] w1].
      * destruct (IH (resolved ++ ["vkd3d-proton"]) w1) as (out & -> & Hout).
        exists ("vkd3d-proton" :: out). rewrite <- app_assoc.
        split; [reflexivity|]. constructor; [left; now subst|exact Hout].
      * destruct (_pkg_in_official_repos_cached db "vkd3d-proton-bin" w1) as [[] w2];
          destruct (IH (resolved ++ ["vkd3d-proton-bin"]) w2) as (out & -> & Hout);
          exists ("vkd3d-proton-bin" :: out); rewrite <- app_assoc;
          (split; [reflexivity|]); (constructor; [right; now subst|exact Hout]).
    + destruct (IH (resolved ++ [p]) w) as (out & -> & Hout).
      exists (p :: out). rewrite <- app_assoc.
      split; [reflexivity|]. constructor; [now left|exact Hout].
Qed.

(** X4. Whatever the repositories and the memo table hold,
    [_resolve_virtual_pkgs] neither adds, drops nor reorders names: the
    result has the length of the input and agrees with it position by
    position, except that [vkd3d-proton] may have become
    [vkd3d-proton-bin]. *)
Theorem resolve_virtual_pointwise (db : PackageDb) (pkgs : list string) (w : World) :
  Forall2 (fun p r => r = p \/ (p = "vkd3d-proton" /\ r = "vkd3d-proton-bin"))
    pkgs (_resolve_virtual_pkgs db pkgs w).1
  /\ length (_resolve_virtual_pkgs db pkgs w).1 = length pkgs.
Proof.
  unfold _resolve_virtual_pkgs.
  destruct (resolve_loop_shape db pkgs [] w) as (out & -> & Hout). simpl.
  split; [exact Hout|]. symmetry. eapply Forall2_length, Hout.
Qed.

Lemma resolve_loop_no_virtual (db : PackageDb) (pkgs resolved : list string) (w : World) :
  "vkd3d-proton" ∉ pkgs -> resolve_loop db pkgs resolved w = (resolved ++ pkgs, w).
Proof.
  revert resolved. induction pkgs as [|p rest IH]; intros resolved Hno.
  - simpl. unfold ret. now rewrite app_nil_r.
  - apply not_elem_of_cons in Hno as [Hp Hrest]. cbn [resolve_loop].
    rewrite bool_decide_eq_false_2 by congruence.
    rewrite IH by exact Hrest. now rewrite <- app_assoc.
Qed.

(** X5. A package list that does not name [vkd3d-proton] is returned as it
    is, and resolving it sends no query and does not touch the memo table. *)
Theorem resolve_virtual_untouched (db : PackageDb) (pkgs : list string) (w : World) :
  "vkd3d-proton" ∉ pkgs -> _resolve_virtual_pkgs db pkgs w = (pkgs, w).
Proof.
  intros Hno. unfold _resolve_virtual_pkgs. now rewrite resolve_loop_no_virtual.
Qed.

Lemma resolve_virtual_untouched_witness :
  ("vkd3d-proton" ∉ ["steam"; "lutris"])
  /\ _resolve_virtual_pkgs db_unreachable ["steam"; "lutris"] fresh_world
     = (["steam"; "lutris"], fresh_world).
Proof.
  assert (Hno : "vkd3d-proton" ∉ ["steam"; "lutris"]).
  { intros H. apply elem_of_cons in H as [H|H]; [discriminate H|].
    apply list_elem_of_singleton in H. discriminate H. }
  split; [exact Hno|].
  exact (resolve_virtual_untouched db_unreachable ["steam"; "lutris"] fresh_world Hno).
Defined.

Lemma resolve_loop_available (db : PackageDb) (pkgs resolved : list string) (w : World) :
  cache_coherent db (cache w) ->
  pacman_Si db "vkd3d-proton" = 0 ->
  (resolve_loop db pkgs resolved w).1 = resolved ++ pkgs.
Proof.
  intros Hc Hyes. revert resolved w Hc.
  induction pkgs as [|p rest IH]; intros resolved w Hc.
  - simpl. now rewrite app_nil_r.
  - cbn [resolve_loop]. case_bool_decide as Hp.
    + unfold mbind, M_bind, bind.
      pose proof (cached_value db "vkd3d-proton" w Hc) as Hv.
      pose proof (cached_coherent db "vkd3d-proton" w Hc) as Hc1.
      destruct (_pkg_in_official_repos_cached db "vkd3d-proton" w) as [b w1].
      simpl in Hv, Hc1. subst b. rewrite Hyes. simpl.
      rewrite IH by exact Hc1. subst p. now rewrite <- app_assoc.
    + rewrite IH by exact Hc. now rewrite <- app_assoc.
Qed.

(** X6. When [vkd3d-proton] itself is in the official repositories (and the
    memo table holds answers of that repository state), the resolution
    returns every list unchanged: the fallback is never substituted. *)
Theorem resolve_virtual_available (db : PackageDb) (pkgs : list string) (w : World) :
  cache_coherent db (cache w) ->
  pacman_Si db "vkd3d-proton" = 0 ->
  (_resolve_virtual_pkgs db pkgs w).1 = pkgs.
Proof.
  intros Hc Hyes. unfold _resolve_virtual_pkgs.
  now rewrite (resolve_loop_available db pkgs [] w Hc Hyes).
Qed.

Lemma resolve_virtual_available_witness :
  cache_coherent db_with_vkd3d (cache fresh_world)
  /\ pacman_Si db_with_vkd3d "vkd3d-proton" = 0
  /\ (_resolve_virtual_pkgs db_with_vkd3d ["wine"; "vkd3d-proton"] fresh_world).1
     = ["wine"; "vkd3d-proton"].
Proof.
  assert (Hc : cache_coherent db_with_vkd3d (cache fresh_world)).
  { intros k v Hin. simpl in Hin. inversion Hin. }
  assert (Hyes : pacman_Si db_with_vkd3d "vkd3d-proton" = 0) by reflexivity.
  split; [exact Hc|]. split; [exact Hyes|].
  exact (resolve_virtual_available db_with_vkd3d ["wine"; "vkd3d-proton"] fresh_world Hc Hyes).
Defined.

(** ** How the split classifies *)

Lemma split_loop_elem (S : gset string) (pkgs : list string) (p : string) :
  p ∈ (split_loop S pkgs [] []).1 <-> p ∈ pkgs /\ p ∈ S.
Proof.
  rewrite split_loop_filter. simpl. rewrite list_elem_of_filter. tauto.
Qed.

(** X7. When the batch query [pacman -Si p1 .. pn] returns, a package is
    classified official exactly when it is a non-empty name that the query
    printed; the split sends that one query and neither reads nor fills the
    memo table. *)
Theorem split_official_batch (db : PackageDb) (pkgs lines : list string) (w : World) :
  let names := filter (fun p => truthy p = true) pkgs in
  names <> [] ->
  pacman_Si_names db names = Some lines ->
  (forall p, p ∈ (_split_official_aur db pkgs w).1.1
             <-> p ∈ pkgs /\ p ∈ lines /\ p <> "")
  /\ (_split_official_aur db pkgs w).2
     = {| cache := cache w; queries := queries w ++ [QuerySiBatch names] |}.
Proof.
  intros names Hne Hsi.
  unfold _split_official_aur, _which_in_official_repos. fold names.
  destruct names as [|n rest] eqn:Hnames; [contradiction|].
  cbn [nonempty]. unfold mbind, M_bind, bind, mret, M_ret, ret, ask.
  rewrite Hsi. cbn [fst snd]. split; [|reflexivity].
  intros p. rewrite split_loop_elem, elem_of_list_to_set, list_elem_of_filter.
  destruct p; simpl; intuition congruence.
Qed.

Lemma split_official_batch_witness :
  filter (fun p => truthy p = true) ["steam"; "yay-bin"] <> []
  /\ pacman_Si_names db_only_steam (filter (fun p => truthy p = true) ["steam"; "yay-bin"])
     = Some ["steam"]
  /\ (forall p, p ∈ (_split_official_aur db_only_steam ["steam"; "yay-bin"] fresh_world).1.1
                <-> p ∈ ["steam"; "yay-bin"] /\ p ∈ ["steam"] /\ p <> "")
  /\ (_split_official_aur db_only_steam ["steam"; "yay-bin"] fresh_world).2
     = {| cache := cache fresh_world;
          queries := queries fresh_world
                     ++ [QuerySiBatch (filter (fun p => truthy p = true)
                                         ["steam"; "yay-bin"])] |}.
Proof.
  assert (Hne : filter (fun p => truthy p = true) ["steam"; "yay-bin"] <> []).
  { vm_compute. discriminate. }
  assert (Hsi : pacman_Si_names db_only_steam
                  (filter (fun p => truthy p = true) ["steam"; "yay-bin"])
                = Some ["steam"]).
  { vm_compute. reflexivity. }
  split; [exact Hne|]. split; [exact Hsi|].
  exact (split_official_batch db_only_steam ["steam"; "yay-bin"] ["steam"] fresh_world Hne Hsi).
Defined.

Lemma official_one_by_one_spec (db : PackageDb) (pkgs : list string) (w : World) :
  cache_coherent db (cache w) ->
  (forall p, p ∈ (official_one_by_one db pkgs w).1 <-> p ∈ pkgs /\ pacman_Si db p = 0)
  /\ cache_coherent db (cache (official_one_by_one db pkgs w).2).
Proof.
  revert w. induction pkgs as [|q rest IH]; intros w Hc.
  - simpl. split; [|exact Hc]. intros p. rewrite elem_of_empty, elem_of_nil. tauto.
  - cbn [official_one_by_one]. unfold mbind, M_bind, bind, ret.
    pose proof (cached_value db q w Hc) as Hv.
    pose proof (cached_coherent db q w Hc) as Hc1.
    destruct (_pkg_in_official_repos_cached db q w) as [b w1].
    simpl in Hv, Hc1. subst b.
    destruct (IH w1 Hc1) as [Hset Hc2].
    destruct (official_one_by_one db rest w1) as [s w2]. simpl in *.
    split; [|exact Hc2]. intros p. rewrite elem_of_cons.
    destruct (Z.eqb_spec (pacman_Si db q) 0) as [H0|Hn0].
    + rewrite elem_of_union, elem_of_singleton, Hset.
      split; [intros [->|[? ?]]; auto | intros [[->|?] ?]; auto].
    + rewrite Hset. split; [intros [? ?]; auto | intros [[->|?] ?]; [contradiction|auto]].
Qed.

(** X8. When the batch query raises, the split asks package by package
    through the memo: a package is then classified official exactly when
    [pacman -Si] succeeds for it (for a memo table that holds answers of the
    current repository state, which the split keeps so). *)
Theorem split_official_one_by_one (db : PackageDb) (pkgs : list string) (w : World) :
  let names := filter (fun p => truthy p = true) pkgs in
  names <> [] ->
  pacman_Si_names db names = None ->
  cache_coherent db (cache w) ->
  (forall p, p ∈ (_split_official_aur db pkgs w).1.1
             <-> p ∈ pkgs /\ pacman_Si db p = 0)
  /\ cache_coherent db (cache (_split_official_aur db pkgs w).2).
Proof.
  intros names Hne Hsi Hc.
  unfold _split_official_aur, _which_in_official_repos. fold names.
  destruct names as [|n rest] eqn:Hnames; [contradiction|].
  cbn [nonempty]. unfold mbind, M_bind, bind, mret, M_ret, ret, ask.
  rewrite Hsi.
  set (w1 := {| cache := cache w; queries := queries w ++ [QuerySiBatch (n :: rest)] |}).
  destruct (official_one_by_one_spec db pkgs w1 Hc) as [Hset Hc'].
  destruct (official_one_by_one db pkgs w1) as [s w2]. cbn [fst snd] in *.
  split; [|exact Hc'].
  intros p. rewrite split_loop_elem, Hset. tauto.
Qed.

Lemma split_official_one_by_one_witness :
  filter (fun p => truthy p = true) ["wine"; "vkd3d-proton"] <> []
  /\ pacman_Si_names db_with_vkd3d (filter (fun p => truthy p = true) ["wine"; "vkd3d-proton"])
     = None
  /\ cache_coherent db_with_vkd3d (cache fresh_world)
  /\ (forall p, p ∈ (_split_official_aur db_with_vkd3d ["wine"; "vkd3d-proton"] fresh_world).1.1
                <-> p ∈ ["wine"; "vkd3d-proton"] /\ pacman_Si db_with_vkd3d p = 0)
  /\ cache_coherent db_with_vkd3d
       (cache (_split_official_aur db_with_vkd3d ["wine"; "vkd3d-proton"] fresh_world).2).
Proof.
  assert (Hne : filter (fun p => truthy p = true) ["wine"; "vkd3d-proton"] <> []).
  { vm_compute. discriminate. }
  assert (Hsi : pacman_Si_names db_with_vkd3d
                  (filter (fun p => truthy p = true) ["wine"; "vkd3d-proton"]) = None)
    by reflexivity.
  assert (Hc : cache_coherent db_with_vkd3d (cache fresh_world)).
  { intros k v Hin. simpl in Hin. inversion Hin. }
  split; [exact Hne|]. split; [exact Hsi|]. split; [exact Hc|].
  exact (split_official_one_by_one db_with_vkd3d ["wine"; "vkd3d-proton"] fresh_world Hne Hsi Hc).
Defined.

(* ===================================================================== *)
(** * Further properties of the sentinel name and the ZRAM parameters     *)
(* ===================================================================== *)

Lemma contains_cons (needle : string) (c : ascii) (s : string) :
  contains needle (String c s) = String.prefix needle (String c s) || contains needle s.
Proof. reflexivity. Qed.

Lemma contains_underscore_cons (c : ascii) (s : string) :
  contains "_" (String c s) = false -> c <> "_"%char /\ contains "_" s = false.
Proof.
  rewrite contains_cons. cbn [String.prefix].
  destruct (ascii_dec "_" c) as [<-|Hc].
  - destruct s; discriminate.
  - cbn [orb]. intros H. split; [congruence|exact H].
Qed.

Lemma contains_underscore_digit (c : ascii) (s : string) :
  c <> "_"%char -> contains "_" s = false -> contains "_" (String c s) = false.
Proof.
  intros Hc Hs. rewrite contains_cons. cbn [String.prefix].
  destruct (ascii_dec "_" c) as [<-|_]; [now contradiction Hc|exact Hs].
Qed.

Lemma uint_digits_no_underscore (d : Decimal.uint) :
  contains "_" (NilEmpty.string_of_uint d) = false.
Proof.
  induction d; cbn [NilEmpty.string_of_uint]; [reflexivity|..];
    (apply contains_underscore_digit; [discriminate|exact IHd]).
Qed.

Lemma str_of_int_no_underscore (n : Z) : contains "_" (str_of_int n) = false.
Proof.
  assert (Hu : forall d, contains "_" (NilZero.string_of_uint d) = false).
  { intros d. unfold NilZero.string_of_uint.
    destruct d; try reflexivity; apply uint_digits_no_underscore. }
  unfold str_of_int, NilZero.string_of_int.
  destruct (Z.to_int n) as [d|d]; [apply Hu|].
  apply contains_underscore_digit; [discriminate|apply Hu].
Qed.

Lemma split_at_underscore (a b x y : string) :
  contains "_" a = false -> contains "_" b = false ->
  a +:+ "_" +:+ x = b +:+ "_" +:+ y -> a = b /\ x = y.
Proof.
  revert b. induction a as [|c a IH]; intros b Ha Hb Heq.
  - destruct b as [|c' b]; simpl in Heq.
    + now injection Heq.
    + injection Heq as Hc _. subst c'.
      apply contains_underscore_cons in Hb as [Hc _]. now contradiction Hc.
  - destruct b as [|c' b]; simpl in Heq.
    + injection Heq as Hc _. subst c.
      apply contains_underscore_cons in Ha as [Hc _]. now contradiction Hc.
    + injection Heq as Hc Htl. subst c'.
      apply contains_underscore_cons in Ha as [_ Ha].
      apply contains_underscore_cons in Hb as [_ Hb].
      destruct (IH b Ha Hb Htl) as [-> ->]. now split.
Qed.

(** X9. Two invocations get the same sentinel path only when they run
    under the same process id and the code computes the same count
    [int(time.time()*1000)] from both clock readings: sentinel paths of
    different processes never collide. *)
Theorem sentinel_path_injective (pid1 pid2 : Z) (t1 t2 : float) (p : string) :
  sentinel_path pid1 t1 = Some p ->
  sentinel_path pid2 t2 = Some p ->
  pid1 = pid2 /\ int_of_float (t1 * 1000)%float = int_of_float (t2 * 1000)%float.
Proof.
  unfold sentinel_path.
  destruct (int_of_float (t1 * 1000)%float) as [ms1|]; [|discriminate].
  destruct (int_of_float (t2 * 1000)%float) as [ms2|]; [|discriminate].
  intros [= <-] [= Heq]. cbn [String.append] in Heq.
  apply split_at_underscore in Heq as [Hpid Hms];
    try apply str_of_int_no_underscore.
  apply str_of_int_inj in Hpid. apply str_of_int_inj in Hms. now subst.
Qed.

Lemma sentinel_path_injective_witness :
  sentinel_path 4242 1700000000.25 = Some "/tmp/gnusk_done_4242_1700000000250"
  /\ sentinel_path 4242 1700000000.250244140625
     = Some "/tmp/gnusk_done_4242_1700000000250"
  /\ 4242 = 4242
  /\ int_of_float (1700000000.25 * 1000)%float
     = int_of_float (1700000000.250244140625 * 1000)%float.
Proof.
  assert (H1 : sentinel_path 4242 1700000000.25
               = Some "/tmp/gnusk_done_4242_1700000000250").
  { vm_compute. reflexivity. }
  assert (H2 : sentinel_path 4242 1700000000.250244140625
               = Some "/tmp/gnusk_done_4242_1700000000250").
  { vm_compute. reflexivity. }
  split; [exact H1|]. split; [exact H2|].
  exact (sentinel_path_injective 4242 4242 1700000000.25%float
           1700000000.250244140625%float "/tmp/gnusk_done_4242_1700000000250" H1 H2).
Defined.

Lemma spec_raw_size_cap (ram_mib : Z) : spec_raw_size ram_mib <= 16384.
Proof.
  unfold spec_raw_size. rewrite Qfloor_three_quarters.
  destruct (Z.leb_spec ram_mib 4096); [lia|].
  destruct (Z.leb_spec ram_mib 8192); [apply Z.div_le_upper_bound; lia|].
  destruct (Z.leb_spec ram_mib 16384); [apply Z.div_le_upper_bound; lia|].
  destruct (Z.leb_spec ram_mib 65536); lia.
Qed.

(** X10. For every RAM size and core count the size label returned reads
    back to a byte count of at least 256 MiB and at most 16384 MiB (16 GiB),
    whatever the host has. *)
Theorem choose_zram_size_capped (ram_mib cores : Z) :
  exists label comp swap bytes,
    choose_zram ram_mib cores = Some (label, comp, swap)
    /\ parse_size_label label = Some bytes
    /\ 256 * MiB <= bytes <= 16384 * MiB.
Proof.
  exists (size_label (Z.max 256 (spec_raw_size ram_mib / 256 * 256))),
    (spec_compression cores), (spec_swappiness ram_mib),
    (Z.max 256 (spec_raw_size ram_mib / 256 * 256) * MiB).
  split; [|split].
  - unfold choose_zram. now rewrite zram_raw_size_spec.
  - apply parse_size_label_of_size.
  - pose proof (spec_raw_size_cap ram_mib) as Hcap.
    unfold MiB.
    pose proof (Z.div_mod (spec_raw_size ram_mib) 256 ltac:(lia)) as Hdm.
    pose proof (Z.mod_pos_bound (spec_raw_size ram_mib) 256 ltac:(lia)) as Hb.
    lia.
Qed.

(** X11. Whatever [nproc] prints (zero and negative counts included) and
    whether or not it can be run, the core count handed to the heuristic is
    at least 1 ([os.cpu_count()] never being negative). *)
Theorem detect_cpu_count_positive (h : MemProbe) :
  (forall c, os_cpu_count h = Some c -> 0 <= c) ->
  1 <= _detect_cpu_count h.
Proof.
  intros Hos. unfold _detect_cpu_count.
  destruct (nproc_out h) as [c|].
  - destruct (Z.ltb_spec 0 c); lia.
  - destruct (os_cpu_count h) as [c|] eqn:Hc; [|lia].
    specialize (Hos c eq_refl). destruct (Z.eqb_spec c 0); lia.
Qed.

Lemma detect_cpu_count_positive_witness :
  (forall c,
      os_cpu_count {| meminfo_memtotal_kb := None; free_m_total := None;
                      nproc_out := Some 0; os_cpu_count := Some 8 |} = Some c -> 0 <= c)
  /\ 1 <= _detect_cpu_count {| meminfo_memtotal_kb := None; free_m_total := None;
                               nproc_out := Some 0; os_cpu_count := Some 8 |}.
Proof.
  assert (H : forall c,
             os_cpu_count {| meminfo_memtotal_kb := None; free_m_total := None;
                             nproc_out := Some 0; os_cpu_count := Some 8 |} = Some c
             -> 0 <= c).
  { simpl. intros c [= <-]. lia. }
  split; [exact H|].
  exact (detect_cpu_count_positive _ H).
Defined.

(* ===================================================================== *)
(** * Further properties of hardware detection and the gate               *)
(* ===================================================================== *)

Lemma append_nil_l (s : string) : "" +:+ s = s.
Proof. reflexivity. Qed.

Lemma append_cons (c : ascii) (a b : string) : String c a +:+ b = String c (a +:+ b).
Proof. reflexivity. Qed.

Lemma append_assoc (a b c : string) : (a +:+ b) +:+ c = a +:+ (b +:+ c).
Proof.
  induction a as [|x a' IH]; [reflexivity|].
  rewrite !append_cons. now f_equal.
Qed.

Lemma prefix_spec (needle hay : string) :
  String.prefix needle hay = true <-> exists post, hay = needle +:+ post.
Proof.
  revert hay. induction needle as [|a needle IH]; intros hay.
  - destruct hay; cbn [String.prefix]; split; eauto.
  - destruct hay as [|b hay]; cbn [String.prefix].
    + split; [discriminate|]. intros [post H]. rewrite append_cons in H. discriminate H.
    + destruct (ascii_dec a b) as [<-|Hab].
      * rewrite IH. split; intros [post H]; exists post.
        -- rewrite append_cons. now rewrite H.
        -- rewrite append_cons in H. now injection H.
      * split; [discriminate|]. intros [post H]. rewrite append_cons in H.
        injection H as H _. now contradiction Hab.
Qed.

Lemma contains_spec (needle hay : string) :
  contains needle hay = true <-> exists pre post, hay = pre +:+ needle +:+ post.
Proof.
  induction hay as [|c hay IH].
  - cbn [contains]. rewrite orb_false_r, prefix_spec. split.
    + intros [post H]. exists "", post. exact H.
    + intros (pre & post & H). destruct pre; [now exists post|].
      rewrite append_cons in H. discriminate H.
  - rewrite contains_cons, orb_true_iff, prefix_spec, IH. split.
    + intros [[post H]|(pre & post & H)].
      * exists "", post. exact H.
      * exists (String c pre), post. rewrite append_cons. now rewrite H.
    + intros (pre & post & H). destruct pre as [|c' pre].
      * left. now exists post.
      * right. rewrite append_cons in H. injection H as _ H. now exists pre, post.
Qed.

Lemma contains_trans (a b c : string) :
  contains a b = true -> contains b c = true -> contains a c = true.
Proof.
  rewrite !contains_spec. intros (p1 & q1 & ->) (p2 & q2 & ->).
  exists (p2 +:+ p1), (q1 +:+ q2). now rewrite !append_assoc.
Qed.

Lemma dedup_keep_first_elem (seen xs : list string) (x : string) :
  x ∈ dedup_keep_first seen xs <-> x ∈ xs /\ x ∉ seen.
Proof.
  revert seen. induction xs as [|y xs IH]; intros seen; simpl.
  - rewrite elem_of_nil. tauto.
  - case_bool_decide as Hy.
    + rewrite IH, elem_of_cons. split; [tauto|].
      intros [[->|Hx] Hns]; [contradiction|tauto].
    + rewrite !elem_of_cons, IH, elem_of_cons. split.
      * intros [->|[Hx Hns]]; [tauto|]. split; [tauto|]. tauto.
      * intros [[->|Hx] Hns]; [tauto|].
        destruct (decide (x = y)) as [->|Hxy]; [tauto|]. right. tauto.
Qed.

Lemma dedup_keep_first_NoDup (seen xs : list string) :
  NoDup (dedup_keep_first seen xs).
Proof.
  revert seen. induction xs as [|y xs IH]; intros seen; simpl.
  - constructor.
  - case_bool_decide as Hy; [apply IH|].
    constructor; [|apply IH].
    rewrite dedup_keep_first_elem, elem_of_cons. tauto.
Qed.

Lemma fromkeys_elem (xs : list string) (x : string) : x ∈ fromkeys xs <-> x ∈ xs.
Proof. unfold fromkeys. rewrite dedup_keep_first_elem, elem_of_nil. tauto. Qed.

Lemma sysfs_loop_known (vids vendors : list string) (x : string) :
  x ∈ sysfs_loop vids vendors -> x ∈ vendors \/ x ∈ ["nvidia"; "amd"; "intel"].
Proof.
  revert vendors. induction vids as [|vid rest IH]; intros vendors; simpl; [tauto|].
  repeat case_bool_decide; intros Hx; apply IH in Hx;
    rewrite ?elem_of_app, ?list_elem_of_singleton, !elem_of_cons in Hx;
    rewrite !elem_of_cons; tauto.
Qed.

(** X12. Every vendor list the detection produces ([lspci], sysfs, their
    combination, and the loaded modules) is free of duplicates and names
    only nvidia, amd and intel, whatever the probes print. *)
Theorem gpu_vendor_lists_wellformed (hw : HwProbe) :
  let ok := fun l : list string =>
              NoDup l /\ forall x, x ∈ l -> x ∈ ["nvidia"; "amd"; "intel"] in
  ok (_gpu_vendors_from_lspci hw) /\ ok (_gpu_vendors_from_sysfs hw)
  /\ ok (detect_gpu_vendors hw) /\ ok (_gpu_modules_present hw).
Proof.
  intros ok.
  assert (Hl : ok (_gpu_vendors_from_lspci hw)).
  { split; [apply dedup_keep_first_NoDup|].
    intros x. unfold _gpu_vendors_from_lspci. rewrite fromkeys_elem.
    destruct (contains "nvidia" _), (contains "amd" _ || contains "ati" _),
      (contains "intel" _); simpl;
      rewrite ?elem_of_cons, ?elem_of_nil; tauto. }
  assert (Hs : ok (_gpu_vendors_from_sysfs hw)).
  { split; [apply dedup_keep_first_NoDup|].
    intros x. unfold _gpu_vendors_from_sysfs. rewrite fromkeys_elem.
    intros Hx. apply sysfs_loop_known in Hx as [Hx|Hx]; [inversion Hx|exact Hx]. }
  split; [exact Hl|]. split; [exact Hs|]. split.
  - unfold detect_gpu_vendors. now destruct (nonempty _).
  - split; [apply dedup_keep_first_NoDup|].
    intros x. unfold _gpu_modules_present. rewrite fromkeys_elem.
    destruct (contains "nvidia" _), (contains "amdgpu" _ || contains "radeon" _),
      (contains "i915" _); simpl;
      rewrite ?elem_of_cons, ?elem_of_nil; tauto.
Qed.

(** X13. The gate blocks an action exactly in three cases: the NVIDIA
    driver without "nvidia" among the gate's vendors, the Intel drivers
    without "intel", the AMD drivers without "amd".  Every other item is
    let through, and an error is shown exactly when the action is blocked. *)
Theorem block_incompatible_iff (app : App) (hw : HwProbe) (item_id : string) :
  ((_block_incompatible app hw item_id).1 = true
   <-> (item_id = "nvidia-driver" /\ "nvidia" ∉ gate_vendors app hw)
       \/ (item_id = "intel-mesa" /\ "intel" ∉ gate_vendors app hw)
       \/ (item_id = "amd-mesa" /\ "amd" ∉ gate_vendors app hw))
  /\ ((_block_incompatible app hw item_id).1 = true
      <-> is_Some (_block_incompatible app hw item_id).2).
Proof.
  unfold _block_incompatible.
  generalize (gate_vendors app hw) as V. intros V.
  assert (E1 : bool_decide (item_id = "nvidia-driver") && bool_decide ("nvidia" ∉ V) = true
               <-> item_id = "nvidia-driver" /\ "nvidia" ∉ V).
  { now rewrite andb_true_iff, !bool_decide_eq_true. }
  assert (E2 : bool_decide (item_id = "intel-mesa") && bool_decide ("intel" ∉ V) = true
               <-> item_id = "intel-mesa" /\ "intel" ∉ V).
  { now rewrite andb_true_iff, !bool_decide_eq_true. }
  assert (E3 : bool_decide (item_id = "amd-mesa") && bool_decide ("amd" ∉ V) = true
               <-> item_id = "amd-mesa" /\ "amd" ∉ V).
  { now rewrite andb_true_iff, !bool_decide_eq_true. }
  assert (Ht : true = true) by reflexivity.
  assert (Hf : false = true -> False) by discriminate.
  destruct (bool_decide (item_id = "nvidia-driver") && bool_decide ("nvidia" ∉ V));
    [|destruct (bool_decide (item_id = "intel-mesa") && bool_decide ("intel" ∉ V));
      [|destruct (bool_decide (item_id = "amd-mesa") && bool_decide ("amd" ∉ V))]];
    cbn [fst snd]; (split; [tauto|]);
    (split; [intros H; first [discriminate H | eauto]
            | intros [x H]; first [discriminate H | reflexivity]]).
Qed.

Lemma block_incompatible_amd (app : App) (hw : HwProbe) :
  "amd" ∈ gate_vendors app hw ->
  _block_incompatible app hw "amd-mesa" = (false, None).
Proof.
  intros Hin. unfold _block_incompatible.
  rewrite (bool_decide_eq_false_2 ("amd-mesa" = "nvidia-driver")) by discriminate.
  rewrite (bool_decide_eq_false_2 ("amd-mesa" = "intel-mesa")) by discriminate.
  rewrite (bool_decide_eq_false_2 ("amd" ∉ gate_vendors app hw)) by tauto.
  cbn [andb]. now rewrite andb_false_r.
Qed.

(** X14. The PCI probe takes "ati" as a sign of an AMD GPU, and "ati" is
    part of "compatible": whenever the PCI listing contains the word
    "compatible" (as in "VGA compatible controller"), the detection reports
    amd, and a request for the AMD drivers is not blocked on that host,
    whatever GPU it has. *)
Theorem lspci_compatible_reports_amd (hw : HwProbe) :
  contains "compatible" (lspci_lower hw) = true ->
  "amd" ∈ detect_gpu_vendors hw
  /\ _block_incompatible (App_init hw) hw "amd-mesa" = (false, None).
Proof.
  intros Hc.
  assert (Hati : contains "ati" (lspci_lower hw) = true).
  { eapply contains_trans; [|exact Hc]. reflexivity. }
  assert (Hl : "amd" ∈ _gpu_vendors_from_lspci hw).
  { unfold _gpu_vendors_from_lspci. rewrite fromkeys_elem, Hati, orb_true_r.
    destruct (contains "nvidia" _), (contains "intel" _); simpl;
      rewrite ?elem_of_cons; tauto. }
  assert (Hd : "amd" ∈ detect_gpu_vendors hw).
  { unfold detect_gpu_vendors.
    destruct (_gpu_vendors_from_lspci hw); [inversion Hl|exact Hl]. }
  split; [exact Hd|].
  apply block_incompatible_amd. unfold gate_vendors, App_init. cbn [gpu_vendors].
  rewrite elem_of_union, elem_of_list_to_set. left.
  now destruct (nonempty (detect_gpu_vendors hw)).
Qed.

Lemma lspci_compatible_reports_amd_witness :
  contains "compatible" (lspci_lower hw_intel_only) = true
  /\ "amd" ∈ detect_gpu_vendors hw_intel_only
  /\ _block_incompatible (App_init hw_intel_only) hw_intel_only "amd-mesa" = (false, None).
Proof.
  assert (Hc : contains "compatible" (lspci_lower hw_intel_only) = true).
  { vm_compute. reflexivity. }
  split; [exact Hc|].
  exact (lspci_compatible_reports_amd hw_intel_only Hc).
Defined.

(* ===================================================================== *)
(** * Properties of the terminal choice and of the script builder         *)
(* ===================================================================== *)

Lemma first_terminal_Some (s : Session) (terms : list TerminalSpec) (t : TerminalSpec) :
  first_terminal_on_path s terms = Some t -> t ∈ terms /\ which s (term_name t) = true.
Proof.
  induction terms as [|u rest IH]; simpl; [discriminate|].
  destruct (which s (term_name u)) eqn:Hu.
  - intros [= <-]. split; [apply list_elem_of_here|exact Hu].
  - intros H. destruct (IH H) as [Hin Hw]. split; [now apply list_elem_of_further|exact Hw].
Qed.

Lemma first_terminal_None (s : Session) (terms : list TerminalSpec) :
  first_terminal_on_path s terms = None
  <-> forall t, t ∈ terms -> which s (term_name t) = false.
Proof.
  induction terms as [|u rest IH]; simpl.
  - split; [intros _ t Ht; inversion Ht|reflexivity].
  - destruct (which s (term_name u)) eqn:Hu.
    + split; [discriminate|]. intros H. specialize (H u (list_elem_of_here _ _)). congruence.
    + rewrite IH. split.
      * intros H t Ht. apply elem_of_cons in Ht as [->|Ht]; auto.
      * intros H t Ht. apply H. now apply list_elem_of_further.
Qed.

Lemma first_terminal_app (s : Session) (l1 l2 : list TerminalSpec) :
  first_terminal_on_path s (l1 ++ l2)
  = match first_terminal_on_path s l1 with
    | Some t => Some t
    | None => first_terminal_on_path s l2
    end.
Proof.
  induction l1 as [|u rest IH]; simpl; [reflexivity|].
  now destruct (which s (term_name u)).
Qed.

Lemma terminal_cmd_for_Some (s : Session) (terms : list TerminalSpec) (name : string)
    (t : TerminalSpec) :
  _terminal_cmd_for s terms name = Some t ->
  t ∈ terms /\ term_name t = name /\ which s (term_name t) = true.
Proof.
  induction terms as [|u rest IH]; simpl; [discriminate|].
  destruct (bool_decide (term_name u = name) && which s (term_name u)) eqn:Hu.
  - intros [= <-]. apply andb_true_iff in Hu as [Hn Hw].
    apply bool_decide_eq_true in Hn. split; [apply list_elem_of_here|tauto].
  - intros H. destruct (IH H) as (Hin & Hn & Hw).
    split; [now apply list_elem_of_further|tauto].
Qed.

Lemma insert_by_key_partition {A} (key : A -> bool) (x : A) (lo hi : list A) :
  Forall (fun y => key y = false) lo ->
  Forall (fun y => key y = true) hi ->
  insert_by_key key x (lo ++ hi)
  = if key x then lo ++ x :: hi else x :: lo ++ hi.
Proof.
  intros Hlo Hhi. induction Hlo as [|y lo Hy _ IH]; simpl.
  - destruct hi as [|h hi]; simpl; [now destruct (key x)|].
    inversion Hhi as [|? ? Hh _]; subst. rewrite Hh.
    now destruct (key x).
  - rewrite Hy. destruct (key x) eqn:Hx; simpl; [|reflexivity].
    rewrite IH. reflexivity.
Qed.

(** The stable sort on a boolean key puts the [False] keys first and keeps
    the input order within each group. *)
Lemma sorted_by_key_partition {A} (key : A -> bool) (xs : list A) :
  sorted_by_key key xs
  = filter (fun x => key x = false) xs ++ filter (fun x => key x = true) xs.
Proof.
  induction xs as [|x xs IH]; [reflexivity|].
  cbn [sorted_by_key]. rewrite IH.
  rewrite insert_by_key_partition.
  - destruct (key x) eqn:Hx.
    + rewrite (filter_cons_False (fun x => key x = false)) by congruence.
      now rewrite (filter_cons_True (fun x => key x = true)) by exact Hx.
    + rewrite (filter_cons_True (fun x => key x = false)) by exact Hx.
      now rewrite (filter_cons_False (fun x => key x = true)) by congruence.
  - apply Forall_forall. intros y Hy. now apply list_elem_of_filter in Hy as [Hy _].
  - apply Forall_forall. intros y Hy. now apply list_elem_of_filter in Hy as [Hy _].
Qed.

Lemma sorted_by_key_elem {A} (key : A -> bool) (xs : list A) (x : A) :
  x ∈ sorted_by_key key xs <-> x ∈ xs.
Proof.
  rewrite sorted_by_key_partition, elem_of_app, !list_elem_of_filter.
  destruct (key x); intuition congruence.
Qed.

Lemma choose_terminal_Some (s : Session) (terms : list TerminalSpec) (t : TerminalSpec) :
  choose_terminal s terms = Some t -> t ∈ terms /\ which s (term_name t) = true.
Proof.
  unfold choose_terminal.
  destruct (if truthy (env_TERMINAL s) then _ else None) as [u|] eqn:Henv.
  - intros [= <-]. destruct (truthy (env_TERMINAL s)); [|discriminate].
    apply terminal_cmd_for_Some in Henv. tauto.
  - intros H. apply first_terminal_Some in H as [Hin Hw]. split; [|exact Hw].
    destruct (bool_decide (session_type_lower s = "wayland")); [|exact Hin].
    now apply sorted_by_key_elem in Hin.
Qed.

Lemma choose_terminal_None (s : Session) (terms : list TerminalSpec) :
  choose_terminal s terms = None
  <-> forall t, t ∈ terms -> which s (term_name t) = false.
Proof.
  split.
  - unfold choose_terminal.
    destruct (if truthy (env_TERMINAL s) then _ else None) as [u|]; [discriminate|].
    rewrite first_terminal_None. intros H t Ht. apply H.
    destruct (bool_decide (session_type_lower s = "wayland")); [|exact Ht].
    now apply sorted_by_key_elem.
  - intros H. destruct (choose_terminal s terms) as [t|] eqn:Hc; [|reflexivity].
    apply choose_terminal_Some in Hc as [Hin Hw]. rewrite (H t Hin) in Hw. discriminate.
Qed.

(** X15. The pipeline falls back to headless mode exactly when none of the
    listed terminals is on [PATH] (a [TERMINAL] override that names no
    listed, installed terminal is ignored); otherwise the command line
    starts with the fixed arguments of a listed terminal that is on [PATH]
    and ends with the script, as it is or wrapped in [bash -lc <quoted>]. *)
Theorem pipeline_argv_headless_iff (s : Session) (full_script : string) :
  (pipeline_argv s full_script = None
   <-> forall t, t ∈ TERMINALS -> which s (term_name t) = false)
  /\ (forall argv, pipeline_argv s full_script = Some argv ->
      exists t, t ∈ TERMINALS /\ which s (term_name t) = true
                /\ argv = term_args t
                          ++ [if needs_string t
                              then "bash -lc " +:+ shlex_quote full_script
                              else full_script]).
Proof.
  unfold pipeline_argv. split.
  - rewrite <- choose_terminal_None.
    destruct (choose_terminal s TERMINALS); split; congruence.
  - intros argv. destruct (choose_terminal s TERMINALS) as [t|] eqn:Hc; [|discriminate].
    intros [= <-]. apply choose_terminal_Some in Hc as [Hin Hw].
    exists t. split; [exact Hin|]. split; [exact Hw|reflexivity].
Qed.

(** X16. In a Wayland session without a [TERMINAL] override, whenever some
    Wayland-preferred terminal of the list is on [PATH], the terminal chosen
    is a Wayland-preferred one, wherever it stands in the list. *)
Theorem wayland_terminal_preferred (s : Session) (terms : list TerminalSpec)
    (t0 : TerminalSpec) :
  session_type_lower s = "wayland" ->
  env_TERMINAL s = "" ->
  t0 ∈ terms -> wayland_pref t0 = true -> which s (term_name t0) = true ->
  exists t, choose_terminal s terms = Some t
            /\ wayland_pref t = true /\ which s (term_name t) = true.
Proof.
  intros Hway Henv Hin Hpref Hw. unfold choose_terminal.
  rewrite Henv, Hway. cbn [truthy]. rewrite bool_decide_eq_true_2 by reflexivity.
  rewrite sorted_by_key_partition, first_terminal_app.
  destruct (first_terminal_on_path s
              (filter (fun x => negb (wayland_pref x) = false) terms)) as [t|] eqn:Hf.
  - exists t. split; [reflexivity|].
    apply first_terminal_Some in Hf as [Ht Htw].
    apply list_elem_of_filter in Ht as [Hk _].
    split; [|exact Htw]. now destruct (wayland_pref t).
  - rewrite first_terminal_None in Hf.
    assert (Ht0 : t0 ∈ filter (fun x => negb (wayland_pref x) = false) terms).
    { apply list_elem_of_filter. split; [now rewrite Hpref|exact Hin]. }
    rewrite (Hf t0 Ht0) in Hw. discriminate.
Qed.

Lemma wayland_terminal_preferred_witness :
  session_type_lower session_wayland_foot = "wayland"
  /\ env_TERMINAL session_wayland_foot = ""
  /\ {| term_name := "foot"; term_args := ["foot"; "-e"; "bash"; "-lc"];
        needs_string := false; wayland_pref := true |} ∈ TERMINALS
  /\ wayland_pref {| term_name := "foot"; term_args := ["foot"; "-e"; "bash"; "-lc"];
                     needs_string := false; wayland_pref := true |} = true
  /\ which session_wayland_foot
       (term_name {| term_name := "foot"; term_args := ["foot"; "-e"; "bash"; "-lc"];
                     needs_string := false; wayland_pref := true |}) = true
  /\ exists t, choose_terminal session_wayland_foot TERMINALS = Some t
               /\ wayland_pref t = true
               /\ which session_wayland_foot (term_name t) = true.
Proof.
  set (foot := {| term_name := "foot"; term_args := ["foot"; "-e"; "bash"; "-lc"];
                  needs_string := false; wayland_pref := true |}).
  assert (H1 : session_type_lower session_wayland_foot = "wayland") by reflexivity.
  assert (H2 : env_TERMINAL session_wayland_foot = "") by reflexivity.
  assert (H3 : foot ∈ TERMINALS).
  { unfold TERMINALS. do 2 apply list_elem_of_further. apply list_elem_of_here. }
  assert (H4 : wayland_pref foot = true) by reflexivity.
  assert (H5 : which session_wayland_foot (term_name foot) = true).
  { vm_compute. reflexivity. }
  split; [exact H1|]. split; [exact H2|]. split; [exact H3|].
  split; [exact H4|]. split; [exact H5|].
  exact (wayland_terminal_preferred session_wayland_foot TERMINALS foot H1 H2 H3 H4 H5).
Defined.

(** X17. In the built-in table the Wayland-preferred terminals already
    come first, so the Wayland reordering changes nothing: without a usable
    [TERMINAL] override, the terminal chosen is the first listed one that is
    on [PATH], whatever the session type. *)
Theorem builtin_terminals_session_independent (s : Session) :
  env_TERMINAL s = "" ->
  choose_terminal s TERMINALS = first_terminal_on_path s TERMINALS.
Proof.
  intros Henv. unfold choose_terminal. rewrite Henv. cbn [truthy].
  destruct (bool_decide (session_type_lower s = "wayland")); [|reflexivity].
  f_equal.
Qed.

Lemma builtin_terminals_session_independent_witness :
  env_TERMINAL session_wayland_foot = ""
  /\ choose_terminal session_wayland_foot TERMINALS
     = first_terminal_on_path session_wayland_foot TERMINALS.
Proof.
  assert (H : env_TERMINAL session_wayland_foot = "") by reflexivity.
  split; [exact H|].
  exact (builtin_terminals_session_independent session_wayland_foot H).
Defined.

Lemma first_on_path_Some (s : Session) (cands : list string) (m : string) :
  first_on_path s cands = Some m
  <-> exists before after,
        cands = before ++ m :: after
        /\ which s m = true
        /\ forall c, c ∈ before -> which s c = false.
Proof.
  revert m. induction cands as [|c rest IH]; intros m; simpl.
  - split; [discriminate|]. intros (before & after & H & _). now destruct before.
  - destruct (which s c) eqn:Hc.
    + split.
      * intros [= <-]. exists [], rest. split; [reflexivity|]. split; [exact Hc|].
        intros x Hx. inversion Hx.
      * intros (before & after & Heq & Hm & Hb). destruct before as [|b before].
        -- simpl in Heq. injection Heq as Hcm _. now subst.
        -- simpl in Heq. injection Heq as Hcb _. subst b.
           rewrite (Hb c (list_elem_of_here _ _)) in Hc. discriminate.
    + rewrite IH. split.
      * intros (before & after & -> & Hm & Hb). exists (c :: before), after.
        split; [reflexivity|]. split; [exact Hm|].
        intros x Hx. apply elem_of_cons in Hx as [->|Hx]; auto.
      * intros (before & after & Heq & Hm & Hb). destruct before as [|b before].
        -- simpl in Heq. injection Heq as Hcm _. subst. congruence.
        -- simpl in Heq. injection Heq as Hcb Hrest. subst. exists before, after.
           split; [reflexivity|]. split; [exact Hm|].
           intros x Hx. apply Hb. now apply list_elem_of_further.
Qed.

Lemma first_on_path_None (s : Session) (cands : list string) :
  first_on_path s cands = None <-> forall c, c ∈ cands -> which s c = false.
Proof.
  induction cands as [|c rest IH]; simpl.
  - split; [intros _ x Hx; inversion Hx|reflexivity].
  - destruct (which s c) eqn:Hc.
    + split; [discriminate|]. intros H. rewrite (H c (list_elem_of_here _ _)) in Hc.
      discriminate.
    + rewrite IH. split.
      * intros H x Hx. apply elem_of_cons in Hx as [->|Hx]; auto.
      * intros H x Hx. apply H. now apply list_elem_of_further.
Qed.

(** X18. [pick_pkg_manager] returns the first of pamac, pacman, paru, yay
    that is on [PATH]: the manager returned is installed and every
    candidate listed before it is not; it returns nothing exactly when none
    of the four is installed. *)
Theorem pick_pkg_manager_first (s : Session) :
  (forall m, pick_pkg_manager s = Some m ->
     exists before after,
       ["pamac"; "pacman"; "paru"; "yay"] = before ++ m :: after
       /\ which s m = true
       /\ forall c, c ∈ before -> which s c = false)
  /\ (pick_pkg_manager s = None
      <-> forall c, c ∈ ["pamac"; "pacman"; "paru"; "yay"] -> which s c = false).
Proof.
  unfold pick_pkg_manager. split.
  - intros m H. now apply first_on_path_Some.
  - apply first_on_path_None.
Qed.

Lemma aur_helper_for_None (s : Session) (mgr : string) :
  aur_helper_for s mgr = None
  <-> (mgr ∉ ["paru"; "yay"]) /\ which s "paru" = false /\ which s "yay" = false.
Proof.
  unfold aur_helper_for. case_bool_decide as Hm.
  - split; [discriminate|]. tauto.
  - destruct (which s "paru"); [split; [discriminate|intros (_ & H & _); discriminate H]|].
    destruct (which s "yay"); [split; [discriminate|intros (_ & _ & H); discriminate H]|].
    tauto.
Qed.

Lemma aur_helper_for_truthy (s : Session) (mgr helper : string) :
  aur_helper_for s mgr = Some helper -> truthy helper = true.
Proof.
  unfold aur_helper_for. case_bool_decide as Hm.
  - intros [= <-]. apply elem_of_cons in Hm as [->|Hm]; [reflexivity|].
    apply list_elem_of_singleton in Hm. now subst.
  - destruct (which s "paru"); [now intros [= <-]|].
    destruct (which s "yay"); [now intros [= <-]|discriminate].
Qed.

(** X19. Building the install script fails exactly in two cases: no
    package manager is known (none recorded and none of pamac, pacman,
    paru, yay on [PATH]), or third-party packages are requested while the
    manager is none of pamac, paru, yay and neither paru nor yay is
    installed.  In particular a plan without third-party packages can be
    built whenever a package manager is known. *)
Theorem build_install_script_None_iff (s : Session) (pkg_manager : option string)
    (official aur : list string) :
  _build_install_script s pkg_manager official aur = None
  <-> manager_or_pick s pkg_manager = None
      \/ (aur <> []
          /\ exists mgr, manager_or_pick s pkg_manager = Some mgr
                         /\ mgr <> "pamac" /\ (mgr ∉ ["paru"; "yay"])
                         /\ which s "paru" = false /\ which s "yay" = false).
Proof.
  unfold _build_install_script.
  destruct (manager_or_pick s pkg_manager) as [mgr|]; [|split; [now left|reflexivity]].
  destruct aur as [|a aur]; cbn [nonempty].
  - split; [discriminate|]. intros [H|[H _]]; [discriminate H|now contradiction H].
  - destruct (aur_helper_for s mgr) as [helper|] eqn:Hh.
    + rewrite (aur_helper_for_truthy s mgr helper Hh).
      split.
      * case_bool_decide; discriminate.
      * intros [H|(_ & m & [= <-] & _ & Hn & Hp & Hy)]; [discriminate H|].
        assert (Hnone : aur_helper_for s mgr = None) by (apply aur_helper_for_None; tauto).
        congruence.
    + apply aur_helper_for_None in Hh as (Hn & Hp & Hy).
      case_bool_decide as Hpm.
      * split; [discriminate|]. intros [H|(_ & m & [= <-] & Hne & _)]; [discriminate H|].
        contradiction.
      * split; [|reflexivity]. intros _. right. split; [discriminate|].
        exists mgr. tauto.
Qed.

(* ===================================================================== *)
(** * Properties of the install flow                                      *)
(* ===================================================================== *)

Ltac unfold_h :=
  unfold mbind, H_bind, mret, H_ret, emit, lift; cbn [world trace fst snd].

Lemma helper_from_repo_trace (db : PackageDb) (helpers : list string) (r : Run) :
  exists evs,
    trace (helper_from_repo db helpers r).2 = trace r ++ evs
    /\ (((helper_from_repo db helpers r).1 = false /\ evs = [])
        \/ ((helper_from_repo db helpers r).1 = true
            /\ exists script, evs = [Launched script true true; InfoShown "AUR"])).
Proof.
  revert r. induction helpers as [|h rest IH]; intros r.
  - exists []. cbn. rewrite app_nil_r. auto.
  - cbn [helper_from_repo]. unfold_h. unfold ask.
    destruct (pacman_Si db h =? 0).
    + cbn [fst snd trace]. eexists. split; [rewrite <- app_assoc; reflexivity|].
      right. split; [reflexivity|]. eexists. reflexivity.
    + match goal with
      | |- context [helper_from_repo db rest ?r0] => destruct (IH r0) as (evs & Ht & Hcase)
      end.
      exists evs. cbn [trace] in Ht. split; [exact Ht|exact Hcase].
Qed.







Ltac step_h :=
  match goal with
  | |- context [let '(_, _) := ?x in _] => destruct x as [? ?] eqn:?
  | |- context [match ?x with Some _ => _ | None => _ end] => destruct x eqn:?
  | |- context [if ?b then _ else _] => destruct b eqn:?
  end; cbn [fst snd trace world negb] in *.

Lemma install_with_helper_true (db : PackageDb) (d : Desktop) (item_id : string)
    (need_helper : bool) (official aur to_install : list string) (r : Run) :
  (install_with_helper db d item_id need_helper official aur to_install r).1 = true ->
  confirms d "Confirmar" = true
  /\ exists pre script,
       trace (install_with_helper db d item_id need_helper official aur to_install r).2
       = pre ++ [Asked "Confirmar" true; Launched script true true].
Proof.
  unfold install_with_helper. unfold_h.
  destruct (confirms d "Confirmar") eqn:Hc; cbn [negb];
    repeat step_h; intros Hres; try discriminate Hres;
    (split; [reflexivity|]); rewrite <- app_assoc; eexists _, _; reflexivity.
Qed.

Lemma install_missing_true (db : PackageDb) (d : Desktop) (item_id : string)
    (flatpak_id : option string) (to_install : list string) (r : Run) :
  (install_missing db d item_id flatpak_id to_install r).1 = true ->
  confirms d "Confirmar" = true
  /\ exists pre script need_root,
       trace (install_missing db d item_id flatpak_id to_install r).2
       = pre ++ [Asked "Confirmar" true; Launched script need_root true].
Proof.
  unfold install_missing. unfold_h.
  destruct (_split_official_aur db to_install (world r)) as [[official aur] w1].
  cbn [fst snd].
  destruct (nonempty official).
  - intros Hres. apply install_with_helper_true in Hres as (Hc & pre & script & Ht).
    split; [exact Hc|]. now exists pre, script, true.
  - destruct (usable_flatpak flatpak_id (_flatpak_available d)) as [fid|].
    + destruct (confirms d "Confirmar") eqn:Hc; cbn [negb];
        repeat step_h; intros Hres; try discriminate Hres;
        (split; [reflexivity|]); rewrite <- app_assoc; eexists _, _, _; reflexivity.
    + intros Hres. apply install_with_helper_true in Hres as (Hc & pre & script & Ht).
      split; [exact Hc|]. now exists pre, script, true.
Qed.

(** ** The official branch comes first *)

Lemma append_nil_r (s : string) : s +:+ "" = s.
Proof. induction s as [|c s IH]; [reflexivity|]. now rewrite append_cons, IH. Qed.

Lemma ensure_aur_helper_trace (db : PackageDb) (d : Desktop) (r : Run) :
  exists evs,
    trace (_ensure_aur_helper_auto db d r).2 = trace r ++ evs
    /\ (evs = [] \/ exists script, evs = [Launched script true true; InfoShown "AUR"]).
Proof.
  unfold _ensure_aur_helper_auto.
  destruct (first_on_path (session d) ["paru"; "yay"]) as [helper|].
  - exists []. cbn. rewrite app_nil_r. auto.
  - unfold_h.
    destruct (helper_from_repo_trace db ["paru"; "yay"] r) as (evs & Ht & Hcase).
    destruct (helper_from_repo db ["paru"; "yay"] r) as [started r1].
    cbn [fst snd] in *. destruct started.
    + exists evs. split; [exact Ht|].
      destruct Hcase as [[Hf _]|[_ Hs]]; [discriminate Hf|now right].
    + destruct Hcase as [[_ ->]|[Ht' _]]; [|discriminate Ht'].
      rewrite app_nil_r in Ht.
      destruct (which (session d) "pamac"); cbn [fst snd trace].
      * eexists. split; [rewrite Ht, <- app_assoc; reflexivity|].
        right. eexists. reflexivity.
      * exists []. rewrite app_nil_r. auto.
Qed.

Lemma script_with_optional_gstreamer_extends (db : PackageDb) (d : Desktop)
    (item_id base : string) (r : Run) :
  trace (_script_with_optional_gstreamer db d item_id base r).2 = trace r
  /\ exists rest, (_script_with_optional_gstreamer db d item_id base r).1 = base +:+ rest.
Proof.
  assert (Hsame : trace r = trace r /\ exists rest, base = base +:+ rest).
  { split; [reflexivity|]. exists "". now rewrite append_nil_r. }
  unfold _script_with_optional_gstreamer. unfold_h.
  destruct (negb (bool_decide (item_id = "wine"))); [exact Hsame|].
  destruct (_missing_packages db GSTREAMER_WINE_PKGS (world r)) as [gst_missing w1].
  cbn [fst snd world trace].
  destruct (negb (nonempty gst_missing)); [exact Hsame|].
  cbn [fst snd world trace].
  destruct (_split_official_aur db gst_missing w1) as [split w2].
  cbn [fst snd world trace].
  destruct (_build_install_script (session d) (pkg_manager d) split.1 split.2)
    as [gst_script|]; [|exact Hsame].
  destruct (negb (truthy gst_script)); [exact Hsame|].
  split; [reflexivity|]. eexists. reflexivity.
Qed.

(** The events of the shared install steps: every launch asks for root, and
    a launch that is followed by the post-install steps runs the script
    built from [official] and [aur], possibly extended. *)
Lemma install_with_helper_events (db : PackageDb) (d : Desktop) (item_id : string)
    (need_helper : bool) (official aur to_install : list string) (r : Run) :
  exists evs,
    trace (install_with_helper db d item_id need_helper official aur to_install r).2
    = trace r ++ evs
    /\ Forall no_rootless_launch evs
    /\ ((install_with_helper db d item_id need_helper official aur to_install r).1 = true ->
        exists base rest,
          _build_install_script (session d) (pkg_manager d) official aur = Some base
          /\ last evs = Some (Launched (base +:+ rest) true true)).
Proof.
  assert (Hhelper : forall evs : list Event,
             evs = [] \/ (exists script, evs = [Launched script true true; InfoShown "AUR"]) ->
             Forall no_rootless_launch evs).
  { intros evs [->|[script ->]]; repeat constructor. }
  assert (Hone : forall e, no_rootless_launch e -> Forall no_rootless_launch [e]).
  { intros e He. now constructor. }
  assert (Hpre : exists (r1 : Run) (evs : list Event),
             trace r1 = trace r ++ evs /\ Forall no_rootless_launch evs
             /\ ((install_with_helper db d item_id need_helper official aur to_install r
                  = (false, {| world := world r1;
                               trace := trace r1 ++ [ErrorShown "AUR helper ausente"] |}))
                 \/ (install_with_helper db d item_id need_helper official aur to_install r
                     = install_with_helper db d item_id false official aur to_install r1))).
  { unfold install_with_helper. unfold_h. destruct need_helper.
    - destruct (ensure_aur_helper_trace db d r) as (evs & Ht & Hcase).
      destruct (_ensure_aur_helper_auto db d r) as [helper r1]. cbn [snd] in Ht.
      exists r1, evs. split; [exact Ht|]. split; [now apply Hhelper|].
      destruct (negb (bool_decide (is_Some helper))
                && negb (bool_decide (pkg_manager d = Some "pamac")));
        cbn [fst snd world trace]; [now left|now right].
    - exists r, []. rewrite app_nil_r. split; [reflexivity|]. split; [constructor|now right]. }
  destruct Hpre as (r1 & evs & Ht & Hall & [->| ->]).
  - exists (evs ++ [ErrorShown "AUR helper ausente"]). cbn [fst snd trace].
    split; [now rewrite Ht, <- app_assoc|].
    split; [apply Forall_app; split; [exact Hall|now apply Hone]|discriminate].
  - unfold install_with_helper. unfold_h.
    destruct (_build_install_script (session d) (pkg_manager d) official aur) as [base|].
    + destruct (truthy base); cbn [negb].
      * destruct (script_with_optional_gstreamer_extends db d item_id base r1)
          as (Hg & rest & Hs).
        destruct (_script_with_optional_gstreamer db d item_id base r1) as [script r2].
        cbn [fst snd] in Hg, Hs. subst script.
        destruct (confirms d "Confirmar"); cbn [negb fst snd trace world].
        -- exists (evs ++ [Asked "Confirmar" true; Launched (base +:+ rest) true true]).
           split; [rewrite Hg, Ht, <- !app_assoc; reflexivity|].
           split; [apply Forall_app; split; [exact Hall|repeat constructor]|].
           intros _. exists base, rest. split; [reflexivity|].
           change [Asked "Confirmar" true; Launched (base +:+ rest) true true]
             with ([Asked "Confirmar" true] ++ [Launched (base +:+ rest) true true]).
           rewrite app_assoc. apply last_snoc.
        -- exists (evs ++ [Asked "Confirmar" false]).
           split; [rewrite Hg, Ht, <- app_assoc; reflexivity|].
           split; [apply Forall_app; split; [exact Hall|now apply Hone]|discriminate].
      * exists (evs ++ [ErrorShown "Instalação"]). cbn [fst snd trace].
        split; [rewrite Ht, <- app_assoc; reflexivity|].
        split; [apply Forall_app; split; [exact Hall|now apply Hone]|discriminate].
    + exists (evs ++ [ErrorShown "Instalação"]). cbn [fst snd trace].
      split; [rewrite Ht, <- app_assoc; reflexivity|].
      split; [apply Forall_app; split; [exact Hall|now apply Hone]|discriminate].
Qed.

(** With official packages, the script starts by installing them through
    [run_root] with [pacman] (or [pamac]). *)
Lemma build_install_script_official_line (s : Session) (pkg_manager : option string)
    (official aur : list string) (base : string) :
  official <> [] ->
  _build_install_script s pkg_manager official aur = Some base ->
  exists mgr rest,
    manager_or_pick s pkg_manager = Some mgr
    /\ base = "set -euo pipefail ; "
              +:+ ("expect_yes_pac " +:+ dq +:+ "run_root " +:+ bs +:+ dq
                   +:+ (if bool_decide (mgr = "pamac") then "pamac install "
                        else "pacman -S --needed ")
                   +:+ join " " (shlex_quote <$> official) +:+ bs +:+ dq +:+ dq)
              +:+ rest.
Proof.
  intros Hoff. unfold _build_install_script, quoted_names.
  destruct (manager_or_pick s pkg_manager) as [mgr|]; [|discriminate].
  assert (Hne : nonempty official = true) by (destruct official; [contradiction|reflexivity]).
  rewrite Hne. clear Hne.
  set (names := join " " (shlex_quote <$> official)). clearbody names.
  set (aur_names := join " " (shlex_quote <$> aur)). clearbody aur_names.
  intros Hb. exists mgr.
  destruct (bool_decide (mgr = "pamac")); cbn [app] in Hb;
    repeat match type of Hb with
           | context [if ?b then _ else _] => destruct b
           | context [match ?x with Some _ => _ | None => _ end] => destruct x
           end;
    try discriminate Hb; injection Hb as <-; cbn [app join];
    first [ exists ""; split; [reflexivity|]; rewrite append_nil_r; reflexivity
          | eexists; split; reflexivity ].
Qed.

Lemma aur_helper_for_names (s : Session) (mgr helper : string) :
  aur_helper_for s mgr = Some helper -> helper = "paru" \/ helper = "yay".
Proof.
  unfold aur_helper_for. case_bool_decide as Hm.
  - intros [= <-]. apply elem_of_cons in Hm as [->|Hm]; [now left|].
    apply list_elem_of_singleton in Hm. now right.
  - destruct (which s "paru"); [intros [= <-]; now left|].
    destruct (which s "yay"); [intros [= <-]; now right|discriminate].
Qed.

(** Without official packages, no script starts with that line. *)
Lemma build_install_script_no_official (s : Session) (pkg_manager : option string)
    (aur : list string) (base rest : string) :
  aur <> [] ->
  _build_install_script s pkg_manager [] aur = Some base ->
  String.prefix ("set -euo pipefail ; expect_yes_pac " +:+ dq +:+ "run_root ")
    (base +:+ rest) = false.
Proof.
  intros Haur. unfold _build_install_script, quoted_names.
  destruct (manager_or_pick s pkg_manager) as [mgr|]; [|discriminate].
  cbn [nonempty].
  assert (Hne : nonempty aur = true) by (destruct aur; [contradiction|reflexivity]).
  rewrite Hne. clear Hne.
  set (aur_names := join " " (shlex_quote <$> aur)). clearbody aur_names.
  destruct (aur_helper_for s mgr) as [helper|] eqn:Hh.
  - apply aur_helper_for_names in Hh as [-> | ->]; intros [= <-]; reflexivity.
  - destruct (bool_decide (mgr = "pamac")); [|discriminate].
    intros [= <-]. reflexivity.
Qed.

(** C3. Whenever the split of the packages to install has a non-empty
    official part, the install flow takes the official-repository branch,
    whatever Flatpak identifier is configured, whether or not the Flatpak
    runtime is available and whether or not third-party packages are also
    missing: every pipeline it launches asks for root, and when the install
    is launched, its script starts by installing the official packages
    through [run_root] with [pacman -S --needed] (with [pamac install] under
    pamac), the third-party packages riding along in the rest of the
    script.  The other two branches are taken only when the official part
    is empty: a pipeline without root (the Flatpak branch launches both of
    its pipelines without root) occurs only then, and with an empty official
    part the script of a launched install of some packages (the Flatpak
    one or the third-party-only one) never starts with that [run_root]
    line. *)
Theorem official_source_first (db : PackageDb) (d : Desktop) (item_id : string)
    (flatpak_id : option string) (to_install : list string) (r : Run) :
  let official := (_split_official_aur db to_install (world r)).1.1 in
  let result := install_missing db d item_id flatpak_id to_install r in
  exists evs,
    trace result.2 = trace r ++ evs
    /\ (official <> [] ->
        (forall script need_root ensure_policy,
            Launched script need_root ensure_policy ∈ evs -> need_root = true)
        /\ (result.1 = true ->
            exists mgr rest,
              manager_or_pick (session d) (pkg_manager d) = Some mgr
              /\ last evs
                 = Some (Launched
                           ("set -euo pipefail ; "
                            +:+ ("expect_yes_pac " +:+ dq +:+ "run_root " +:+ bs +:+ dq
                                 +:+ (if bool_decide (mgr = "pamac") then "pamac install "
                                      else "pacman -S --needed ")
                                 +:+ join " " (shlex_quote <$> official)
                                 +:+ bs +:+ dq +:+ dq)
                            +:+ rest)
                           true true)))
    /\ (forall script ensure_policy,
          Launched script false ensure_policy ∈ evs -> official = [])
    /\ (official = [] -> to_install <> [] -> result.1 = true ->
        exists script need_root,
          last evs = Some (Launched script need_root true)
          /\ String.prefix ("set -euo pipefail ; expect_yes_pac " +:+ dq +:+ "run_root ")
               script = false).
Proof.
  intros official result. unfold official, result, install_missing. unfold_h.
  destruct (_split_official_aur db to_install (world r)) as [[off aur] w1].
  cbn [fst snd].
  set (r1 := {| world := w1; trace := trace r |}).
  destruct off as [|o off]; cbn [nonempty].
  - destruct (usable_flatpak flatpak_id (_flatpak_available d)) as [fid|].
    + unfold _ensure_flathub. unfold_h.
      destruct (negb (_flatpak_available d)); [|destruct (negb (flathub_remote_present d))];
        destruct (confirms d "Confirmar");
        cbn [negb fst snd trace world]; eexists;
        (split; [rewrite <- ?app_assoc; reflexivity|]);
        (split; [intros Hne; now contradiction Hne|]);
        (split; [reflexivity|]); intros _ _ Htrue; try discriminate Htrue;
        eexists _, false; (split; [reflexivity|reflexivity]).
    + destruct (install_with_helper_events db d item_id
                  (manager_is_no_helper d && no_helper_on_path d) [] to_install to_install r1)
        as (evs & Ht & _ & Hres).
      exists evs. split; [exact Ht|].
      split; [intros Hne; now contradiction Hne|].
      split; [reflexivity|]. intros _ Hsome Htrue.
      destruct (Hres Htrue) as (base & rest & Hb & Hl).
      exists (base +:+ rest), true. split; [exact Hl|].
      exact (build_install_script_no_official _ _ _ _ rest Hsome Hb).
  - destruct (install_with_helper_events db d item_id
                (nonempty aur && manager_is_no_helper d && no_helper_on_path d)
                (o :: off) aur to_install r1)
      as (evs & Ht & Hall & Hres).
    rewrite Forall_forall in Hall.
    exists evs. split; [exact Ht|]. split; [|split].
    + intros _. split.
      * intros script need_root ensure_policy Hin. exact (Hall _ Hin).
      * intros Htrue. destruct (Hres Htrue) as (base & rest & Hb & Hl).
        apply build_install_script_official_line in Hb as (mgr & rest' & Hm & ->);
          [|discriminate].
        exists mgr, (rest' +:+ rest). split; [exact Hm|].
        rewrite Hl. do 2 f_equal.
        rewrite (append_assoc "set -euo pipefail ; " _ rest).
        f_equal. apply append_assoc.
    + intros script ensure_policy Hin. specialize (Hall _ Hin). discriminate Hall.
    + discriminate.
Qed.

Lemma official_source_first_witness :
  (_split_official_aur db_only_steam ["steam"; "heroic-games-launcher-bin"]
     (world fresh_run)).1.1 <> []
  /\ usable_flatpak (Some "com.valvesoftware.Steam")
       (_flatpak_available (desktop_of session_helper true))
     = Some "com.valvesoftware.Steam"
  /\ (install_missing db_only_steam (desktop_of session_helper true) "steam"
        (Some "com.valvesoftware.Steam") ["steam"; "heroic-games-launcher-bin"]
        fresh_run).1 = true
  /\ exists evs,
       trace (install_missing db_only_steam (desktop_of session_helper true) "steam"
                (Some "com.valvesoftware.Steam") ["steam"; "heroic-games-launcher-bin"]
                fresh_run).2
       = trace fresh_run ++ evs
       /\ ((_split_official_aur db_only_steam ["steam"; "heroic-games-launcher-bin"]
              (world fresh_run)).1.1 <> [] ->
           (forall script need_root ensure_policy,
               Launched script need_root ensure_policy ∈ evs -> need_root = true)
           /\ ((install_missing db_only_steam (desktop_of session_helper true) "steam"
                  (Some "com.valvesoftware.Steam") ["steam"; "heroic-games-launcher-bin"]
                  fresh_run).1 = true ->
               exists mgr rest,
                 manager_or_pick (session (desktop_of session_helper true))
                   (pkg_manager (desktop_of session_helper true)) = Some mgr
                 /\ last evs
                    = Some (Launched
                              ("set -euo pipefail ; "
                               +:+ ("expect_yes_pac " +:+ dq +:+ "run_root " +:+ bs +:+ dq
                                    +:+ (if bool_decide (mgr = "pamac") then "pamac install "
                                         else "pacman -S --needed ")
                                    +:+ join " "
                                          (shlex_quote
                                             <$> (_split_official_aur db_only_steam
                                                    ["steam"; "heroic-games-launcher-bin"]
                                                    (world fresh_run)).1.1)
                                    +:+ bs +:+ dq +:+ dq)
                               +:+ rest)
                              true true)))
       /\ (forall script ensure_policy,
             Launched script false ensure_policy ∈ evs ->
             (_split_official_aur db_only_steam ["steam"; "heroic-games-launcher-bin"]
                (world fresh_run)).1.1 = [])
       /\ ((_split_official_aur db_only_steam ["steam"; "heroic-games-launcher-bin"]
              (world fresh_run)).1.1 = [] ->
           ["steam"; "heroic-games-launcher-bin"] <> [] ->
           (install_missing db_only_steam (desktop_of session_helper true) "steam"
              (Some "com.valvesoftware.Steam") ["steam"; "heroic-games-launcher-bin"]
              fresh_run).1 = true ->
           exists script need_root,
             last evs = Some (Launched script need_root true)
             /\ String.prefix
                  ("set -euo pipefail ; expect_yes_pac " +:+ dq +:+ "run_root ")
                  script = false).
Proof.
  split; [vm_compute; discriminate|].
  split; [vm_compute; reflexivity|].
  split; [vm_compute; reflexivity|].
  exact (official_source_first db_only_steam (desktop_of session_helper true) "steam"
           (Some "com.valvesoftware.Steam") ["steam"; "heroic-games-launcher-bin"]
           fresh_run).
Defined.

Example official_branch_script :
  trace (install_missing db_only_steam (desktop_of session_helper true) "steam"
           (Some "com.valvesoftware.Steam") ["steam"; "heroic-games-launcher-bin"]
           fresh_run).2
  = [Asked "Confirmar" true;
     Launched ("set -euo pipefail ; expect_yes_pac " +:+ dq +:+ "run_root " +:+ bs +:+ dq
               +:+ "pacman -S --needed steam" +:+ bs +:+ dq +:+ dq
               +:+ " ; yay -S --needed --noconfirm --answerdiff None --answeredit None "
               +:+ "heroic-games-launcher-bin")
       true true].
Proof. vm_compute. reflexivity. Qed.

(** X21. The post-install steps are reached only through a confirmed
    install: whenever the install flow goes on to them, the user answered
    yes to the "Confirmar" dialog and the last thing the handler did was to
    launch the install pipeline, right after that answer. *)
Theorem post_steps_only_after_confirmed_launch (db : PackageDb) (d : Desktop)
    (item_id label : string) (exe flatpak_id : option string)
    (pkgs alt_pkgs : list string) (r : Run) :
  (handle_action_install db d item_id label exe flatpak_id pkgs alt_pkgs r).1 = true ->
  confirms d "Confirmar" = true
  /\ exists pre script need_root,
       trace (handle_action_install db d item_id label exe flatpak_id pkgs alt_pkgs r).2
       = pre ++ [Asked "Confirmar" true; Launched script need_root true].
Proof.
  unfold handle_action_install. unfold_h.
  destruct (offer_or_missing db d label exe flatpak_id pkgs alt_pkgs r)
    as [[to_install|] r1]; [|discriminate].
  destruct (multilib_fallback d to_install r1) as [[] r2]; [|discriminate].
  apply install_missing_true.
Qed.

Lemma post_steps_only_after_confirmed_launch_witness :
  (handle_action_install db_only_steam (desktop_of session_wayland_foot true)
     "steam" "Steam" (Some "steam") None ["steam"] [] fresh_run).1 = true
  /\ confirms (desktop_of session_wayland_foot true) "Confirmar" = true
  /\ exists pre script need_root,
       trace (handle_action_install db_only_steam (desktop_of session_wayland_foot true)
                "steam" "Steam" (Some "steam") None ["steam"] [] fresh_run).2
       = pre ++ [Asked "Confirmar" true; Launched script need_root true].
Proof.
  assert (H : (handle_action_install db_only_steam (desktop_of session_wayland_foot true)
                 "steam" "Steam" (Some "steam") None ["steam"] [] fresh_run).1 = true).
  { vm_compute. reflexivity. }
  split; [exact H|].
  exact (post_steps_only_after_confirmed_launch db_only_steam
           (desktop_of session_wayland_foot true) "steam" "Steam" (Some "steam") None
           ["steam"] [] fresh_run H).
Defined.



Lemma usable_flatpak_available (flatpak_id : option string) (available : bool)
    (fid : string) :
  usable_flatpak flatpak_id available = Some fid -> available = true.
Proof.
  unfold usable_flatpak. destruct flatpak_id as [f|]; [|discriminate].
  destruct (truthy f), available; simpl; congruence.
Qed.

(** X23. When nothing to install is in the official repositories and a
    Flatpak identifier is usable, the flow never asks for root and never
    builds a package script: it adds the Flathub remote if it is missing
    (before the user is asked, hence also when the user then declines), asks
    for confirmation, and on a yes launches [flatpak install] without root. *)
Theorem flatpak_branch_trace (db : PackageDb) (d : Desktop) (item_id : string)
    (flatpak_id : option string) (fid : string) (to_install : list string) (r : Run) :
  (_split_official_aur db to_install (world r)).1.1 = [] ->
  usable_flatpak flatpak_id (_flatpak_available d) = Some fid ->
  let result := install_missing db d item_id flatpak_id to_install r in
  result.1 = confirms d "Confirmar"
  /\ trace result.2
     = trace r
       ++ (if flathub_remote_present d then []
           else [Launched FLATHUB_REMOTE_ADD false true])
       ++ [Asked "Confirmar" (confirms d "Confirmar")]
       ++ (if confirms d "Confirmar"
           then [Launched ("set -euo pipefail; flatpak install -y --or-update flathub "
                           +:+ shlex_quote fid) false true]
           else []).
Proof.
  intros Hoff Hflat result. unfold result, install_missing. unfold_h.
  destruct (_split_official_aur db to_install (world r)) as [[official aur] w1].
  cbn [fst snd] in *. subst official. cbn [nonempty]. rewrite Hflat.
  unfold _ensure_flathub. rewrite (usable_flatpak_available _ _ _ Hflat).
  cbn [negb]. unfold_h.
  destruct (flathub_remote_present d), (confirms d "Confirmar");
    cbn [negb fst snd trace]; rewrite <- ?app_assoc; split; reflexivity.
Qed.

Lemma flatpak_branch_trace_witness :
  (_split_official_aur db_only_steam ["heroic"] (world fresh_run)).1.1 = []
  /\ usable_flatpak (Some "com.heroicgameslauncher.hgl")
       (_flatpak_available (desktop_of session_flatpak false))
     = Some "com.heroicgameslauncher.hgl"
  /\ (install_missing db_only_steam (desktop_of session_flatpak false) "heroic"
        (Some "com.heroicgameslauncher.hgl") ["heroic"] fresh_run).1
     = confirms (desktop_of session_flatpak false) "Confirmar"
  /\ trace (install_missing db_only_steam (desktop_of session_flatpak false) "heroic"
              (Some "com.heroicgameslauncher.hgl") ["heroic"] fresh_run).2
     = trace fresh_run
       ++ (if flathub_remote_present (desktop_of session_flatpak false) then []
           else [Launched FLATHUB_REMOTE_ADD false true])
       ++ [Asked "Confirmar" (confirms (desktop_of session_flatpak false) "Confirmar")]
       ++ (if confirms (desktop_of session_flatpak false) "Confirmar"
           then [Launched ("set -euo pipefail; flatpak install -y --or-update flathub "
                           +:+ shlex_quote "com.heroicgameslauncher.hgl") false true]
           else []).
Proof.
  assert (H1 : (_split_official_aur db_only_steam ["heroic"] (world fresh_run)).1.1 = []).
  { vm_compute. reflexivity. }
  assert (H2 : usable_flatpak (Some "com.heroicgameslauncher.hgl")
                 (_flatpak_available (desktop_of session_flatpak false))
               = Some "com.heroicgameslauncher.hgl").
  { vm_compute. reflexivity. }
  split; [exact H1|]. split; [exact H2|].
  exact (flatpak_branch_trace db_only_steam (desktop_of session_flatpak false) "heroic"
           (Some "com.heroicgameslauncher.hgl") "com.heroicgameslauncher.hgl" ["heroic"]
           fresh_run H1 H2).
Defined.

(* ===================================================================== *)
(** * Properties of the kernel-header matcher and the NVIDIA choice       *)
(* ===================================================================== *)

Lemma ordered_unique_app (cands : list string) (seen : gset string) (ordered : list string) :
  ordered_unique cands seen ordered = ordered ++ ordered_unique cands seen [].
Proof.
  revert seen ordered. induction cands as [|p rest IH]; intros seen ordered; simpl.
  - now rewrite app_nil_r.
  - case_bool_decide; [apply IH|].
    rewrite (IH _ (ordered ++ [p])), (IH _ [p]). now rewrite <- app_assoc.
Qed.

Lemma ordered_unique_elem (cands : list string) (seen : gset string) (x : string) :
  x ∈ ordered_unique cands seen [] <-> x ∈ cands /\ x ∉ seen.
Proof.
  revert seen. induction cands as [|p rest IH]; intros seen; simpl.
  - rewrite elem_of_nil. tauto.
  - case_bool_decide as Hp.
    + rewrite IH, elem_of_cons. split; [tauto|].
      intros [[->|Hx] Hns]; [contradiction|tauto].
    + rewrite ordered_unique_app, elem_of_app, list_elem_of_singleton, IH, elem_of_cons,
        elem_of_union, elem_of_singleton.
      split.
      * intros [->|[Hx Hns]]; [tauto|]. tauto.
      * intros [[->|Hx] Hns]; [tauto|].
        destruct (decide (x = p)) as [->|Hxp]; [tauto|]. right. tauto.
Qed.

Lemma ordered_unique_NoDup (cands : list string) (seen : gset string) :
  NoDup (ordered_unique cands seen []).
Proof.
  revert seen. induction cands as [|p rest IH]; intros seen; simpl.
  - constructor.
  - case_bool_decide as Hp; [apply IH|].
    rewrite ordered_unique_app. simpl. constructor; [|apply IH].
    rewrite ordered_unique_elem, elem_of_union, elem_of_singleton. tauto.
Qed.

Lemma headers_loop_incl (lines cands : list string) (x : string) :
  x ∈ cands -> x ∈ headers_loop lines cands.
Proof.
  revert cands. induction lines as [|l rest IH]; intros cands Hx; simpl; [exact Hx|].
  destruct (truthy l); apply IH; [|exact Hx]. apply elem_of_app. now left.
Qed.

Lemma kernels_loop_head (lines cands : list string) (x : string) :
  head cands = Some x -> head (kernels_loop lines cands) = Some x.
Proof.
  revert cands. induction lines as [|l rest IH]; intros cands Hx; simpl; [exact Hx|].
  destruct (truthy l && String.prefix "linux" l); apply IH; [|exact Hx].
  destruct cands; [discriminate Hx|exact Hx].
Qed.

Lemma headers_loop_head (lines cands : list string) (x : string) :
  head cands = Some x -> head (headers_loop lines cands) = Some x.
Proof.
  revert cands. induction lines as [|l rest IH]; intros cands Hx; simpl; [exact Hx|].
  destruct (truthy l); apply IH; [|exact Hx].
  destruct cands; [discriminate Hx|exact Hx].
Qed.

Lemma head_snoc_keep (l : list string) (y x : string) :
  head l = Some x -> head (l ++ [y]) = Some x.
Proof. destruct l; [discriminate|trivial]. Qed.

Lemma ordered_unique_head (cands : list string) (x : string) :
  head cands = Some x -> head (ordered_unique cands ∅ []) = Some x.
Proof.
  destruct cands as [|p rest]; [discriminate|]. intros [= ->]. simpl.
  rewrite bool_decide_eq_false_2 by apply not_elem_of_empty.
  now rewrite ordered_unique_app.
Qed.

Lemma header_candidates_zen_head (k : KernelProbe) :
  contains "-zen" (uname_r k) = true ->
  head (_header_pkg_candidates k) = Some "linux-zen-headers".
Proof.
  intros Hzen. unfold _header_pkg_candidates. rewrite Hzen.
  apply ordered_unique_head.
  destruct (installed_headers k); [apply headers_loop_head|]; apply head_snoc_keep;
    (destruct (installed_kernels k); [apply kernels_loop_head|]);
    destruct (contains "-lts" _), (contains "-hardened" _), (contains "-cachyos" _);
    reflexivity.
Qed.

Lemma flavor_match_elem (ver : string) (cands : list string) (p : string) :
  flavor_match ver cands = Some p -> p ∈ cands.
Proof.
  induction cands as [|c rest IH]; simpl; [discriminate|].
  repeat match goal with
         | |- context [if ?b then _ else _] => destruct b
         end;
    try (intros [= <-]; apply list_elem_of_here).
  intros H. apply list_elem_of_further, IH, H.
Qed.

Lemma first_in_repo_elem (db : PackageDb) (cands : list string) (p : string) :
  first_in_repo db cands = Some p -> p ∈ cands /\ pacman_Si db p = 0.
Proof.
  induction cands as [|c rest IH]; simpl; [discriminate|].
  destruct (Z.eqb_spec (pacman_Si db c) 0) as [H0|_].
  - intros [= <-]. split; [apply list_elem_of_here|exact H0].
  - intros H. destruct (IH H). split; [now apply list_elem_of_further|assumption].
Qed.

Lemma matching_header_elem (db : PackageDb) (k : KernelProbe) (p : string) :
  _matching_header_pkg db k = Some p -> p ∈ _header_pkg_candidates k.
Proof.
  unfold _matching_header_pkg.
  destruct (flavor_match _ _) as [q|] eqn:Hf.
  - intros [= <-]. eapply flavor_match_elem, Hf.
  - intros H. now apply first_in_repo_elem in H as [H _].
Qed.

(** X24. The list of header candidates has no duplicates and always holds
    the generic [linux-headers]; and the matcher only ever answers with a
    name from that list. *)
Theorem header_candidates_wellformed (db : PackageDb) (k : KernelProbe) :
  NoDup (_header_pkg_candidates k)
  /\ "linux-headers" ∈ _header_pkg_candidates k
  /\ (forall p, _matching_header_pkg db k = Some p -> p ∈ _header_pkg_candidates k).
Proof.
  split; [apply ordered_unique_NoDup|]. split; [|apply matching_header_elem].
  unfold _header_pkg_candidates. rewrite ordered_unique_elem.
  split; [|apply not_elem_of_empty].
  destruct (installed_headers k); [apply headers_loop_incl|];
    apply elem_of_app; right; apply list_elem_of_here.
Qed.

(** X25. For a running kernel whose release contains [-zen] the matcher
    answers [linux-zen-headers] at once: it asks no repository, and what is
    installed does not matter. *)
Theorem matching_header_zen (db : PackageDb) (k : KernelProbe) :
  contains "-zen" (uname_r k) = true ->
  _matching_header_pkg db k = Some "linux-zen-headers".
Proof.
  intros Hzen. unfold _matching_header_pkg.
  pose proof (header_candidates_zen_head k Hzen) as Hhead.
  destruct (_header_pkg_candidates k) as [|c rest]; [discriminate Hhead|].
  injection Hhead as ->. cbn [flavor_match]. rewrite Hzen. reflexivity.
Qed.

Lemma matching_header_zen_witness :
  contains "-zen" (uname_r kernel_zen) = true
  /\ _matching_header_pkg db_unreachable kernel_zen = Some "linux-zen-headers".
Proof.
  assert (H : contains "-zen" (uname_r kernel_zen) = true).
  { vm_compute. reflexivity. }
  split; [exact H|].
  exact (matching_header_zen db_unreachable kernel_zen H).
Defined.

(** X26. [_headers_installed] answers [True] exactly when [pacman -Q]
    succeeds for at least one header candidate: the separate test of the
    best match adds nothing, since the best match is itself a candidate. *)
Theorem headers_installed_iff (db : PackageDb) (k : KernelProbe) :
  _headers_installed db k = true
  <-> exists p, p ∈ _header_pkg_candidates k /\ pacman_Q db p = 0.
Proof.
  unfold _headers_installed.
  destruct (_matching_header_pkg db k) as [e|] eqn:He.
  - destruct (truthy e && (pacman_Q db e =? 0)) eqn:Hx.
    + split; [intros _|reflexivity].
      apply andb_true_iff in Hx as [_ Hq]. apply Z.eqb_eq in Hq.
      exists e. split; [now apply (matching_header_elem db)|exact Hq].
    + rewrite existsb_exists. split.
      * intros (p & Hp & Hq). exists p. rewrite <- list_elem_of_In in Hp.
        split; [exact Hp|now apply Z.eqb_eq].
      * intros (p & Hp & Hq). exists p. rewrite <- list_elem_of_In.
        split; [exact Hp|now apply Z.eqb_eq].
  - rewrite existsb_exists. split.
    + intros (p & Hp & Hq). exists p. rewrite <- list_elem_of_In in Hp.
      split; [exact Hp|now apply Z.eqb_eq].
    + intros (p & Hp & Hq). exists p. rewrite <- list_elem_of_In.
      split; [exact Hp|now apply Z.eqb_eq].
Qed.

Lemma open_loop_elem (db : PackageDb) (cands : list string) (w : World) (cand : string) :
  (open_loop db cands w).1 = Some cand -> cand ∈ cands.
Proof.
  revert w. induction cands as [|c rest IH]; intros w; simpl; [discriminate|].
  unfold mbind, M_bind, bind, mret, M_ret, ret.
  destruct (_pkg_in_official_repos_cached db c w) as [[] w1]; simpl.
  - intros [= <-]. apply list_elem_of_here.
  - intros H. apply list_elem_of_further. eapply IH, H.
Qed.

Lemma nvidia_by_kernel_dkms (ver : string) :
  nvidia_by_kernel ver = "nvidia-dkms"
  <-> contains "-lts" ver = false
      /\ (contains "-zen" ver || contains "-cachyos" ver || contains "-hardened" ver) = true.
Proof.
  unfold nvidia_by_kernel.
  destruct (contains "-lts" ver); [split; [discriminate|intros [H _]; discriminate H]|].
  destruct (contains "-zen" ver || contains "-cachyos" ver || contains "-hardened" ver).
  - tauto.
  - split; [discriminate|intros [_ H]; discriminate H].
Qed.

(** X27. [_nvidia_packages] always returns one driver package followed by
    the four base packages; the driver is one of nvidia, nvidia-lts,
    nvidia-dkms, nvidia-open, nvidia-open-dkms; and [nvidia-dkms] is in the
    list only for a kernel that is not LTS and is zen, cachyos or hardened.
    So a selected [nvidia-open-dkms] never counts as [nvidia-dkms]. *)
Theorem nvidia_packages_shape (db : PackageDb) (k : KernelProbe) (w : World) :
  exists driver,
    (_nvidia_packages db k w).1 = driver :: nvidia_base
    /\ driver ∈ ["nvidia"; "nvidia-lts"; "nvidia-dkms"; "nvidia-open"; "nvidia-open-dkms"]
    /\ ("nvidia-dkms" ∈ (_nvidia_packages db k w).1
        -> driver = "nvidia-dkms"
           /\ contains "-lts" (uname_r k) = false
           /\ (contains "-zen" (uname_r k) || contains "-cachyos" (uname_r k)
               || contains "-hardened" (uname_r k)) = true).
Proof.
  unfold _nvidia_packages. unfold mbind, M_bind, bind, mret, M_ret, ret.
  set (ver := uname_r k).
  assert (Hbase : "nvidia-dkms" ∉ nvidia_base).
  { unfold nvidia_base. rewrite !not_elem_of_cons. repeat split; try discriminate.
    apply not_elem_of_nil. }
  assert (Hkernel : forall w' : World,
             exists driver,
               (nvidia_by_kernel ver :: nvidia_base, w').1 = driver :: nvidia_base
               /\ driver ∈ ["nvidia"; "nvidia-lts"; "nvidia-dkms"; "nvidia-open";
                            "nvidia-open-dkms"]
               /\ ("nvidia-dkms" ∈ (nvidia_by_kernel ver :: nvidia_base, w').1
                   -> driver = "nvidia-dkms"
                      /\ contains "-lts" ver = false
                      /\ (contains "-zen" ver || contains "-cachyos" ver
                          || contains "-hardened" ver) = true)).
  { intros w'. exists (nvidia_by_kernel ver). cbn [fst]. split; [reflexivity|]. split.
    - unfold nvidia_by_kernel. rewrite !elem_of_cons.
      destruct (contains "-lts" ver); [tauto|].
      destruct (contains "-zen" ver || contains "-cachyos" ver || contains "-hardened" ver);
        tauto.
    - intros Hin. apply elem_of_cons in Hin as [Heq|Hin]; [|contradiction].
      symmetry in Heq. split; [exact Heq|]. now apply nvidia_by_kernel_dkms. }
  destruct (bool_decide (prefer_nvidia_open_lower k ∈ ["1"; "true"; "yes"; "on"]));
    [|apply Hkernel].
  match goal with
  | |- context [open_loop db ?c w] =>
      pose proof (open_loop_elem db c w) as Hopen;
      destruct (open_loop db c w) as [[cand|] w1]; cbn [fst] in Hopen
  end; [|apply Hkernel].
  specialize (Hopen cand eq_refl).
  exists cand. cbn [fst]. split; [reflexivity|].
  assert (Hcand : cand = "nvidia-open-dkms" \/ cand = "nvidia-open").
  { destruct (contains "-lts" ver || contains "-zen" ver || contains "-cachyos" ver
              || contains "-hardened" ver);
      vm_compute in Hopen; rewrite ?elem_of_cons, ?elem_of_nil in Hopen;
      repeat (apply elem_of_cons in Hopen as [Hopen|Hopen]; [tauto|]);
      try tauto; inversion Hopen. }
  split.
  - rewrite !elem_of_cons. tauto.
  - intros Hin. apply elem_of_cons in Hin as [Heq|Hin]; [|contradiction].
    destruct Hcand; subst; discriminate.
Qed.

Lemma ensure_kernel_headers_result (db : PackageDb) (d : Desktop) (k : KernelProbe)
    (r : Run) :
  (_ensure_kernel_headers db d k r).1 = _headers_installed db k.
Proof.
  unfold _ensure_kernel_headers. unfold_h.
  destruct (_headers_installed db k); [reflexivity|].
  destruct (_matching_header_pkg db k) as [cand|]; [|reflexivity].
  destruct (truthy cand); [|reflexivity]. cbn [negb].
  now destruct (confirms d "Headers do kernel").
Qed.

(** X28. The NVIDIA block lets the handler go on with the package list
    unless [nvidia-dkms] was picked and no header candidate is installed; in
    that case it returns after the "Atenção" notice, whatever the user
    answered to the offer to install the headers: accepting the offer only
    starts the header installation. *)
Theorem nvidia_prepare_needs_headers (db : PackageDb) (d : Desktop) (k : KernelProbe)
    (r : Run) :
  let pkgs := (_nvidia_packages db k (world r)).1 in
  (nvidia_prepare db d k r).1
  = (if bool_decide ("nvidia-dkms" ∈ pkgs) && negb (_headers_installed db k)
     then None else Some pkgs)
  /\ ((nvidia_prepare db d k r).1 = None ->
      last (trace (nvidia_prepare db d k r).2) = Some (InfoShown "Atenção")).
Proof.
  intros pkgs. unfold pkgs, nvidia_prepare. unfold_h.
  destruct (_nvidia_packages db k (world r)) as [p w1]. cbn [fst snd].
  destruct (bool_decide ("nvidia-dkms" ∈ p)); cbn [andb]; [|split; [reflexivity|discriminate]].
  match goal with
  | |- context [_ensure_kernel_headers db d k ?r0] =>
      pose proof (ensure_kernel_headers_result db d k r0) as Hok;
      destruct (_ensure_kernel_headers db d k r0) as [ok r2]
  end.
  cbn [fst] in Hok. subst ok.
  destruct (_headers_installed db k); cbn [negb fst snd trace].
  - split; [reflexivity|discriminate].
  - split; [reflexivity|]. intros _. apply last_snoc.
Qed.

(* ===================================================================== *)
(** * Further properties of the watcher                                   *)
(* ===================================================================== *)

Lemma watch_loop_first_sighting (env : WatchEnv) (deadline : float) (n : nat)
    (start : Z) (fuel : nat) :
  (forall j, start <= j <= start + Z.of_nat n ->
     (monotonic env (j + 1) <? deadline)%float = true) ->
  (forall j, start <= j < start + Z.of_nat n -> sentinel_exists env j = false) ->
  sentinel_exists env (start + Z.of_nat n) = true ->
  (n < fuel)%nat ->
  watch_loop fuel env deadline start = Some (SentinelSeen (start + Z.of_nat n)).
Proof.
  revert start fuel. induction n as [|n IH]; intros start fuel Hclock Hnot Hseen Hfuel.
  - destruct fuel as [|fuel]; [lia|]. simpl.
    rewrite Z.add_0_r in *. rewrite Hclock by lia. now rewrite Hseen.
  - destruct fuel as [|fuel]; [lia|]. simpl.
    rewrite Hclock by lia. rewrite Hnot by lia.
    replace (start + Z.of_nat (S n)) with (start + 1 + Z.of_nat n) in * by lia.
    apply IH; [| |exact Hseen|lia].
    + intros j Hj. apply Hclock. lia.
    + intros j Hj. apply Hnot. lia.
Qed.

(** X30. If the sentinel first exists at the poll number [n] and the clock
    stays before the four-hour deadline up to that poll, the watcher (given
    enough rounds) stops at exactly that poll, restores the window when
    asked to, and queues the "Processo finalizado." dialog. *)
Theorem watcher_stops_at_first_sighting (env : WatchEnv) (restore_window : bool)
    (n fuel : nat) :
  let deadline := (monotonic env 0 + float_of_int (4 * 60 * 60))%float in
  (forall j, 0 <= j <= Z.of_nat n -> (monotonic env (j + 1) <? deadline)%float = true) ->
  (forall j, 0 <= j < Z.of_nat n -> sentinel_exists env j = false) ->
  sentinel_exists env (Z.of_nat n) = true ->
  (n < fuel)%nat ->
  _wait_sentinel_then_notify fuel env restore_window
  = Some (SentinelSeen (Z.of_nat n),
          (if restore_window then [Deiconify; Present] else [])
          ++ [Info "Instalação" "Processo finalizado."]).
Proof.
  intros deadline Hclock Hnot Hseen Hfuel. unfold _wait_sentinel_then_notify.
  fold deadline.
  rewrite (watch_loop_first_sighting env deadline n 0 fuel); [reflexivity|..].
  - intros j Hj. apply Hclock. lia.
  - intros j Hj. apply Hnot. lia.
  - exact Hseen.
  - exact Hfuel.
Qed.

Lemma watcher_stops_at_first_sighting_witness :
  _wait_sentinel_then_notify 10 (env_done_at 3) true
  = Some (SentinelSeen 3, [Deiconify; Present; Info "Instalação" "Processo finalizado."]).
Proof.
  apply (watcher_stops_at_first_sighting (env_done_at 3) true 3 10).
  - intros j Hj.
    assert (Hc : j = 0 \/ j = 1 \/ j = 2 \/ j = 3) by lia.
    destruct Hc as [->|[->|[->| ->]]]; vm_compute; reflexivity.
  - intros j Hj.
    assert (Hc : j = 0 \/ j = 1 \/ j = 2) by lia.
    destruct Hc as [->|[->| ->]]; vm_compute; reflexivity.
  - vm_compute. reflexivity.
  - lia.
Defined.
